(** * vhum: behavioural human/bot analysis of one pointer or touch gesture

    A shallow embedding of [src/v3/vhum.js] (classes [InputTypeDetector],
    [AdaptivePerceptron], [Vhum]) and of the legacy [HumanVerifier] (the
    version 2 verifier, which records a gesture without scoring it).

    JavaScript numbers are IEEE-754 binary64 values, so they are modelled by
    Rocq's primitive floats: [+], [-], [*], [/], [Math.sqrt], [Math.abs] and the
    comparisons are the kernel's binary64 operations, NaN and the infinities
    included.  The elementary functions that ECMA-262 leaves
    "implementation-approximated" ([Math.exp], [Math.log2], [Math.acos],
    [Math.atan2], [Math.hypot], [Math.pow]) belong to the host and form the
    interface [MathLib].  The clock ([performance.now()]) and the geometry of
    the protected control ([getBoundingClientRect()]) are readings of the
    environment and are passed explicitly.  A [TypeError] is [None]. *)

From Stdlib Require Import Floats ZArith List Bool String Lia.
Import ListNotations.

Set Warnings "-inexact-float".

(* ================================================================== *)
(** * JavaScript values and the exactly specified part of [Math] *)
(* ================================================================== *)

Module Js.

Open Scope float_scope.

(** A property read that may find no property. *)
Inductive Val : Type :=
| Undefined
| Num (x : float).

(** ToNumber on the two kinds of value the engine reads. *)
Definition ToNumber (v : Val) : float :=
  match v with
  | Undefined => nan
  | Num x => x
  end.

(** ToBoolean of a Number: [0], [-0] and [NaN] are falsy. *)
Definition truthy (x : float) : bool := negb (is_zero x || is_nan x).

(** [x || d] where [x] is a Number. *)
Definition orElse (x d : float) : float := if truthy x then x else d.

(** [v || d] where [v] is a property read. *)
Definition valOrElse (v : Val) (d : float) : float :=
  match v with
  | Undefined => d
  | Num x => orElse x d
  end.

(** [a > b] when [b] is a property read: [undefined] converts to NaN and
    every comparison with NaN is false. *)
Definition gtVal (a : float) (b : Val) : bool := ToNumber b <? a.

(** [Math.max(a, b)]: NaN if either is NaN, and [+0] is larger than [-0]. *)
Definition Math_max (a b : float) : float :=
  if is_nan a || is_nan b then nan
  else if a <? b then b
  else if b <? a then a
  else if get_sign a then b else a.

(** [Math.min(a, b)]: NaN if either is NaN, and [-0] is smaller than [+0]. *)
Definition Math_min (a b : float) : float :=
  if is_nan a || is_nan b then nan
  else if a <? b then a
  else if b <? a then b
  else if get_sign a then a else b.

(** [Math.max(...l)] and [Math.min(...l)]; on the empty list
    [-Infinity] and [Infinity]. *)
Definition Math_max_list (l : list float) : float := fold_left Math_max l neg_infinity.
Definition Math_min_list (l : list float) : float := fold_left Math_min l infinity.

(** The exact float of an integer of magnitude at most 2^53 (rounded to
    nearest beyond). *)
Definition of_Z (n : Z) : float := SF2Prim (binary_normalize prec emax n 0 false).

(** [l.length] as a Number. *)
Definition length_num {A : Type} (l : list A) : float := of_Z (Z.of_nat (List.length l)).

(** [Math.round(x)]: the integer nearest to [x], ties towards [+Infinity];
    [-0] for [-0.5 <= x < 0]; NaN, zeros and infinities unchanged. *)
Definition Math_round (x : float) : float :=
  match Prim2SF x with
  | S754_finite s m e =>
      if (0 <=? e)%Z then x
      else
        let n := if s then Z.neg m else Z.pos m in
        let r := ((2 * n + 2 ^ (- e)) / 2 ^ (1 - e))%Z in
        if (r =? 0)%Z then (if s then neg_zero else zero) else of_Z r
  | _ => x
  end.

(** [n % d] (Number::remainder): truncating, the sign of the dividend. *)
Definition rem (n d : float) : float :=
  match Prim2SF n, Prim2SF d with
  | S754_nan, _ | _, S754_nan => nan
  | S754_infinity _, _ => nan
  | _, S754_zero _ => nan
  | S754_zero _, _ => n
  | _, S754_infinity _ => n
  | S754_finite sn mn en, S754_finite _ md ed =>
      let e := Z.min en ed in
      let a := (Z.pos mn * 2 ^ (en - e))%Z in
      let b := (Z.pos md * 2 ^ (ed - e))%Z in
      let v := SF2Prim (binary_normalize prec emax (Z.rem a b) e false) in
      if sn then - v else v
  end.

(** [Math.PI]. *)
Definition Math_PI : float := 3.141592653589793.

(** [l.reduce(f)] with no initial value: a [TypeError] on the empty array. *)
Definition reduce1 {A : Type} (f : A -> A -> A) (l : list A) : option A :=
  match l with
  | [] => None
  | a :: l' => Some (fold_left f l' a)
  end.

(** [l.reduce(f, a)] with a callback that may throw. *)
Fixpoint reduceM {A B : Type} (f : A -> B -> option A) (l : list B) (a : A) : option A :=
  match l with
  | [] => Some a
  | b :: l' =>
      match f a b with
      | Some a' => reduceM f l' a'
      | None => None
      end
  end.

(** The pairs [(l[i-1], l[i])] for [i = 1 .. l.length - 1]. *)
Definition pairs {A : Type} (l : list A) : list (A * A) := combine l (tl l).

(** The triples [(l[i-2], l[i-1], l[i])] for [i = 2 .. l.length - 1]. *)
Definition triples {A : Type} (l : list A) : list (A * A * A) :=
  combine (combine l (tl l)) (tl (tl l)).

(** ** Objects whose keys are Numbers converted to strings

    [freq[d]] converts the Number [d] to a property key.  Two Numbers give
    the same key exactly when they are equal as Numbers ([-0] and [0] both
    give ["0"]) or are both NaN.  Own properties are enumerated with the
    array indices (integers from 0 to 2^32 - 2) first, in ascending order,
    and then the other keys in the order of their creation. *)

Definition Counts : Type := list (float * float).

Definition same_key (a b : float) : bool := (a =? b) || (is_nan a && is_nan b).

Definition is_index (k : float) : bool :=
  (0 <=? k) && (k <? 4294967295) && (Math_round k =? k).

(** [o[k]]. *)
Fixpoint counts_get (o : Counts) (k : float) : Val :=
  match o with
  | [] => Undefined
  | (k', v) :: o' => if same_key k' k then Num v else counts_get o' k
  end.

(** The place of a new array-index key [k]: before the first key that is
    no array index or is a larger one. *)
Fixpoint insert_index (o : Counts) (k v : float) : Counts :=
  match o with
  | [] => [(k, v)]
  | (k', v') :: o' =>
      if is_index k' && (k' <? k) then (k', v') :: insert_index o' k v
      else (k, v) :: o
  end.

(** Overwrites the value of an existing key, in place. *)
Fixpoint overwrite (o : Counts) (k v : float) : Counts :=
  match o with
  | [] => []
  | (k', v') :: o' =>
      if same_key k' k then (k', v) :: o' else (k', v') :: overwrite o' k v
  end.

(** [o[k] = v]. *)
Definition counts_set (o : Counts) (k v : float) : Counts :=
  match counts_get o k with
  | Num _ => overwrite o k v
  | Undefined => if is_index k then insert_index o k v else (o ++ [(k, v)])%list
  end.

(** [Object.values(o)]. *)
Definition values (o : Counts) : list float := map snd o.

End Js.

(** The error monad of exceptions: [None] is a thrown [TypeError]. *)
Notation "x <- e ;; k" := (match e with Some x => k | None => None end)
  (at level 61, e at next level, right associativity).

(* ================================================================== *)
(** * The host's elementary functions *)
(* ================================================================== *)

(** The part of [Math] whose results ECMA-262 does not fix bit for bit.
    Every theorem below holds for every host. *)
Class MathLib : Type := {
  Math_exp : float -> float;
  Math_log2 : float -> float;
  Math_acos : float -> float;
  Math_atan2 : float -> float -> float;
  Math_hypot : float -> float -> float;
  Math_pow : float -> float -> float
}.

(** One concrete host, built from binary64 arithmetic by argument reduction
    and power series.  It runs the model on closed inputs. *)
Module RefMath.

Open Scope float_scope.

Definition ln2 : float := 0.6931471805599453.

(** [sum_{k < n} x^k / k!], by Horner's rule. *)
Fixpoint exp_series (n : nat) (k : float) (x : float) : float :=
  match n with
  | O => 1
  | S n' => 1 + x / k * exp_series n' (k + 1) x
  end.

(** The integer nearest to a float of magnitude below 2^53. *)
Definition nearest (x : float) : Z :=
  match Prim2SF (Js.Math_round x) with
  | S754_finite s m e => Z.shiftl (if s then Z.neg m else Z.pos m) e
  | _ => 0%Z
  end.

Definition exp (x : float) : float :=
  if is_nan x then nan
  else if 710 <? x then infinity
  else if x <? -746 then 0
  else
    let k := nearest (x / ln2) in
    let r := x - Js.of_Z k * ln2 in
    Z.ldexp (exp_series 24 1 r) k.

(** [sum_{j < n} (sign * u2)^j / (k + 2j)], by Horner's rule: with [k = 1] and
    [u2 = u * u] it is the series of [atanh u / u] ([sign = 1]) or of
    [atan u / u] ([sign = -1]). *)
Fixpoint odd_series (n : nat) (k : float) (sign : float) (u2 : float) : float :=
  match n with
  | O => 0
  | S n' => 1 / k + sign * u2 * odd_series n' (k + 2) sign u2
  end.

(** [x = m * 2^e] with [m] in [[sqrt 1/2, sqrt 2)], for finite [x > 0]. *)
Definition split (x : float) : float * Z :=
  let (m, e) := Z.frexp x in
  if m <? 0.7071067811865476 then (2 * m, (e - 1)%Z) else (m, e).

(** [ln m] for [m] near 1, as [2 atanh ((m - 1) / (m + 1))]. *)
Definition ln_mantissa (m : float) : float :=
  let u := (m - 1) / (m + 1) in
  2 * u * odd_series 40 1 1 (u * u).

Definition ln (x : float) : float :=
  if is_nan x || (x <? 0) then nan
  else if is_zero x then neg_infinity
  else if is_infinity x then infinity
  else let (m, e) := split x in Js.of_Z e * ln2 + ln_mantissa m.

Definition log2 (x : float) : float :=
  if is_nan x || (x <? 0) then nan
  else if is_zero x then neg_infinity
  else if is_infinity x then infinity
  else let (m, e) := split x in Js.of_Z e + ln_mantissa m / ln2.

(** [atan t] for [|t| <= 1]: two halvings of the angle, then the series. *)
Definition atan_small (t : float) : float :=
  let h (a : float) := a / (1 + sqrt (1 + a * a)) in
  let u := h (h t) in
  4 * u * odd_series 30 1 (-1) (u * u).

Definition atan (t : float) : float :=
  if is_nan t then nan
  else if 1 <? abs t then
    (if t <? 0 then - (Js.Math_PI / 2) - atan_small (1 / t)
     else Js.Math_PI / 2 - atan_small (1 / t))
  else atan_small t.

Definition atan2 (y x : float) : float :=
  if is_nan x || is_nan y then nan
  else if 0 <? x then atan (y / x)
  else if x <? 0 then
    (if get_sign y then atan (y / x) - Js.Math_PI else atan (y / x) + Js.Math_PI)
  else if 0 <? y then Js.Math_PI / 2
  else if y <? 0 then - (Js.Math_PI / 2)
  else if get_sign x then (if get_sign y then - Js.Math_PI else Js.Math_PI)
  else y.

Definition acos (x : float) : float :=
  if is_nan x || (1 <? abs x) then nan
  else atan2 (sqrt (1 - x * x)) x.

Definition hypot (x y : float) : float :=
  if is_infinity x || is_infinity y then infinity
  else sqrt (x * x + y * y).

Definition pow (b e : float) : float :=
  if e =? 2 then b * b
  else if e =? 3 then b * b * b
  else exp (e * ln b).

#[export] Instance host : MathLib := {
  Math_exp := exp;
  Math_log2 := log2;
  Math_acos := acos;
  Math_atan2 := atan2;
  Math_hypot := hypot;
  Math_pow := pow
}.

End RefMath.

(* ================================================================== *)
(** * Samples *)
(* ================================================================== *)

(** One element of [this.points]: [{ x, y, t }]. *)
Module Point.
Record Point : Type := make { x : float; y : float; t : float }.
End Point.
Abbreviation Point := Point.Point.

(** The three input types, [InputTypeDetector.TYPES]. *)
Inductive InputType : Type := MOUSE | TOUCH | UNKNOWN.

(** [this.lastInputSource] when it is not [null]: ['mouse'] or ['touch']. *)
Inductive Source : Type := SrcMouse | SrcTouch.

Definition InputType_eqb (a b : InputType) : bool :=
  match a, b with
  | MOUSE, MOUSE | TOUCH, TOUCH | UNKNOWN, UNKNOWN => true
  | _, _ => false
  end.

(** [ty === InputTypeDetector.TYPES.TOUCH]. *)
Definition isTouch (ty : InputType) : bool := InputType_eqb ty TOUCH.

(* ================================================================== *)
(** * class InputTypeDetector *)
(* ================================================================== *)

Module InputTypeDetector.
Section WithHost.
Context {M : MathLib}.
Open Scope float_scope.
Import Js.

Record JitterPattern : Type := { highVariance : float; precisionPattern : float }.

Record DwellCharacteristics : Type := { largeContactArea : float; pointContact : float }.

Record SpeedProfile : Type := {
  smoothProfile : float; sharpProfile : float;
  lowPrecision : float; highPrecision : float
}.

(** [_analyzeJitterPattern(points)].  The mean inside the variance is
    recomputed by the callback for each element, with a [reduce] that has no
    initial value; so has [dtMean]. *)
Definition _analyzeJitterPattern (points : list Point) : option JitterPattern :=
  let dts := map (fun '(p, q) => Math_max 0.1 (Point.t q - Point.t p)) (pairs points) in
  s <- reduceM (fun a b =>
         m <- reduce1 add dts ;;
         Some (a + Math_pow (b - m / length_num dts) 2)) dts 0 ;;
  let dtVariance := s / length_num dts in
  let dtStdDev := sqrt dtVariance in
  m <- reduce1 add dts ;;
  let dtMean := m / length_num dts in
  let dtCV := dtStdDev / dtMean in
  Some {| highVariance := Math_min 1 (dtCV / 0.15);
          precisionPattern := Math_max 0 (1 - dtCV / 0.08) |}.

(** [_analyzeDwellCharacteristics(points)]. *)
Definition _analyzeDwellCharacteristics (points : list Point) : option DwellCharacteristics :=
  if (List.length points <? 5)%nat
  then Some {| largeContactArea := 0.5; pointContact := 0.5 |}
  else
    let cx := fold_left (fun a b => a + Point.x b) points 0 / length_num points in
    let cy := fold_left (fun a b => a + Point.y b) points 0 / length_num points in
    let distances := map (fun p => Math_hypot (Point.x p - cx) (Point.y p - cy)) points in
    s <- reduce1 add distances ;;
    let avgDist := s / length_num distances in
    let maxDist := Math_max_list distances in
    let spreadArea := 15 <? maxDist in
    Some {| largeContactArea := if spreadArea then 0.8 else 0.2;
            pointContact := if spreadArea then 0.2 else 0.8 |}.

(** The instantaneous speeds in px/s, the elapsed time floored to 8 ms. *)
Definition speeds_of (points : list Point) : list float :=
  map (fun '(p, q) =>
         let dx := Point.x q - Point.x p in
         let dy := Point.y q - Point.y p in
         let dtMs := Math_max 8 (Point.t q - Point.t p) in
         let dt := dtMs / 1000 in
         sqrt (dx * dx + dy * dy) / dt) (pairs points).

(** [_analyzeSpeedProfile(points)]. *)
Definition _analyzeSpeedProfile (points : list Point) : SpeedProfile :=
  if (List.length points <? 3)%nat
  then {| smoothProfile := 0.5; sharpProfile := 0.5; lowPrecision := 0.5; highPrecision := 0.5 |}
  else
    let speeds := speeds_of points in
    let mean := fold_left add speeds 0 / length_num speeds in
    let speedVar := fold_left (fun a b => a + Math_pow (b - mean) 2) speeds 0 / length_num speeds in
    let speedStd := sqrt (orElse speedVar 0) in
    let speedCV := if 1e-6 <? abs mean then speedStd / mean else 0 in
    {| smoothProfile := Math_min 1 (speedCV / 0.5);
       sharpProfile := Math_max 0 (1 - speedCV / 0.3);
       lowPrecision := Math_min 1 (speedCV / 0.6);
       highPrecision := Math_max 0 (1 - speedCV / 0.4) |}.

(** [detect(points, inputSource)]. *)
Definition detect (points : list Point) (inputSource : option Source) : option InputType :=
  match inputSource with
  | Some SrcTouch => Some TOUCH
  | Some SrcMouse => Some MOUSE
  | None =>
      if (List.length points <? 10)%nat then Some UNKNOWN
      else
        jitterAnalysis <- _analyzeJitterPattern points ;;
        dwellAnalysis <- _analyzeDwellCharacteristics points ;;
        let speedProfile := _analyzeSpeedProfile points in
        let touchScore :=
          highVariance jitterAnalysis * 0.3 + largeContactArea dwellAnalysis * 0.3
          + smoothProfile speedProfile * 0.2 + lowPrecision speedProfile * 0.2 in
        let mouseScore :=
          precisionPattern jitterAnalysis * 0.3 + pointContact dwellAnalysis * 0.3
          + sharpProfile speedProfile * 0.2 + highPrecision speedProfile * 0.2 in
        Some (if mouseScore <? touchScore then TOUCH else MOUSE)
  end.

End WithHost.
End InputTypeDetector.

(* ================================================================== *)
(** * class AdaptivePerceptron *)
(* ================================================================== *)

Module AdaptivePerceptron.

Open Scope float_scope.
Open Scope string_scope.
Import Js.

(** A JavaScript object whose own properties are all Numbers, in
    enumeration order (creation order: no key here is an array index). *)
Definition NumObject : Type := list (string * float).

(** [o[key]] for the keys that [o] owns or that no object has.  A key that
    every object inherits from [Object.prototype] (['constructor'],
    ['toString'], ...) reads the inherited member, which is no Number; the
    engine's feature vectors and weight tables are read at the ten feature
    names only. *)
Fixpoint get (o : NumObject) (key : string) : Val :=
  match o with
  | [] => Undefined
  | (k, v) :: o' => if String.eqb k key then Num v else get o' key
  end.

(** The fields of a perceptron object.  [lastZ] and [lastP] do not exist
    until the first [predict]. *)
Record Perceptron : Type := {
  inputType : InputType;
  weights : NumObject;
  bias : float;
  lastZ : Val;
  lastP : Val
}.

Definition touchWeights : NumObject :=
  [ ("fitts", 1.6); ("temporal", 1.3); ("decision", 1.7); ("jitter", 0.35);
    ("dwell", 0.75); ("speed", 0.35); ("accel", 0.4); ("curvature", 0.25);
    ("entropy", 0.2); ("pauses", 1.0) ].

Definition mouseWeights : NumObject :=
  [ ("fitts", 2.2); ("temporal", 2.1); ("decision", 2.3); ("jitter", 0.9);
    ("dwell", 1.4); ("speed", 0.5); ("accel", 0.6); ("curvature", 0.4);
    ("entropy", 0.3); ("pauses", 1.7) ].

(** [_initializeWeights()]: the touch preset for TOUCH, the other preset
    for every other input type. *)
Definition _initializeWeights (p : Perceptron) : Perceptron :=
  if isTouch (inputType p)
  then {| inputType := inputType p; weights := touchWeights; bias := -2.6;
          lastZ := lastZ p; lastP := lastP p |}
  else {| inputType := inputType p; weights := mouseWeights; bias := -3.2;
          lastZ := lastZ p; lastP := lastP p |}.

(** [new AdaptivePerceptron(inputType)]. *)
Definition new (ty : InputType) : Perceptron :=
  _initializeWeights
    {| inputType := ty; weights := []; bias := 0; lastZ := Undefined; lastP := Undefined |}.

Section WithHost.
Context {M : MathLib}.

(** [sigmoid(z)]. *)
Definition sigmoid (z : float) : float :=
  1 / (1 + Math_exp (- (Math_max (-100) (Math_min 100 z)))).

(** The loop of [predict]: [for (let key in inputs)]. *)
Definition accumulate (w : NumObject) (inputs : NumObject) (z0 : float) : float :=
  fold_left (fun z '(key, v) =>
               let w := valOrElse (get w key) 0 in
               z + orElse v 0 * w) inputs z0.

(** [predict(inputs)]: the probability, and the perceptron with [lastZ]
    and [lastP] written. *)
Definition predict (p : Perceptron) (inputs : NumObject) : float * Perceptron :=
  let z := accumulate (weights p) inputs (bias p) in
  let pr := sigmoid z in
  (pr, {| inputType := inputType p; weights := weights p; bias := bias p;
          lastZ := Num z; lastP := Num pr |}).

End WithHost.
End AdaptivePerceptron.

(* ================================================================== *)
(** * class Vhum *)
(* ================================================================== *)

Module Vhum.

Open Scope float_scope.
Open Scope string_scope.
Import Js.

(** ** The object's fields *)

(** [{ x, y }], the entry position. *)
Record Pos : Type := { pos_x : float; pos_y : float }.

(** What the handlers read of an event (or of a touch): [clientX], [clientY]. *)
Record Coords : Type := { clientX : float; clientY : float }.

(** [getBoundingClientRect()] of the protected control. *)
Record Rect : Type := { left : float; top : float; width : float; height : float }.

(** [this.options], the two thresholds.  A threshold is whatever value the
    caller passed, [undefined] included. *)
Record Options : Type := { thresholdMouse : Val; thresholdTouch : Val }.

(** The caller's options object: [None] is a property that is not there,
    [Some Undefined] one that is there with the value [undefined]. *)
Record UserOptions : Type := { givenMouse : option Val; givenTouch : option Val }.

(** [this.nn] is a reference to one of the two perceptron objects. *)
Inductive Selected : Type := TheMouseNet | TheTouchNet.

(** A subscriber, known by its identity. *)
Definition Callback : Type := nat.

Record State : Type := {
  options : Options;
  points : list Point;
  isTracking : bool;
  t_entry : float;
  t_down : float;
  entry_pos : Pos;
  lastInputSource : option Source;
  inputType : InputType;
  nnMouse : AdaptivePerceptron.Perceptron;
  nnTouch : AdaptivePerceptron.Perceptron;
  nn : Selected;
  listeners : list (string * list Callback)
}.

(** ** What the extractors return

    A field that only some of the [return] statements of an extractor write
    is a [Val]: reading it from the other objects gives [undefined].  Field
    names that several of the objects share ([score], [avg], [var], [cv],
    [variance], ...) carry the object's name here, and [dispersao] is the
    field the source spells with a tilde on the second a. *)

Record Jitter : Type := {
  jerk : float; isWhiteNoise : bool; tremor : float; spectralPower : Val;
  jitter_cv : float; syncRatio : float
}.

Record SpeedStats : Type := {
  speed_avg : float; speed_max : float; speed_min : Val; speed_score : float;
  distribution : string; mode : float; skewness : float
}.

Record AccelStats : Type := {
  accel_avg : float; accel_var : float; accel_score : float;
  maxAccel : float; naturalAccel : bool
}.

Record Curvature : Type := {
  curv_score : float; curvature : float; straightness : float;
  angleVariance : float; naturalCurvature : option bool
}.

Record Entropy : Type := {
  ent_score : float; entropy : float; directionBias : float;
  predictability : float; normalizedEntropy : Val; dominance : Val
}.

Record Pauses : Type := {
  count : Z; pause_score : float; meanPause : float; pauseStdDev : Val;
  pauseCV : Val; dispersao : Val; pausePattern : string; maxPause : Val
}.

Record Temporal : Type := {
  temp_score : float; isSuspicious : bool; perfectSync : float;
  temp_variance : float; meanDt : Val; meanDtHz : Val
}.

Section WithHost.
Context {M : MathLib}.

(** [l.reduce((a, b) => a + Math.pow(b - m, 2), 0)]. *)
Definition sumSquares (l : list float) (m : float) : float :=
  fold_left (fun a b => a + Math_pow (b - m) 2) l 0.

(** [l.reduce((a, b) => a + b, 0)]. *)
Definition sum (l : list float) : float := fold_left add l 0.

(** ** analyzeJitter *)

Definition analyzeJitter (this : State) (pts : list Point) : option Jitter :=
  if (List.length pts <? 5)%nat
  then Some {| jerk := 0; isWhiteNoise := false; tremor := 0; spectralPower := Num 0;
               jitter_cv := 0.2; syncRatio := 0 |}
  else
    let dts := map (fun '(p, q) => Math_max 8 (Point.t q - Point.t p)) (pairs pts) in
    s <- reduce1 add dts ;;
    let meanDt := s / length_num dts in
    let varianceDt := sumSquares dts meanDt / length_num dts in
    let stdDevDt := sqrt varianceDt in
    let velocities :=
      map (fun '((p, q), dt) =>
             let dx := Point.x q - Point.x p in
             let dy := Point.y q - Point.y p in
             let dtSec := Math_max 0.008 (dt / 1000) in
             sqrt (dx * dx + dy * dy) / dtSec) (combine (pairs pts) dts) in
    let accelerations :=
      map (fun '((v0, v1), dt) => abs (v1 - v0) / Math_max 0.008 (dt / 1000))
          (combine (pairs velocities) (tl dts)) in
    let meanVel := Math_max 0.1 (sum velocities / Math_max 1 (length_num velocities)) in
    let varVel := orElse (sumSquares velocities meanVel / Math_max 1 (length_num velocities)) 0 in
    let stdDevVel := sqrt (Math_max 0 varVel) in
    let cv := Math_max 0 (stdDevVel / Math_max 0.001 meanVel) in
    let tremor0 :=
      fold_left (fun tr '(a0, a1) => tr + abs (a1 - a0)) (pairs (tl accelerations)) 0 in
    let tremor1 := tremor0 / Math_max 1 (length_num accelerations - 2) in
    let perfectMultiples :=
      filter (fun dt => (abs (dt - 16.67) <? 1) || (abs (dt - 33.33) <? 1) || (abs (dt - 50) <? 1))
             dts in
    let syncRatio1 :=
      if 0 <? length_num dts then length_num perfectMultiples / length_num dts else 0 in
    let jitterThreshold := if isTouch (inputType this) then 0.12 else 0.08 in
    let isSuspiciouslySmooth :=
      (cv <? jitterThreshold) || ((varVel <? 0.01) && (stdDevDt <? 1)) || (0.75 <? syncRatio1) in
    Some {| jerk := Math_min 1 (Math_max 0 (tremor1 / 50));
            isWhiteNoise := isSuspiciouslySmooth;
            tremor := Math_min 1 cv;
            spectralPower := Undefined;
            jitter_cv := cv;
            syncRatio := syncRatio1 |}.

(** ** analyzeSpeed *)

Definition analyzeSpeed (pts : list Point) : SpeedStats :=
  if (List.length pts <? 3)%nat
  then {| speed_avg := 0; speed_max := 0; speed_min := Undefined; speed_score := 0;
          distribution := "uniform"; mode := 0; skewness := 0 |}
  else
    let speeds := InputTypeDetector.speeds_of pts in
    let avg := sum speeds / length_num speeds in
    let max := Math_max_list speeds in
    let min := Math_min_list speeds in
    let variance := sumSquares speeds avg / length_num speeds in
    let stdDev := sqrt variance in
    let skew :=
      if 0 <? stdDev
      then fold_left (fun a b => a + Math_pow ((b - avg) / stdDev) 3) speeds 0 / length_num speeds
      else 0 in
    let humanLikeDistribution :=
      (0.3 <? skew) && (50 <? avg) && (0.2 <? stdDev / avg) && (stdDev / avg <? 2.0) in
    let accelerationPattern :=
      (1.5 <? max / Math_max avg 1) && (max / Math_max avg 1 <? 4) in
    let score :=
      if humanLikeDistribution && accelerationPattern
      then Math_min 1 (0.7 + 0.3 * Math_max 0 (Math_min 1 ((skew - 0.3) / 1.0)))
      else Math_max 0 (Math_min 1 (avg / 600)) in
    {| speed_avg := avg; speed_max := max; speed_min := Num min; speed_score := score;
       distribution := if humanLikeDistribution then "lognormal" else "uniform";
       mode := avg; skewness := skew |}.

(** ** analyzeAcceleration *)

Definition analyzeAcceleration (this : State) (pts : list Point) : AccelStats :=
  if (List.length pts <? 4)%nat
  then {| accel_avg := 0; accel_var := 0; accel_score := 0; maxAccel := 0;
          naturalAccel := false |}
  else
    let speeds := InputTypeDetector.speeds_of pts in
    let dts := map (fun '(p, q) => Math_max 8 (Point.t q - Point.t p) / 1000) (pairs pts) in
    let acc :=
      map (fun '((s0, s1), dt) => (s1 - s0) / orElse dt 0.016)
          (combine (pairs speeds) (tl dts)) in
    let mean := fold_left (fun a b => a + abs b) acc 0 / Math_max 1 (length_num acc) in
    let variance :=
      match acc with
      | [] => 0
      | _ => sumSquares acc mean / length_num acc
      end in
    let stdDev := sqrt variance in
    let maxAcc :=
      match acc with
      | [] => 0
      | _ => Math_max_list (map abs acc)
      end in
    let maxAccelThreshold := if isTouch (inputType this) then 6000 else 5000 in
    let natural := (maxAcc <? maxAccelThreshold) && (50 <? maxAcc) in
    let smoothAccel := stdDev / (mean + 0.1) <? 3.0 in
    let score :=
      if natural && smoothAccel
      then Math_min 1 (0.8 + 0.2 * Math_max 0 (Math_min 1 ((stdDev / (mean + 0.1) - 0.5) / 2.0)))
      else Math_max 0 (Math_min 1 (mean / 2000)) in
    {| accel_avg := mean; accel_var := variance; accel_score := score; maxAccel := maxAcc;
       naturalAccel := natural && smoothAccel |}.

(** ** analyzeCurvature *)

(** The turning angle at [b] on the way [a], [b], [c]; none when one of the
    two segments has length zero ([continue]). *)
Definition turningAngle (a b c : Point) : option float :=
  let v1x := Point.x b - Point.x a in
  let v1y := Point.y b - Point.y a in
  let v2x := Point.x c - Point.x b in
  let v2y := Point.y c - Point.y b in
  let dot := v1x * v2x + v1y * v2y in
  let mag1 := Math_hypot v1x v1y in
  let mag2 := Math_hypot v2x v2y in
  if mag1 * mag2 =? 0 then None
  else Some (Math_acos (Math_max (-1) (Math_min 1 (dot / (mag1 * mag2))))).

(** [angles], in the order of the loop. *)
Fixpoint anglesOf (l : list (Point * Point * Point)) : list float :=
  match l with
  | [] => []
  | (a, b, c) :: l' =>
      match turningAngle a b c with
      | Some ang => ang :: anglesOf l'
      | None => anglesOf l'
      end
  end.

Definition analyzeCurvature (pts : list Point) : option Curvature :=
  if (List.length pts <? 4)%nat
  then Some {| curv_score := 0; curvature := 0; straightness := 0; angleVariance := 0;
               naturalCurvature := None |}
  else
    let angles := anglesOf (triples pts) in
    let angleSum := sum angles in
    let avgAngle :=
      match angles with
      | [] => 0
      | _ => angleSum / length_num angles
      end in
    let angleVar :=
      match angles with
      | [] => 0
      | _ => sumSquares angles avgAngle / length_num angles
      end in
    let angleStdDev := sqrt angleVar in
    let natural := (0.2 <? avgAngle) && (avgAngle <? 1.2) in
    let smoothCurvature := angleStdDev <? avgAngle + 0.5 in
    let pathLength :=
      fold_left (fun a '(p, q) => a + Math_hypot (Point.x q - Point.x p) (Point.y q - Point.y p))
                (pairs pts) 0 in
    first <- hd_error pts ;;
    final <- hd_error (rev pts) ;;
    let euclidean :=
      Math_hypot (Point.x final - Point.x first) (Point.y final - Point.y first) in
    let straight := if 0 <? euclidean then euclidean / pathLength else 0 in
    let score :=
      if natural && smoothCurvature && (0.7 <? straight)
      then Math_min 1 (0.7 + 0.3 * Math_min 1 straight)
      else Math_max 0 (Math_min 1 (straight * 0.5)) in
    Some {| curv_score := score; curvature := avgAngle; straightness := straight;
            angleVariance := angleVar;
            naturalCurvature := Some (natural && smoothCurvature) |}.

(** ** analyzeEntropy *)

(** The direction of one step, quantized to eighths of a turn; none for a
    step shorter than half a pixel ([continue]). *)
Definition direction (p q : Point) : option float :=
  let dx := Point.x q - Point.x p in
  let dy := Point.y q - Point.y p in
  if Math_hypot dx dy <? 0.5 then None
  else Some (rem (Math_round (Math_atan2 dy dx / (Math_PI / 4))) 8).

Fixpoint directionsOf (l : list (Point * Point)) : list float :=
  match l with
  | [] => []
  | (p, q) :: l' =>
      match direction p q with
      | Some d => d :: directionsOf l'
      | None => directionsOf l'
      end
  end.

(** [directions.forEach(d => freq[d] = (freq[d] || 0) + 1)]. *)
Definition frequencies (directions : list float) : Counts :=
  fold_left (fun freq d => counts_set freq d (valOrElse (counts_get freq d) 0 + 1))
            directions [].

Definition analyzeEntropy (pts : list Point) : Entropy :=
  if (List.length pts <? 4)%nat
  then {| ent_score := 0; entropy := 0; directionBias := 0; predictability := 0;
          normalizedEntropy := Undefined; dominance := Undefined |}
  else
    let directions := directionsOf (pairs pts) in
    match directions with
    | [] => {| ent_score := 0; entropy := 0; directionBias := 0; predictability := 0;
               normalizedEntropy := Num 0; dominance := Num 0 |}
    | _ =>
        let freq := frequencies directions in
        let total := length_num directions in
        let ent :=
          fold_left (fun e c =>
                       let p := c / total in
                       if 0 <? p then e - p * Math_log2 p else e) (values freq) 0 in
        let maxEntropy := Math_log2 (orElse (length_num freq) 1) in
        let normalized := if 0 <? maxEntropy then ent / maxEntropy else 0 in
        let axisAlignedDirs := filter (fun d => rem d 2 =? 0) directions in
        let bias := length_num axisAlignedDirs / total in
        let maxFreq := Math_max_list (values freq) in
        let dom := maxFreq / total in
        let predict := if 0.6 <? dom then 1 - normalized else normalized in
        let humanLikeEntropy := (0.4 <? normalized) && (normalized <? 0.95) in
        let score :=
          if humanLikeEntropy then normalized
          else Math_max 0 (Math_min 1 (1 - abs (normalized - 0.65) / 0.5)) in
        {| ent_score := score; entropy := ent; directionBias := bias;
           predictability := predict; normalizedEntropy := Num normalized;
           dominance := Num dom |}
    end.

(** ** countPauses *)

Definition countPauses (pts : list Point) : Pauses :=
  if (List.length pts <? 3)%nat
  then {| count := 0; pause_score := 0; meanPause := 0; pauseStdDev := Undefined;
          pauseCV := Undefined; dispersao := Undefined; pausePattern := "none";
          maxPause := Undefined |}
  else
    let pauseThreshold := 80 in
    let pauses :=
      filter (fun dt => pauseThreshold <? dt)
             (map (fun '(p, q) => Point.t q - Point.t p) (pairs pts)) in
    match pauses with
    | [] => {| count := 0; pause_score := 0.1; meanPause := 0; pauseStdDev := Undefined;
               pauseCV := Undefined; dispersao := Undefined; pausePattern := "continuous";
               maxPause := Num 0 |}
    | _ =>
        let pauseCount := length_num pauses in
        let mean := sum pauses / length_num pauses in
        let pauseVariance := sumSquares pauses mean / length_num pauses in
        let stdDev := sqrt pauseVariance in
        let cv := if 0 <? mean then stdDev / mean else 0 in
        let disp := pauseVariance / (mean + 0.1) in
        let poissonLike := (0.8 <? disp) && (disp <? 3.0) in
        let naturalPauseTiming := (50 <? mean) && (mean <? 500) in
        let score :=
          if poissonLike && naturalPauseTiming && (0.2 <? cv)
          then Math_min 1 (0.6 + 0.4 * Math_max 0 (Math_min 1 (cv / 1.0)))
          else Math_max 0 (Math_min 1 (Math_min (pauseCount / 5) (1 - disp / 5))) in
        {| count := Z.of_nat (List.length pauses);
           pause_score := Math_max 0 (Math_min 1 score);
           meanPause := mean; pauseStdDev := Num stdDev; pauseCV := Num cv;
           dispersao := Num disp;
           pausePattern :=
             if poissonLike then "natural_poisson"
             else if 3 <? disp then "irregular" else "regular";
           maxPause := Num (Math_max_list pauses) |}
    end.

(** ** checkTemporalPrecision *)

Definition refreshRates : list float := [2.78; 4.17; 5; 8.33; 10; 16.67; 20; 33.33; 50].

(** The number of rates that [dt] matches, once or doubled, within the
    tolerance. *)
Definition matches (dt : float) : nat :=
  let tolerance := 0.5 in
  List.length
    (filter (fun rate => (abs (dt - rate) <? tolerance) || (abs (dt - rate * 2) <? tolerance))
            refreshRates).

Definition checkTemporalPrecision (pts : list Point) : option Temporal :=
  if (List.length pts <? 5)%nat
  then Some {| temp_score := 0; isSuspicious := false; perfectSync := 0; temp_variance := 0;
               meanDt := Undefined; meanDtHz := Undefined |}
  else
    let dts := map (fun '(p, q) => Point.t q - Point.t p) (pairs pts) in
    let syncCount := fold_left (fun n dt => (n + matches dt)%nat) dts O in
    let ratio :=
      if 0 <? length_num dts then of_Z (Z.of_nat syncCount) / length_num dts else 0 in
    s <- reduce1 add dts ;;
    let mean := s / length_num dts in
    let variance := sumSquares dts mean / length_num dts in
    let cv := sqrt variance / mean in
    let humanLikeVariance := 0.12 <? cv in
    let suspiciousSync := 0.65 <? ratio in
    Some {| temp_score := if suspiciousSync then 0.9 else if humanLikeVariance then 0.2 else 0.5;
            isSuspicious := suspiciousSync && negb humanLikeVariance;
            perfectSync := ratio;
            temp_variance := cv;
            meanDt := Num mean;
            meanDtHz := Num (1000 / mean) |}.

End WithHost.

(** ** The constructor and the subscriptions *)

(** [options.threshold !== undefined ? options.threshold : dflt], then
    overwritten by the spread [...options] when the caller's object has the
    property, whatever its value. *)
Definition resolve (given : option Val) (dflt : float) : Val :=
  let read := match given with Some v => v | None => Undefined end in
  let first := match read with Undefined => Num dflt | Num x => Num x end in
  match given with
  | Some v => v
  | None => first
  end.

(** The fields as [new Vhum(options)] sets them (the listeners of [init()]
    are [dispatch] below). *)
Definition initial (given : UserOptions) : State :=
  {| options := {| thresholdMouse := resolve (givenMouse given) 0.68;
                   thresholdTouch := resolve (givenTouch given) 0.62 |};
     points := [];
     isTracking := false;
     t_entry := 0;
     t_down := 0;
     entry_pos := {| pos_x := 0; pos_y := 0 |};
     lastInputSource := None;
     inputType := UNKNOWN;
     nnMouse := AdaptivePerceptron.new MOUSE;
     nnTouch := AdaptivePerceptron.new TOUCH;
     nn := TheMouseNet;
     listeners := [] |}.

(** [new Vhum(options)].  [area] and [check] say whether the two elements
    were found; without them the constructor returns before any field of
    the engine exists. *)
Definition constructor (given : UserOptions) (area check : bool) : option State :=
  if negb area || negb check then None else Some (initial given).

(** [this.listeners[event]]. *)
Fixpoint subscribers (ls : list (string * list Callback)) (event : string)
  : option (list Callback) :=
  match ls with
  | [] => None
  | (ev, cbs) :: ls' => if String.eqb ev event then Some cbs else subscribers ls' event
  end.

(** [this.listeners[event] = cbs]. *)
Fixpoint store (ls : list (string * list Callback)) (event : string) (cbs : list Callback)
  : list (string * list Callback) :=
  match ls with
  | [] => [(event, cbs)]
  | (ev, old) :: ls' =>
      if String.eqb ev event then (ev, cbs) :: ls' else (ev, old) :: store ls' event cbs
  end.

Definition with_listeners (this : State) (ls : list (string * list Callback)) : State :=
  {| options := options this; points := points this; isTracking := isTracking this;
     t_entry := t_entry this; t_down := t_down this; entry_pos := entry_pos this;
     lastInputSource := lastInputSource this; inputType := inputType this;
     nnMouse := nnMouse this; nnTouch := nnTouch this; nn := nn this;
     listeners := ls |}.

(** [on(event, callback)]. *)
Definition on (this : State) (event : string) (callback : Callback) : State :=
  let cbs := match subscribers (listeners this) event with Some cbs => cbs | None => [] end in
  with_listeners this (store (listeners this) event (cbs ++ [callback])%list).

(** [off(event, callback)]. *)
Definition off (this : State) (event : string) (callback : Callback) : State :=
  match subscribers (listeners this) event with
  | None => this
  | Some cbs =>
      with_listeners this
        (store (listeners this) event (filter (fun cb => negb (Nat.eqb cb callback)) cbs))
  end.

(** [emit(event, data)]: the calls made, in order, each with its argument. *)
Definition emit {D : Type} (this : State) (event : string) (data : D) : list (Callback * D) :=
  match subscribers (listeners this) event with
  | None => []
  | Some cbs => map (fun cb => (cb, data)) cbs
  end.

(** ** The capture handlers

    Every [performance.now()] is an argument, in the order of the reads. *)

Definition with_entry (this : State) (now : float) (pos : Pos) : State :=
  {| options := options this; points := points this; isTracking := isTracking this;
     t_entry := now; t_down := t_down this; entry_pos := pos;
     lastInputSource := lastInputSource this; inputType := inputType this;
     nnMouse := nnMouse this; nnTouch := nnTouch this; nn := nn this;
     listeners := listeners this |}.

Definition with_points (this : State) (pts : list Point) : State :=
  {| options := options this; points := pts; isTracking := isTracking this;
     t_entry := t_entry this; t_down := t_down this; entry_pos := entry_pos this;
     lastInputSource := lastInputSource this; inputType := inputType this;
     nnMouse := nnMouse this; nnTouch := nnTouch this; nn := nn this;
     listeners := listeners this |}.

Definition with_isTracking (this : State) (b : bool) : State :=
  {| options := options this; points := points this; isTracking := b;
     t_entry := t_entry this; t_down := t_down this; entry_pos := entry_pos this;
     lastInputSource := lastInputSource this; inputType := inputType this;
     nnMouse := nnMouse this; nnTouch := nnTouch this; nn := nn this;
     listeners := listeners this |}.

Definition with_t_down (this : State) (now : float) : State :=
  {| options := options this; points := points this; isTracking := isTracking this;
     t_entry := t_entry this; t_down := now; entry_pos := entry_pos this;
     lastInputSource := lastInputSource this; inputType := inputType this;
     nnMouse := nnMouse this; nnTouch := nnTouch this; nn := nn this;
     listeners := listeners this |}.

Definition with_t_entry (this : State) (now : float) : State :=
  {| options := options this; points := points this; isTracking := isTracking this;
     t_entry := now; t_down := t_down this; entry_pos := entry_pos this;
     lastInputSource := lastInputSource this; inputType := inputType this;
     nnMouse := nnMouse this; nnTouch := nnTouch this; nn := nn this;
     listeners := listeners this |}.

Definition with_lastInputSource (this : State) (src : option Source) : State :=
  {| options := options this; points := points this; isTracking := isTracking this;
     t_entry := t_entry this; t_down := t_down this; entry_pos := entry_pos this;
     lastInputSource := src; inputType := inputType this;
     nnMouse := nnMouse this; nnTouch := nnTouch this; nn := nn this;
     listeners := listeners this |}.

(** [this.inputType = ty; this.nn = ...]. *)
Definition with_inputType (this : State) (ty : InputType) (sel : Selected) : State :=
  {| options := options this; points := points this; isTracking := isTracking this;
     t_entry := t_entry this; t_down := t_down this; entry_pos := entry_pos this;
     lastInputSource := lastInputSource this; inputType := ty;
     nnMouse := nnMouse this; nnTouch := nnTouch this; nn := sel;
     listeners := listeners this |}.

(** The object [this.nn] refers to. *)
Definition selected (this : State) : AdaptivePerceptron.Perceptron :=
  match nn this with
  | TheMouseNet => nnMouse this
  | TheTouchNet => nnTouch this
  end.

(** A write to the object [this.nn] refers to. *)
Definition with_selected (this : State) (p : AdaptivePerceptron.Perceptron) : State :=
  {| options := options this; points := points this; isTracking := isTracking this;
     t_entry := t_entry this; t_down := t_down this; entry_pos := entry_pos this;
     lastInputSource := lastInputSource this; inputType := inputType this;
     nnMouse := match nn this with TheMouseNet => p | TheTouchNet => nnMouse this end;
     nnTouch := match nn this with TheTouchNet => p | TheMouseNet => nnTouch this end;
     nn := nn this;
     listeners := listeners this |}.

(** [handleEntry(e)]. *)
Definition handleEntry (this : State) (e : Coords) (now : float) : State :=
  with_entry this now {| pos_x := clientX e; pos_y := clientY e |}.

(** [addPoint(e)]. *)
Definition addPoint (this : State) (e : Coords) (now : float) : State :=
  with_points this (points this ++ [Point.make (clientX e) (clientY e) now])%list.

(** [handleStart(e)]: the clock is read for [t_down] and again by [addPoint]. *)
Definition handleStart (this : State) (e : Coords) (now now' : float) : State :=
  let this := with_t_down this now in
  let this := with_isTracking this true in
  let this := with_points this [] in
  addPoint this e now'.

(** [handleMove(e)]. *)
Definition handleMove (this : State) (e : Coords) (now : float) : State :=
  if negb (isTracking this) then this
  else addPoint this e now.

(** ** finalize *)

(** 0 = bot, 1 = human. *)
Inductive Verdict : Type := BOT | HUMAN.

Definition verdict_code (v : Verdict) : Z :=
  match v with
  | BOT => 0
  | HUMAN => 1
  end.

Record AnalysisDetails : Type := {
  d_dwell : float; d_reaction : float; d_fitts : float; d_temporal : float;
  d_jitter : float; d_speed : float; d_accel : float; d_curvature : float;
  d_entropy : Val; d_pauses : float
}.

Record Result : Type := {
  probability : float;
  verdict : Verdict;
  r_inputType : InputType;
  thresholdUsed : Val;
  analysisDetails : AnalysisDetails
}.

(** The three durations. *)
Record Timing : Type := { dwellTime : float; decisionTime : float; movementTime : float }.

Definition timing (this : State) (t_up : float) : Timing :=
  {| dwellTime := t_up - t_down this;
     decisionTime := Math_max (t_down this - t_entry this) 100;
     movementTime := t_up - t_entry this |}.

(** The constants of the Fitts's-law check. *)
Record Fitts : Type := {
  D : float; W : float; ID : float;
  throughputExpected : float; timeExpectedFitts : float; fittsViolation : bool
}.

(** The constants [jitter] ... [inputs] of [finalize], and what it computes
    from them. *)
Record Locals : Type := {
  l_timing : Timing;
  l_fitts : Fitts;
  l_jitter : Jitter;
  l_speedStats : SpeedStats;
  l_accelStats : AccelStats;
  l_curvature : Curvature;
  l_entropy : Entropy;
  l_pauses : Pauses;
  l_temporalAnalysis : Temporal;
  temporalViolation : bool;
  inputs : AdaptivePerceptron.NumObject
}.

Section Finalize.
Context {M : MathLib}.

Definition fitts (ty : InputType) (entryPoint : Pos) (targetRect : Rect) (movement : float)
  : Fitts :=
  let cx := left targetRect + width targetRect / 2 in
  let cy := top targetRect + height targetRect / 2 in
  let d := Math_hypot (cx - pos_x entryPoint) (cy - pos_y entryPoint) in
  let w := Math_min (width targetRect) (height targetRect) in
  let id := Math_max 0 (Math_log2 (2 * d / (w + 1) + 1)) in
  let throughput := if isTouch ty then 2.5 else 4.0 in
  let expected := id / throughput * 1000 in
  {| D := d; W := w; ID := id; throughputExpected := throughput;
     timeExpectedFitts := expected;
     fittsViolation :=
       if isTouch ty then movement <? expected * 0.35 else movement <? expected * 0.6 |}.

Definition flag (b : bool) : float := if b then 1 else 0.

(** Everything from [const t_up] to [const inputs]; [this.inputType] is
    already the detected one, and [tm] was taken before [this.t_entry = 0]. *)
Definition locals (this : State) (tm : Timing) (targetRect : Rect) : option Locals :=
  let ty := inputType this in
  let f := fitts ty (entry_pos this) targetRect (movementTime tm) in
  jitter <- analyzeJitter this (points this) ;;
  let speedStats := analyzeSpeed (points this) in
  let accelStats := analyzeAcceleration this (points this) in
  curv <- analyzeCurvature (points this) ;;
  let ent := analyzeEntropy (points this) in
  let pauses := countPauses (points this) in
  temporalAnalysis <- checkTemporalPrecision (points this) ;;
  let violation :=
    if isTouch ty
    then isSuspicious temporalAnalysis && (0.85 <? perfectSync temporalAnalysis)
    else isSuspicious temporalAnalysis in
  Some {|
    l_timing := tm; l_fitts := f; l_jitter := jitter; l_speedStats := speedStats;
    l_accelStats := accelStats; l_curvature := curv; l_entropy := ent; l_pauses := pauses;
    l_temporalAnalysis := temporalAnalysis; temporalViolation := violation;
    inputs :=
      [ ("fitts", flag (fittsViolation f));
        ("temporal", flag violation);
        ("decision", flag (decisionTime tm <? (if isTouch ty then 220 else 150)));
        ("jitter", flag (isWhiteNoise jitter));
        ("dwell", flag ((dwellTime tm <? (if isTouch ty then 100 else 40))
                        || ((if isTouch ty then 1500 else 1000) <? dwellTime tm)));
        ("speed", 1 - speed_score speedStats);
        ("accel", 1 - accel_score accelStats);
        ("curvature", 1 - curv_score curv);
        ("entropy", abs (ToNumber (normalizedEntropy ent) - 0.6));
        ("pauses", 1 - pause_score pauses) ]
  |}.

(** [finalize()], reading the clock as [t_up] and the control's rectangle
    as [targetRect]: the returned Result, the engine afterwards, and the
    calls made to the subscribers of ['result']. *)
Definition finalize (this : State) (t_up : float) (targetRect : Rect)
  : option (Result * State * list (Callback * Result)) :=
  ty <- InputTypeDetector.detect (points this) (lastInputSource this) ;;
  let this := with_inputType this ty (if isTouch ty then TheTouchNet else TheMouseNet) in
  let tm := timing this t_up in
  let this := with_t_entry this 0 in
  l <- locals this tm targetRect ;;
  let (p, net) := AdaptivePerceptron.predict (selected this) (inputs l) in
  let this := with_selected this net in
  let threshold :=
    if isTouch (inputType this) then thresholdTouch (options this)
    else thresholdMouse (options this) in
  let v := if gtVal p threshold then BOT else HUMAN in
  let result :=
    {| probability := Math_round (p * 10000) / 10000;
       verdict := v;
       r_inputType := inputType this;
       thresholdUsed := threshold;
       analysisDetails :=
         {| d_dwell := dwellTime tm;
            d_reaction := decisionTime tm;
            d_fitts := ID (l_fitts l);
            d_temporal := perfectSync (l_temporalAnalysis l);
            d_jitter := jitter_cv (l_jitter l);
            d_speed := speed_score (l_speedStats l);
            d_accel := accel_score (l_accelStats l);
            d_curvature := curv_score (l_curvature l);
            d_entropy := normalizedEntropy (l_entropy l);
            d_pauses := pause_score (l_pauses l) |} |} in
  Some (result, this, emit this "result" result).

(** [handleEnd(e)]. *)
Definition handleEnd (this : State) (t_up : float) (targetRect : Rect)
  : option (State * list (Callback * Result)) :=
  if negb (isTracking this) then Some (this, [])
  else
    let this := with_isTracking this false in
    r <- finalize this t_up targetRect ;;
    let '(_, this, calls) := r in
    Some (this, calls).

(** ** init: the listeners on the tracked area and on the window *)

(** [e.pointerType]. *)
Inductive PointerType : Type := PointerMouse | PointerTouch | PointerPen.

(** The events [init()] listens to, with what the listeners read of them
    ([e.touches[0]] for the touch events). *)
Inductive DomEvent : Type :=
| mouseenter (e : Coords)
| touchstart (touch : Coords)
| pointerdown (ty : PointerType) (e : Coords)
| mousedown (e : Coords)
| mousemove (e : Coords)
| touchmove (touch : Coords)
| pointermove (ty : PointerType) (e : Coords)
| mouseup
| touchend
| pointerup
| touchcancel.

(** [if (!this.lastInputSource) this.lastInputSource = src]. *)
Definition sourceIfNone (this : State) (src : Source) : State :=
  match lastInputSource this with
  | None => with_lastInputSource this (Some src)
  | Some _ => this
  end.

Definition sourceIs (this : State) (src : Source) : bool :=
  match lastInputSource this, src with
  | Some SrcMouse, SrcMouse | Some SrcTouch, SrcTouch => true
  | _, _ => false
  end.

(** One event delivered to the engine's listeners.  [clock k] is the
    [k]-th reading of [performance.now()] while the event is handled. *)
Definition dispatch (this : State) (ev : DomEvent) (clock : nat -> float) (targetRect : Rect)
  : option (State * list (Callback * Result)) :=
  match ev with
  | mouseenter e =>
      Some (handleEntry (with_lastInputSource this (Some SrcMouse)) e (clock 0%nat), [])
  | touchstart touch =>
      let this := with_lastInputSource this (Some SrcTouch) in
      let this := handleEntry this touch (clock 0%nat) in
      Some (handleStart this touch (clock 1%nat) (clock 2%nat), [])
  | pointerdown PointerTouch _ => Some (sourceIfNone this SrcTouch, [])
  | pointerdown PointerMouse e =>
      Some (handleStart (sourceIfNone this SrcMouse) e (clock 0%nat) (clock 1%nat), [])
  | pointerdown PointerPen _ => Some (this, [])
  | mousedown e =>
      Some (handleStart (sourceIfNone this SrcMouse) e (clock 0%nat) (clock 1%nat), [])
  | mousemove e =>
      if isTracking this && sourceIs this SrcMouse
      then Some (handleMove this e (clock 0%nat), [])
      else Some (this, [])
  | touchmove touch =>
      if isTracking this && sourceIs this SrcTouch
      then Some (handleMove this touch (clock 0%nat), [])
      else Some (this, [])
  | pointermove ty e =>
      if isTracking this
      then
        match ty with
        | PointerTouch =>
            if sourceIs this SrcTouch then Some (handleMove this e (clock 0%nat), [])
            else Some (this, [])
        | PointerMouse =>
            if sourceIs this SrcMouse then Some (handleMove this e (clock 0%nat), [])
            else Some (this, [])
        | PointerPen => Some (this, [])
        end
      else Some (this, [])
  | mouseup =>
      if isTracking this && sourceIs this SrcMouse
      then handleEnd this (clock 0%nat) targetRect
      else Some (this, [])
  | touchend =>
      if isTracking this && sourceIs this SrcTouch
      then handleEnd this (clock 0%nat) targetRect
      else Some (this, [])
  | pointerup | touchcancel =>
      if isTracking this then handleEnd this (clock 0%nat) targetRect
      else Some (this, [])
  end.

(** A sequence of events, each with its clock. *)
Fixpoint run (this : State) (evs : list (DomEvent * (nat -> float))) (targetRect : Rect)
  : option (State * list (Callback * Result)) :=
  match evs with
  | [] => Some (this, [])
  | (ev, clock) :: evs' =>
      r <- dispatch this ev clock targetRect ;;
      r' <- run (fst r) evs' targetRect ;;
      Some (fst r', (snd r ++ snd r')%list)
  end.

End Finalize.

End Vhum.

(* ================================================================== *)
(** * class HumanVerifier (the legacy verifier) *)
(* ================================================================== *)

(** The legacy verifier records a gesture and displays it; it scores
    nothing.  Its counters and [Date.now()] readings are integers and are
    modelled in [Z] (a Number counts exactly up to 2^53). *)
Module HumanVerifier.

Open Scope Z_scope.

Inductive Kind : Type := TOUCH_GESTURE | MOUSE_GESTURE.

(** What [getMouseData] and [getTouchData] return. *)
Record EventData : Type := {
  x : float; y : float; timestamp : Z; pressure : option float; target : string
}.

(** What the handlers read of a mouse event. *)
Record MouseEvent : Type := {
  clientX : float; clientY : float; button : Z; mouseTarget : string
}.

(** [e.changedTouches[0]]. *)
Record Touch : Type := {
  touchX : float; touchY : float; force : Js.Val; touchTarget : string
}.

(** [this.dataObject] while a gesture is recorded.  Its [moveEvents]
    property is the array [this.moveEvents] itself, so it is not stored a
    second time. *)
Record Gesture : Type := {
  type : Kind;
  startTimestamp : Z;
  startData : option EventData;
  initialCheckboxState : option bool
}.

Record State : Type := {
  isTracking : bool;
  dataObject : option Gesture;
  moveEvents : list EventData;
  touchEndBlock : Z;
  moveSampleRate : Z;
  moveCounter : Z
}.

(** What [sendDataToServer] displays. *)
Record Report : Type := {
  r_gesture : Gesture;
  endTimestamp : Z;
  endData : option EventData;
  finalCheckboxState : option bool;
  r_moveEvents : list EventData;
  duration : Z;
  totalMoveEvents : Z;
  sampledMoveEvents : Z
}.

Definition BLOCK_DURATION : Z := 300.

(** [new HumanVerifier(checkboxElement, displayElement, moveSampleRate = 5)]:
    [None] is the omitted third argument. *)
Definition constructor (rate : option Z) : State :=
  {| isTracking := false; dataObject := None; moveEvents := []; touchEndBlock := 0;
     moveSampleRate := match rate with Some n => n | None => 5 end;
     moveCounter := 0 |}.

Definition getMouseData (e : MouseEvent) (now : Z) : EventData :=
  {| x := Js.Math_round (clientX e); y := Js.Math_round (clientY e); timestamp := now;
     pressure := None; target := mouseTarget e |}.

(** [getTouchData(e)]: [null] when the event has no changed touch. *)
Definition getTouchData (e : option Touch) (now : Z) : option EventData :=
  match e with
  | None => None
  | Some t =>
      Some {| x := Js.Math_round (touchX t); y := Js.Math_round (touchY t); timestamp := now;
              pressure := match force t with
                          | Js.Num f => if Js.truthy f then Some f else None
                          | Js.Undefined => None
                          end;
              target := touchTarget t |}
  end.

(** [c % n !== 0]: the remainder by zero is NaN, which is not [0]. *)
Definition notMultiple (c n : Z) : bool :=
  if n =? 0 then true else negb (Z.rem c n =? 0).

Definition isKind (s : State) (k : Kind) : bool :=
  match dataObject s, k with
  | Some g, TOUCH_GESTURE => match type g with TOUCH_GESTURE => true | _ => false end
  | Some g, MOUSE_GESTURE => match type g with MOUSE_GESTURE => true | _ => false end
  | None, _ => false
  end.

(** [resetState()]. *)
Definition resetState (s : State) : State :=
  {| isTracking := false; dataObject := None; moveEvents := [];
     touchEndBlock := touchEndBlock s; moveSampleRate := moveSampleRate s;
     moveCounter := moveCounter s |}.

(** [handleTouchStart(e)]; [clock k] is the [k]-th reading of [Date.now()]. *)
Definition handleTouchStart (s : State) (e : option Touch) (clock : nat -> Z) : State :=
  if isTracking s then s
  else
    {| isTracking := true;
       dataObject := Some {| type := TOUCH_GESTURE; startTimestamp := clock 0%nat;
                             startData := getTouchData e (clock 1%nat);
                             initialCheckboxState := None |};
       moveEvents := [];
       touchEndBlock := 0;
       moveSampleRate := moveSampleRate s;
       moveCounter := 0 |}.

(** The counter is incremented: [this.moveCounter++]. *)
Definition counted (s : State) : State :=
  {| isTracking := isTracking s; dataObject := dataObject s; moveEvents := moveEvents s;
     touchEndBlock := touchEndBlock s; moveSampleRate := moveSampleRate s;
     moveCounter := moveCounter s + 1 |}.

(** [this.moveEvents.push(data)]. *)
Definition pushed (s : State) (data : EventData) : State :=
  {| isTracking := isTracking s; dataObject := dataObject s;
     moveEvents := (moveEvents s ++ [data])%list;
     touchEndBlock := touchEndBlock s; moveSampleRate := moveSampleRate s;
     moveCounter := moveCounter s |}.

(** [handleTouchMove(e)]. *)
Definition handleTouchMove (s : State) (e : option Touch) (now : Z) : State :=
  if negb (isTracking s) || negb (isKind s TOUCH_GESTURE) then s
  else
    let s := counted s in
    if notMultiple (moveCounter s) (moveSampleRate s) then s
    else
      match getTouchData e now with
      | Some data => pushed s data
      | None => s
      end.

(** [handleMouseDown(e)]. *)
Definition handleMouseDown (s : State) (e : MouseEvent) (checked : bool) (clock : nat -> Z)
  : State :=
  if clock 0%nat <? touchEndBlock s then s
  else if negb (button e =? 0) || isTracking s then s
  else
    {| isTracking := true;
       dataObject := Some {| type := MOUSE_GESTURE; startTimestamp := clock 1%nat;
                             startData := Some (getMouseData e (clock 2%nat));
                             initialCheckboxState := Some checked |};
       moveEvents := [];
       touchEndBlock := touchEndBlock s;
       moveSampleRate := moveSampleRate s;
       moveCounter := 0 |}.

(** [handleMouseMove(e)]. *)
Definition handleMouseMove (s : State) (e : MouseEvent) (now : Z) : State :=
  if negb (isTracking s) || negb (isKind s MOUSE_GESTURE) then s
  else
    let s := counted s in
    if notMultiple (moveCounter s) (moveSampleRate s) then s
    else pushed s (getMouseData e now).

(** [handleMouseUp(e)]: the state afterwards and what was displayed. *)
Definition handleMouseUp (s : State) (e : MouseEvent) (checked : bool) (clock : nat -> Z)
  : State * option Report :=
  if clock 0%nat <? touchEndBlock s then (s, None)
  else if negb (isTracking s) || negb (isKind s MOUSE_GESTURE) then (s, None)
  else
    match dataObject s with
    | None => (s, None)
    | Some g =>
        let endT := clock 1%nat in
        (resetState s,
         Some {| r_gesture := g; endTimestamp := endT;
                 endData := Some (getMouseData e (clock 2%nat));
                 finalCheckboxState := Some checked;
                 r_moveEvents := moveEvents s;
                 duration := endT - startTimestamp g;
                 totalMoveEvents := moveCounter s;
                 sampledMoveEvents := Z.of_nat (List.length (moveEvents s)) |})
    end.

(** [handleTouchEnd(e)]. *)
Definition handleTouchEnd (s : State) (e : option Touch) (clock : nat -> Z)
  : State * option Report :=
  if negb (isTracking s) || negb (isKind s TOUCH_GESTURE) then (s, None)
  else
    match dataObject s with
    | None => (s, None)
    | Some g =>
        let block := clock 0%nat + BLOCK_DURATION in
        let endT := clock 1%nat in
        let touchEndData :=
          match getTouchData e (clock 2%nat) with
          | Some d => Some d
          | None =>
              match startData g with
              | Some d => Some {| x := x d; y := y d; timestamp := endT;
                                  pressure := pressure d; target := target d |}
              | None => None
              end
          end in
        (resetState
           {| isTracking := false; dataObject := dataObject s; moveEvents := moveEvents s;
              touchEndBlock := block; moveSampleRate := moveSampleRate s;
              moveCounter := moveCounter s |},
         Some {| r_gesture := g; endTimestamp := endT; endData := touchEndData;
                 finalCheckboxState := None;
                 r_moveEvents := moveEvents s;
                 duration := endT - startTimestamp g;
                 totalMoveEvents := moveCounter s;
                 sampledMoveEvents := Z.of_nat (List.length (moveEvents s)) |})
    end.

End HumanVerifier.

(* ================================================================== *)
(** * The specification's formulas *)
(* ================================================================== *)

(** The Fitts's-law check in the specification's words, to be compared
    with [Vhum.fitts]. *)
Module FittsSpec.
Section WithHost.
Context {M : MathLib}.
Open Scope float_scope.
Import Js.

(** The Euclidean distance from the entry position to the target's centre. *)
Definition distance (entry : Vhum.Pos) (target : Vhum.Rect) : float :=
  Math_hypot (Vhum.left target + Vhum.width target / 2 - Vhum.pos_x entry)
             (Vhum.top target + Vhum.height target / 2 - Vhum.pos_y entry).

(** The minimum of the target's width and height. *)
Definition size (target : Vhum.Rect) : float :=
  Math_min (Vhum.width target) (Vhum.height target).

(** [ID = max(0, log2(2D/(W+1) + 1))]. *)
Definition indexOfDifficulty (d w : float) : float :=
  Math_max 0 (Math_log2 (2 * d / (w + 1) + 1)).

Definition throughput (ty : InputType) : float :=
  match ty with
  | TOUCH => 2.5
  | MOUSE | UNKNOWN => 4.0
  end.

(** [(ID / throughput) * 1000]. *)
Definition expectedTime (id : float) (ty : InputType) : float :=
  id / throughput ty * 1000.

Definition fraction (ty : InputType) : float :=
  match ty with
  | TOUCH => 0.35
  | MOUSE | UNKNOWN => 0.6
  end.

(** Actual movement time (release - entry) below the fraction of the
    expected time. *)
Definition violation (ty : InputType) (entry : Vhum.Pos) (target : Vhum.Rect)
           (release entryTime : float) : bool :=
  release - entryTime
  <? expectedTime (indexOfDifficulty (distance entry target) (size target)) ty * fraction ty.

End WithHost.
End FittsSpec.

(** The Linear Scorer in the specification's words, to be compared with
    [AdaptivePerceptron.predict]. *)
Module ScorerSpec.
Section WithHost.
Context {M : MathLib}.
Open Scope float_scope.
Open Scope string_scope.
Import Js.

(** The fixed set of named features. *)
Definition features : list string :=
  [ "fitts"; "temporal"; "decision"; "jitter"; "dwell";
    "speed"; "accel"; "curvature"; "entropy"; "pauses" ].

(** [z = bias + sum of weight[feature] * featureValue[feature]], the terms
    added to the bias one after the other in the order of [features]. *)
Definition z (weights : AdaptivePerceptron.NumObject) (bias : float)
           (featureValue : AdaptivePerceptron.NumObject) : float :=
  fold_left (fun acc f =>
               acc + ToNumber (AdaptivePerceptron.get weights f)
                     * ToNumber (AdaptivePerceptron.get featureValue f))
            features bias.

Definition clamp (v lo hi : float) : float := Math_max lo (Math_min hi v).

Definition logistic (v : float) : float := 1 / (1 + Math_exp (- v)).

(** [probability = sigmoid(clamp(z, -100, 100))]. *)
Definition probability (weights : AdaptivePerceptron.NumObject) (bias : float)
           (featureValue : AdaptivePerceptron.NumObject) : float :=
  logistic (clamp (z weights bias featureValue) (-100) 100).

(** A feature value of the data model: a Number from 0 to 1 ([+0], not
    [-0]). *)
Definition inUnit (v : float) : Prop :=
  (v = 0 \/ (0 <? v) = true) /\ (v <=? 1) = true.

End WithHost.
End ScorerSpec.

(** ** Runs of several events or calls *)

Module Runs.
Section WithHost.
Context {M : MathLib}.

(** [finalize()] called twice in a row on one engine, with the same clock
    reading and the same rectangle: the two Results. *)
Definition finalizeTwice (this : Vhum.State) (t_up : float) (rect : Vhum.Rect)
  : option (Vhum.Result * Vhum.Result) :=
  r1 <- Vhum.finalize this t_up rect ;;
  r2 <- Vhum.finalize (snd (fst r1)) t_up rect ;;
  Some (fst (fst r1), fst (fst r2)).

End WithHost.

(** The Result alone of a call of [finalize]. *)
Definition resultOf (o : option (Vhum.Result * Vhum.State * list (Vhum.Callback * Vhum.Result)))
  : option Vhum.Result :=
  option_map (fun x => fst (fst x)) o.

(** The weights and biases of the engine's two perceptrons. *)
Definition tables (this : Vhum.State)
  : AdaptivePerceptron.NumObject * float * (AdaptivePerceptron.NumObject * float) :=
  (AdaptivePerceptron.weights (Vhum.nnMouse this), AdaptivePerceptron.bias (Vhum.nnMouse this),
   (AdaptivePerceptron.weights (Vhum.nnTouch this), AdaptivePerceptron.bias (Vhum.nnTouch this))).

(** The mouse moves of one gesture delivered to the legacy verifier. *)
Definition mouseMoves (s : HumanVerifier.State) (evs : list (HumanVerifier.MouseEvent * Z))
  : HumanVerifier.State :=
  fold_left (fun s ev => HumanVerifier.handleMouseMove s (fst ev) (snd ev)) evs s.

(** The moves of one gesture delivered to the engine. *)
Definition moves (this : Vhum.State) (evs : list (Vhum.Coords * float)) : Vhum.State :=
  fold_left (fun s ev => Vhum.handleMove s (fst ev) (snd ev)) evs this.

End Runs.

(* ================================================================== *)
(** * Closed inputs *)
(* ================================================================== *)

(** Concrete engines and events, on which the theorems are instantiated. *)
Module Samples.

Import Vhum.
Open Scope float_scope.

Definition defaults : UserOptions := {| givenMouse := None; givenTouch := None |}.

(** A fresh engine with the default thresholds and one subscriber, number 7. *)
Definition fresh : State := on (initial defaults) "result" 7%nat.

Definition at_ (cx cy : float) : Coords := {| clientX := cx; clientY := cy |}.

(** The control: a 20 by 20 box at (300, 200). *)
Definition box : Rect := {| left := 300; top := 200; width := 20; height := 20 |}.

(** The mouse entered at time 1000. *)
Definition entered : State :=
  handleEntry (with_lastInputSource fresh (Some SrcMouse)) (at_ 10 10) 1000.

(** ... was pressed at time 1050 ... *)
Definition pressed : State := handleStart entered (at_ 12 11) 1050 1050.

(** ... and moved twice: the engine is TRACKING and holds three samples. *)
Definition tracking : State :=
  handleMove (handleMove pressed (at_ 20 15) 1066) (at_ 31 22) 1083.

(** Two further moves of the same gesture. *)
Definition twoMoves : list (Coords * float) := [(at_ 40 30, 1100); (at_ 52 37, 1116)].

(** A legacy verifier built without a sampling rate, a click on the
    control, and twelve moves of the mouse. *)
Definition legacy : HumanVerifier.State := HumanVerifier.constructor None.

Definition click : HumanVerifier.MouseEvent :=
  {| HumanVerifier.clientX := 12.4; HumanVerifier.clientY := 11;
     HumanVerifier.button := 0; HumanVerifier.mouseTarget := "main-check" |}.

Definition wallClock (k : nat) : Z := 5000 + Z.of_nat k.

Definition twelveMoves : list (HumanVerifier.MouseEvent * Z) :=
  map (fun k => (click, 5010 + k)%Z) [1; 2; 3; 4; 5; 6; 7; 8; 9; 10; 11; 12]%Z.

(** The engine as [finalize] would find it with another input type
    detected before, the other perceptron selected, and the tracking flag
    already lowered. *)
Definition trackingOtherwise : State :=
  with_isTracking (with_inputType tracking TOUCH TheTouchNet) false.

(** Five samples of a moving pointer that carry one and the same
    timestamp. *)
Definition stalled : list Point :=
  [ Point.make 10 10 1000; Point.make 14 12 1000; Point.make 19 15 1000;
    Point.make 25 19 1000; Point.make 32 24 1000 ].

(** A feature vector. *)
Definition someFeatures : AdaptivePerceptron.NumObject :=
  [ ("fitts", 0); ("temporal", 1); ("decision", 1); ("jitter", 1); ("dwell", 0);
    ("speed", 0.4); ("accel", 1); ("curvature", 0.5); ("entropy", 0.6); ("pauses", 0.9) ].

End Samples.

(* ================================================================== *)
(** * The order of binary64 *)
(* ================================================================== *)

(** The comparisons of binary64 read as a lexicographic order on three
    integers: the class of the number (the infinities outside, zero in the
    middle), then exponent and mantissa, mirrored for the negative numbers.
    NaN has no key: it is below nothing and nothing is below it. *)
Module Order.

Definition key (v : spec_float) : option (Z * Z * Z) :=
  match v with
  | S754_nan => None
  | S754_infinity true => Some (-2, 0, 0)%Z
  | S754_infinity false => Some (2, 0, 0)%Z
  | S754_zero _ => Some (0, 0, 0)%Z
  | S754_finite false m e => Some (1, e, Z.pos m)%Z
  | S754_finite true m e => Some (-1, - e, Z.neg m)%Z
  end.

Definition below (a b : Z * Z * Z) : Prop :=
  let '(a1, a2, a3) := a in
  let '(b1, b2, b3) := b in
  (a1 < b1 \/ (a1 = b1 /\ (a2 < b2 \/ (a2 = b2 /\ a3 < b3))))%Z.

Definition keysBelow (v w : spec_float) : Prop :=
  match key v, key w with
  | Some a, Some b => below a b
  | _, _ => False
  end.

(** [v < 0] and [v > 1] are both false: [v] is a Number from 0 to 1, or NaN. *)
Definition within01 (v : float) : Prop := (v <? 0)%float = false /\ (1 <? v)%float = false.

(** [v > 1] is false. *)
Definition atMost1 (v : float) : Prop := (1 <? v)%float = false.

End Order.

(* ================================================================== *)
(** * Events by kind, subscriptions, gestures *)
(* ================================================================== *)

Module Scenes.

Import Vhum.

(** The four events that end a gesture. *)
Inductive Release : Type := ByMouseup | ByTouchend | ByPointerup | ByTouchcancel.

Definition releaseEvent (r : Release) : DomEvent :=
  match r with
  | ByMouseup => mouseup
  | ByTouchend => touchend
  | ByPointerup => pointerup
  | ByTouchcancel => touchcancel
  end.

(** The three events that report a move. *)
Inductive Move : Type :=
| ByMousemove (e : Coords)
| ByTouchmove (touch : Coords)
| ByPointermove (ty : PointerType) (e : Coords).

Definition moveEvent (m : Move) : DomEvent :=
  match m with
  | ByMousemove e => mousemove e
  | ByTouchmove touch => touchmove touch
  | ByPointermove ty e => pointermove ty e
  end.

Definition moveCoords (m : Move) : Coords :=
  match m with
  | ByMousemove e | ByTouchmove e | ByPointermove _ e => e
  end.

(** The source that the listener of a move asks for; a pen's pointer move
    has none. *)
Definition moveSource (m : Move) : option Source :=
  match m with
  | ByMousemove _ | ByPointermove PointerMouse _ => Some SrcMouse
  | ByTouchmove _ | ByPointermove PointerTouch _ => Some SrcTouch
  | ByPointermove PointerPen _ => None
  end.

(** Several calls of [on], in order. *)
Definition subscribe (this : State) (subs : list (string * Callback)) : State :=
  fold_left (fun s sub => on s (fst sub) (snd sub)) subs this.

(** The subscribers of an event, [[]] when it has none. *)
Definition subscribersOf (this : State) (event : string) : list Callback :=
  match subscribers (listeners this) event with
  | Some cbs => cbs
  | None => []
  end.

(** The engine is not TRACKING, or its input source is known. *)
Definition sourceKnown (this : State) : Prop :=
  isTracking this = true -> lastInputSource this <> None.

(** Every feature that is falsy (0, -0 or NaN) replaced by 0. *)
Definition sanitize (inputs : AdaptivePerceptron.NumObject) : AdaptivePerceptron.NumObject :=
  map (fun kv => (fst kv, Js.orElse (snd kv) 0)) inputs.

(** The argument of the exponential in [sigmoid] by comparisons alone:
    100 above 100, -100 below -100, and otherwise the Number itself (NaN
    included). *)
Definition saturated (z : float) : float :=
  if (100 <? z)%float then 100%float
  else if (z <? -100)%float then (-100)%float
  else z.

(** A mouse gesture as the listeners see it: a press, moves, a release by
    [mouseup]; each event with its clock. *)
Definition mouseGesture (press : Coords) (pressClock : nat -> float)
           (mvs : list (Coords * float)) (releaseClock : nat -> float)
  : list (DomEvent * (nat -> float)) :=
  ((mousedown press, pressClock)
     :: map (fun mv => (mousemove (fst mv), fun _ : nat => snd mv)) mvs
     ++ [(mouseup, releaseClock)])%list.

(** The sample that a move or a press leaves in the Point Stream. *)
Definition sample (e : Coords) (now : float) : Point :=
  Point.make (clientX e) (clientY e) now.

(** Whether the listener of a release event calls [handleEnd]. *)
Definition releases (this : State) (r : Release) : bool :=
  isTracking this
  && match r with
     | ByMouseup => sourceIs this SrcMouse
     | ByTouchend => sourceIs this SrcTouch
     | ByPointerup | ByTouchcancel => true
     end.

(** Whether the listener of a move event calls [handleMove]. *)
Definition accepts (this : State) (m : Move) : bool :=
  isTracking this
  && match moveSource m with
     | Some src => sourceIs this src
     | None => false
     end.

(** Move events, each with the one reading of its clock. *)
Definition moveEvents (mvs : list (Move * float)) : list (DomEvent * (nat -> float)) :=
  map (fun mv => (moveEvent (fst mv), fun _ : nat => snd mv)) mvs.

(** A touch gesture as the listeners see it: [touchstart], touch moves,
    [touchend]. *)
Definition touchGesture (touch : Coords) (startClock : nat -> float)
           (mvs : list (Coords * float)) (endClock : nat -> float)
  : list (DomEvent * (nat -> float)) :=
  ((touchstart touch, startClock)
     :: map (fun mv => (touchmove (fst mv), fun _ : nat => snd mv)) mvs
     ++ [(touchend, endClock)])%list.

(** The names that [this.listeners = {}] inherits from [Object.prototype]:
    for them [this.listeners[event]] is truthy though nothing was
    subscribed, and [on], [off] and [emit] call a method the value does not
    have.  [subscribers] describes the listeners of every other event. *)
Definition inherited : list string :=
  [ "constructor"; "hasOwnProperty"; "isPrototypeOf"; "propertyIsEnumerable";
    "toLocaleString"; "toString"; "valueOf"; "__proto__";
    "__defineGetter__"; "__defineSetter__"; "__lookupGetter__"; "__lookupSetter__" ]%string.

Definition plain (event : string) : bool := negb (existsb (String.eqb event) inherited).

(** The fields that no listener writes. *)
Definition static (this : State)
  : Options * list (string * list Callback)
    * (AdaptivePerceptron.NumObject * float * (AdaptivePerceptron.NumObject * float)) :=
  (options this, listeners this, Runs.tables this).

End Scenes.

(** The legacy verifier's events of one recording. *)
Module LegacyScenes.

Import HumanVerifier.
Open Scope Z_scope.

(** The events of a run of moves numbered from [c + 1]. *)
Definition numbered {A : Type} (c : Z) (evs : list A) : list (Z * A) :=
  combine (map (fun i => c + Z.of_nat i) (seq 1 (List.length evs))) evs.

(** The samples kept of moves numbered from [c + 1] with the divisor [n]:
    those whose number is a multiple of [n]. *)
Definition keptOf (c n : Z) (evs : list (MouseEvent * Z)) : list EventData :=
  map (fun iev => getMouseData (fst (snd iev)) (snd (snd iev)))
      (filter (fun iev => negb (notMultiple (fst iev) n)) (numbered c evs)).

(** The listener of the checkbox's [change] event: unchecking resets the
    state (and empties the display). *)
Definition handleChange (s : State) (checked : bool) : State :=
  if negb checked then resetState s else s.

(** The start data stamped with another time: [{ ...touchStart, timestamp }]. *)
Definition restamped (d : EventData) (now : Z) : EventData :=
  {| x := x d; y := y d; timestamp := now; pressure := pressure d; target := target d |}.

(** The touch moves of one recording delivered to the legacy verifier,
    each with what [Date.now()] reads if it is sampled. *)
Definition touchMoves (s : State) (evs : list (option Touch * Z)) : State :=
  fold_left (fun s ev => handleTouchMove s (fst ev) (snd ev)) evs s.

(** The samples kept of touch moves numbered from [c + 1] with the divisor
    [n]: those whose number is a multiple of [n] and that carry a changed
    touch. *)
Definition touchKeptOf (c n : Z) (evs : list (option Touch * Z)) : list EventData :=
  flat_map (fun iev =>
              if notMultiple (fst iev) n then []
              else match getTouchData (fst (snd iev)) (snd (snd iev)) with
                   | Some d => [d]
                   | None => []
                   end)
           (numbered c evs).

(** A finger on the control, and the touch recording it starts on a new
    verifier at the time 5000. *)
Definition finger : Touch :=
  {| touchX := 12.4; touchY := 11; force := Js.Num 0.5; touchTarget := "main-check" |}.

Definition touching : State :=
  handleTouchStart (constructor None) (Some finger) (fun k => 5000 + Z.of_nat k).

(** Two clocks: 100 ms and 400 ms after the time 5040. *)
Definition soon (k : nat) : Z := 5140 + Z.of_nat k.
Definition later (k : nat) : Z := 5440 + Z.of_nat k.

(** A mouse recording on a verifier built with the sampling divisor 0. *)
Definition unsampled : State :=
  handleMouseDown (constructor (Some 0))
    {| clientX := 12.4; clientY := 11; button := 0; mouseTarget := "main-check" |}
    false (fun k => 5000 + Z.of_nat k).

End LegacyScenes.

(* ================================================================== *)
(** * Facts about the list helpers and the exceptions *)
(* ================================================================== *)

Section Exceptions.
Context {M : MathLib}.
Import Js.

Lemma pairs_length {A : Type} (l : list A) : List.length (pairs l) = pred (List.length l).
Proof.
  unfold pairs. rewrite length_combine.
  destruct l as [|a l]; cbn [tl List.length pred]; lia.
Qed.

(** A [reduce] with no initial value succeeds over the consecutive pairs of
    a list of two elements or more. *)
Lemma reduce1_pairs {A B : Type} (f : B -> B -> B) (g : A * A -> B) (l : list A) :
  (2 <= List.length l)%nat ->
  exists v, reduce1 f (map g (pairs l)) = Some v.
Proof.
  destruct l as [|a [|b l]]; simpl; intros H; try lia.
  eexists. reflexivity.
Qed.

Lemma reduce1_map {A B : Type} (f : B -> B -> B) (g : A -> B) (l : list A) :
  (1 <= List.length l)%nat ->
  exists v, reduce1 f (map g l) = Some v.
Proof.
  destruct l as [|a l]; simpl; intros H; try lia.
  eexists. reflexivity.
Qed.

(** A [reduce] whose callback never throws does not throw. *)
Lemma reduceM_total {A B : Type} (f : A -> B -> option A) (l : list B) :
  (forall a b, In b l -> exists a', f a b = Some a') ->
  forall a, exists r, reduceM f l a = Some r.
Proof.
  induction l as [|b l IH]; intros Hf a; simpl.
  - eexists. reflexivity.
  - destruct (Hf a b (or_introl eq_refl)) as [a' Ha]. rewrite Ha.
    apply IH. intros a0 b0 Hin. apply Hf. right. exact Hin.
Qed.

Lemma hd_error_some {A : Type} (l : list A) :
  (1 <= List.length l)%nat -> exists a, hd_error l = Some a.
Proof.
  destruct l as [|a l]; simpl; intros H; try lia. eexists. reflexivity.
Qed.

Lemma ltb_length_ge (n k : nat) : (n <? k)%nat = false -> (k <= n)%nat.
Proof. intros H. apply Nat.ltb_ge. exact H. Qed.

Lemma _analyzeJitterPattern_total (points : list Point) :
  (2 <= List.length points)%nat ->
  exists r, InputTypeDetector._analyzeJitterPattern points = Some r.
Proof.
  intros Hlen. unfold InputTypeDetector._analyzeJitterPattern. cbv zeta.
  set (dts := map _ (pairs points)).
  destruct (reduce1_pairs add
              (fun '(p, q) => Math_max 0.1 (Point.t q - Point.t p))%float points Hlen)
    as [m Hm].
  fold dts in Hm.
  destruct (reduceM_total
              (fun a b => m0 <- reduce1 add dts ;;
                          Some (a + Math_pow (b - m0 / length_num dts) 2)%float) dts) with (a := 0%float)
    as [s Hs].
  { intros a b _. rewrite Hm. eexists. reflexivity. }
  rewrite Hs, Hm. eexists. reflexivity.
Qed.

Lemma _analyzeDwellCharacteristics_total (points : list Point) :
  exists r, InputTypeDetector._analyzeDwellCharacteristics points = Some r.
Proof.
  unfold InputTypeDetector._analyzeDwellCharacteristics.
  destruct (List.length points <? 5)%nat eqn:E.
  - eexists. reflexivity.
  - cbv zeta. apply ltb_length_ge in E.
    match goal with
    | |- context [reduce1 add (map ?g points)] =>
        destruct (reduce1_map add g points) as [v Hv]; [lia | rewrite Hv]
    end.
    eexists. reflexivity.
Qed.

(** [detect] never throws: the jitter pattern is only computed on ten
    samples or more. *)
Lemma detect_total (points : list Point) (src : option Source) :
  exists ty, InputTypeDetector.detect points src = Some ty.
Proof.
  unfold InputTypeDetector.detect.
  destruct src as [[|]|]; try (eexists; reflexivity).
  destruct (List.length points <? 10)%nat eqn:E; [eexists; reflexivity|].
  apply ltb_length_ge in E.
  destruct (_analyzeJitterPattern_total points) as [j Hj]; [lia|].
  destruct (_analyzeDwellCharacteristics_total points) as [d Hd].
  rewrite Hj, Hd. eexists. reflexivity.
Qed.

Lemma analyzeJitter_total (this : Vhum.State) (pts : list Point) :
  exists j, Vhum.analyzeJitter this pts = Some j.
Proof.
  unfold Vhum.analyzeJitter.
  destruct (List.length pts <? 5)%nat eqn:E; [eexists; reflexivity|].
  apply ltb_length_ge in E. cbv zeta.
  match goal with
  | |- context [reduce1 add (map ?g (pairs pts))] =>
      destruct (reduce1_pairs add g pts) as [v Hv]; [lia | rewrite Hv]
  end.
  eexists. reflexivity.
Qed.

Lemma analyzeCurvature_total (pts : list Point) :
  exists c, Vhum.analyzeCurvature pts = Some c.
Proof.
  unfold Vhum.analyzeCurvature.
  destruct (List.length pts <? 4)%nat eqn:E; [eexists; reflexivity|].
  apply ltb_length_ge in E. cbv zeta.
  destruct (hd_error_some pts) as [a Ha]; [lia|].
  destruct (hd_error_some (rev pts)) as [b Hb]; [rewrite length_rev; lia|].
  rewrite Ha, Hb. eexists. reflexivity.
Qed.

Lemma checkTemporalPrecision_total (pts : list Point) :
  exists r, Vhum.checkTemporalPrecision pts = Some r.
Proof.
  unfold Vhum.checkTemporalPrecision.
  destruct (List.length pts <? 5)%nat eqn:E; [eexists; reflexivity|].
  apply ltb_length_ge in E. cbv zeta.
  match goal with
  | |- context [reduce1 add (map ?g (pairs pts))] =>
      destruct (reduce1_pairs add g pts) as [v Hv]; [lia | rewrite Hv]
  end.
  eexists. reflexivity.
Qed.

Lemma locals_total (this : Vhum.State) (tm : Vhum.Timing) (rect : Vhum.Rect) :
  exists l, Vhum.locals this tm rect = Some l.
Proof.
  unfold Vhum.locals. cbv zeta.
  destruct (analyzeJitter_total this (Vhum.points this)) as [j Hj].
  destruct (analyzeCurvature_total (Vhum.points this)) as [c Hc].
  destruct (checkTemporalPrecision_total (Vhum.points this)) as [t Ht].
  rewrite Hj, Hc, Ht. eexists. reflexivity.
Qed.

End Exceptions.

(** Opens a successful [finalize] into its three steps. *)
Ltac open_finalize H ty l :=
  unfold Vhum.finalize in H;
  destruct (InputTypeDetector.detect _ _) as [ty|] eqn:?Hdetect; [|discriminate H];
  cbv zeta in H;
  match type of H with
  | context [Vhum.locals ?s ?tm ?rect] =>
      destruct (Vhum.locals s tm rect) as [l|] eqn:?Hlocals; [|discriminate H]
  end;
  unfold AdaptivePerceptron.predict in H; cbv zeta in H;
  inversion H; subst; clear H.

(* ================================================================== *)
(** * The capture state machine *)
(* ================================================================== *)

Section Capture.
Context {M : MathLib}.
Import Js Vhum.

(** [finalize] always returns: no extractor throws, whatever the stream. *)
Lemma finalize_total (this : State) (t_up : float) (rect : Rect) :
  exists r this' calls, finalize this t_up rect = Some (r, this', calls).
Proof.
  unfold finalize.
  destruct (detect_total (points this) (lastInputSource this)) as [ty Hty].
  rewrite Hty. cbv zeta.
  match goal with
  | |- context [locals ?s ?tm rect] => destruct (locals_total s tm rect) as [l Hl]; rewrite Hl
  end.
  unfold AdaptivePerceptron.predict. cbv zeta.
  do 3 eexists. reflexivity.
Qed.

(** What [finalize] writes: the detected input type and the selected
    perceptron, [t_entry] (reset to 0), and [lastZ], [lastP] of the selected
    perceptron.  Everything else is left as it was. *)
Lemma finalize_frame (this this' : State) (t_up : float) (rect : Rect)
      (r : Result) (calls : list (Callback * Result)) :
  finalize this t_up rect = Some (r, this', calls) ->
  points this' = points this /\ isTracking this' = isTracking this
  /\ t_down this' = t_down this /\ t_entry this' = 0%float
  /\ entry_pos this' = entry_pos this /\ lastInputSource this' = lastInputSource this
  /\ options this' = options this /\ listeners this' = listeners this
  /\ InputTypeDetector.detect (points this) (lastInputSource this) = Some (inputType this').
Proof.
  unfold finalize. intros H.
  destruct (InputTypeDetector.detect (points this) (lastInputSource this)) as [ty|];
    [|discriminate].
  cbv zeta in H.
  match type of H with
  | context [locals ?s ?tm rect] => destruct (locals s tm rect) as [l|]; [|discriminate]
  end.
  unfold AdaptivePerceptron.predict in H. cbv zeta in H.
  inversion H; subst; clear H. cbn. repeat split; reflexivity.
Qed.

(** The constants of [finalize] read three fields of the engine: the Point
    Stream, the detected input type and the entry position. *)
Lemma locals_ext (a b : State) (tm : Timing) (rect : Rect) :
  points a = points b -> inputType a = inputType b -> entry_pos a = entry_pos b ->
  locals a tm rect = locals b tm rect.
Proof.
  intros Hp Ht He.
  unfold locals, analyzeJitter, analyzeAcceleration. rewrite Hp, Ht, He. reflexivity.
Qed.

(** The constants with which a successful [finalize] worked are those of
    the engine it leaves, at the durations taken before [t_entry] was reset. *)
Lemma finalize_locals (this this' : State) (t_up : float) (rect : Rect)
      (r : Result) (calls : list (Callback * Result)) :
  finalize this t_up rect = Some (r, this', calls) ->
  exists l,
    locals this' (timing this t_up) rect = Some l
    /\ inputType this' = r_inputType r
    /\ d_fitts (analysisDetails r) = ID (l_fitts l)
    /\ d_reaction (analysisDetails r) = decisionTime (timing this t_up)
    /\ d_dwell (analysisDetails r) = dwellTime (timing this t_up)
    /\ d_entropy (analysisDetails r) = normalizedEntropy (l_entropy l)
    /\ AdaptivePerceptron.lastP (selected this')
       = Num (fst (AdaptivePerceptron.predict (selected this') (inputs l))).
Proof.
  intros H. open_finalize H ty l. exists l.
  split; [rewrite <- Hlocals; apply locals_ext; reflexivity|].
  repeat split; try reflexivity.
  destruct (isTouch ty); reflexivity.
Qed.

Lemma handleEnd_tracking (this : State) (t_up : float) (rect : Rect) :
  isTracking this = true ->
  exists r this' calls,
    finalize (with_isTracking this false) t_up rect = Some (r, this', calls)
    /\ handleEnd this t_up rect = Some (this', calls).
Proof.
  intros Htr. unfold handleEnd. rewrite Htr. cbn [negb]. cbv zeta.
  destruct (finalize_total (with_isTracking this false) t_up rect) as (r & this' & calls & H).
  rewrite H. exists r, this', calls. split; reflexivity.
Qed.

(** C10. A release or cancel that arrives while the engine is not TRACKING
    changes no field of the engine and calls no subscriber: [handleEnd]
    returns at its guard, and so does each of the four listeners ([mouseup],
    [touchend], [pointerup], [touchcancel]). *)
Theorem release_when_idle_is_noop (this : State) (clock : nat -> float) (rect : Rect) :
  isTracking this = false ->
  handleEnd this (clock 0%nat) rect = Some (this, [])
  /\ dispatch this mouseup clock rect = Some (this, [])
  /\ dispatch this touchend clock rect = Some (this, [])
  /\ dispatch this pointerup clock rect = Some (this, [])
  /\ dispatch this touchcancel clock rect = Some (this, []).
Proof.
  intros Hidle. unfold dispatch, handleEnd. rewrite Hidle. cbn.
  repeat split; reflexivity.
Qed.

(** C1, as the code has it. A press is handled in the same way whether or
    not the engine is TRACKING: [handleStart] has no guard.  The press
    timestamp becomes the clock reading, the Point Stream becomes the single
    sample of this press, [isTracking] is true, and the other fields keep
    their values.  It is the legacy verifier that ignores a press while it
    is tracking. *)
Theorem handleStart_restarts_gesture (this : State) (e : Coords) (now now' : float) :
  points (handleStart this e now now') = [Point.make (clientX e) (clientY e) now']
  /\ t_down (handleStart this e now now') = now
  /\ isTracking (handleStart this e now now') = true
  /\ t_entry (handleStart this e now now') = t_entry this
  /\ entry_pos (handleStart this e now now') = entry_pos this
  /\ lastInputSource (handleStart this e now now') = lastInputSource this
  /\ inputType (handleStart this e now now') = inputType this
  /\ options (handleStart this e now now') = options this
  /\ listeners (handleStart this e now now') = listeners this
  /\ (forall (s : HumanVerifier.State) (me : HumanVerifier.MouseEvent) (te : option HumanVerifier.Touch)
             (checked : bool) (wall : nat -> Z),
         HumanVerifier.isTracking s = true ->
         HumanVerifier.handleMouseDown s me checked wall = s
         /\ HumanVerifier.handleTouchStart s te wall = s).
Proof.
  unfold handleStart, addPoint. cbn.
  repeat (split; [reflexivity|]).
  intros s me te checked wall Htr. split.
  - unfold HumanVerifier.handleMouseDown. rewrite Htr, orb_true_r.
    destruct (wall 0%nat <? HumanVerifier.touchEndBlock s)%Z; reflexivity.
  - unfold HumanVerifier.handleTouchStart. rewrite Htr. reflexivity.
Qed.

(** The three listeners of a press call [handleStart] without looking at
    [isTracking]. *)
Lemma press_listeners (this : State) (e : Coords) (clock : nat -> float) (rect : Rect) :
  dispatch this (mousedown e) clock rect
  = Some (handleStart (sourceIfNone this SrcMouse) e (clock 0%nat) (clock 1%nat), [])
  /\ dispatch this (pointerdown PointerMouse e) clock rect
     = Some (handleStart (sourceIfNone this SrcMouse) e (clock 0%nat) (clock 1%nat), [])
  /\ dispatch this (touchstart e) clock rect
     = Some (handleStart (handleEntry (with_lastInputSource this (Some SrcTouch)) e (clock 0%nat))
                         e (clock 1%nat) (clock 2%nat), []).
Proof. repeat split; reflexivity. Qed.

(** C5, as the code has it. A press empties the Point Stream before it
    appends its own sample, so no sample of an earlier gesture is in the
    stream of the next one; a release finalizes and leaves the stream as it
    is: the samples of the finished gesture stay in [points] until the next
    press.  It is the legacy verifier that empties its [moveEvents] when it
    has reported a gesture. *)
Theorem points_reset_on_press_only (this : State) (e : Coords) (now now' t_up : float)
        (rect : Rect) :
  points (handleStart this e now now') = [Point.make (clientX e) (clientY e) now']
  /\ (forall (s s' : HumanVerifier.State) (me : HumanVerifier.MouseEvent) (checked : bool)
             (wall : nat -> Z) (report : HumanVerifier.Report),
         HumanVerifier.handleMouseUp s me checked wall = (s', Some report) ->
         HumanVerifier.moveEvents s' = [] /\ HumanVerifier.isTracking s' = false)
  /\ exists this' calls,
       handleEnd this t_up rect = Some (this', calls) /\ points this' = points this.
Proof.
  split; [reflexivity|]. split.
  { intros s s' me checked wall report H. unfold HumanVerifier.handleMouseUp in H.
    destruct (wall 0%nat <? HumanVerifier.touchEndBlock s)%Z; [discriminate|].
    destruct (negb (HumanVerifier.isTracking s)
              || negb (HumanVerifier.isKind s HumanVerifier.MOUSE_GESTURE)); [discriminate|].
    destruct (HumanVerifier.dataObject s); [|discriminate].
    inversion H; subst. split; reflexivity. }
  destruct (isTracking this) eqn:Htr.
  - destruct (handleEnd_tracking this t_up rect Htr) as (r & this' & calls & Hf & He).
    exists this', calls. split; [exact He|].
    apply finalize_frame in Hf. destruct Hf as (Hp & _). exact Hp.
  - exists this, []. split; [|reflexivity].
    unfold handleEnd. rewrite Htr. reflexivity.
Qed.

(** Whatever the host computes, the three samples of [Samples.tracking] are
    still in the Point Stream after the release. *)
Lemma points_after_release :
  option_map (fun r => List.length (points (fst r)))
             (handleEnd Samples.tracking 1200 Samples.box) = Some 3%nat.
Proof. vm_compute. reflexivity. Qed.

End Capture.

(** C10 at a closed input: a fresh engine, never pressed. *)
Lemma release_when_idle_is_noop_witness :
  Vhum.isTracking Samples.fresh = false
  /\ Vhum.handleEnd (M := RefMath.host) Samples.fresh 1200 Samples.box = Some (Samples.fresh, []).
Proof.
  split; [reflexivity|].
  exact (proj1 (@release_when_idle_is_noop RefMath.host Samples.fresh (fun _ => 1200%float)
                  Samples.box eq_refl)).
Defined.

(** C1 as the claim states it fails: a second press while TRACKING replaces
    the three samples by one and moves the press timestamp from 1050 to
    2000. *)
Lemma second_press_is_not_ignored :
  Vhum.isTracking Samples.tracking = true
  /\ List.length (Vhum.points Samples.tracking) = 3%nat
  /\ List.length (Vhum.points (Vhum.handleStart Samples.tracking (Samples.at_ 40 40) 2000 2001))
     = 1%nat
  /\ PrimFloat.eqb (Vhum.t_down Samples.tracking) 1050 = true
  /\ PrimFloat.eqb (Vhum.t_down (Vhum.handleStart Samples.tracking (Samples.at_ 40 40) 2000 2001))
                   2000 = true
  /\ Vhum.handleStart Samples.tracking (Samples.at_ 40 40) 2000 2001 <> Samples.tracking.
Proof.
  repeat split; try reflexivity.
  intros H. apply (f_equal (fun s => List.length (Vhum.points s))) in H.
  vm_compute in H. discriminate.
Qed.

(** C5 as the claim states it fails: after press, two moves and release the
    Point Stream still holds the three samples of the finished gesture. *)
Lemma points_survive_release :
  Vhum.isTracking Samples.tracking = true
  /\ option_map (fun r => List.length (Vhum.points (fst r)))
       (Vhum.handleEnd (M := RefMath.host) Samples.tracking 1200 Samples.box) = Some 3%nat
  /\ option_map (fun r => Vhum.isTracking (fst r))
       (Vhum.handleEnd (M := RefMath.host) Samples.tracking 1200 Samples.box) = Some false.
Proof.
  repeat split; vm_compute; reflexivity.
Qed.

(* ================================================================== *)
(** * Sampling of move events *)
(* ================================================================== *)

Section Sampling.
Import Runs.
Open Scope Z_scope.

(** Counting the multiples of [n] one step further. *)
Lemma div_succ (c n : Z) :
  0 <= c -> 0 < n ->
  (c + 1) / n = c / n + (if Z.rem (c + 1) n =? 0 then 1 else 0).
Proof.
  intros Hc Hn.
  rewrite Z.rem_mod_nonneg by lia.
  pose proof (Z.div_mod (c + 1) n ltac:(lia)) as Hdm.
  pose proof (Z.mod_pos_bound (c + 1) n Hn) as Hb.
  pose proof (Z.div_mod c n ltac:(lia)) as Hdm'.
  pose proof (Z.mod_pos_bound c n Hn) as Hb'.
  destruct (Z.eqb_spec ((c + 1) mod n) 0) as [E|E]; nia.
Qed.

(** The legacy verifier, one move while a mouse gesture is recorded: the
    counter goes up by one, and the event is kept exactly when the new count
    is a multiple of the divisor. *)
Lemma handleMouseMove_step (s : HumanVerifier.State) (e : HumanVerifier.MouseEvent) (now : Z) :
  HumanVerifier.isTracking s = true ->
  HumanVerifier.isKind s HumanVerifier.MOUSE_GESTURE = true ->
  let s' := HumanVerifier.handleMouseMove s e now in
  HumanVerifier.moveCounter s' = HumanVerifier.moveCounter s + 1
  /\ HumanVerifier.moveSampleRate s' = HumanVerifier.moveSampleRate s
  /\ HumanVerifier.isTracking s' = true
  /\ HumanVerifier.isKind s' HumanVerifier.MOUSE_GESTURE = true
  /\ HumanVerifier.moveEvents s'
     = if HumanVerifier.notMultiple (HumanVerifier.moveCounter s + 1) (HumanVerifier.moveSampleRate s)
       then HumanVerifier.moveEvents s
       else (HumanVerifier.moveEvents s ++ [HumanVerifier.getMouseData e now])%list.
Proof.
  intros Htr Hk. unfold HumanVerifier.handleMouseMove. rewrite Htr, Hk. cbn.
  destruct (HumanVerifier.notMultiple _ _); cbn; repeat split; assumption.
Qed.

Lemma mouseMoves_count (evs : list (HumanVerifier.MouseEvent * Z)) :
  forall s : HumanVerifier.State,
    HumanVerifier.isTracking s = true ->
    HumanVerifier.isKind s HumanVerifier.MOUSE_GESTURE = true ->
    0 <= HumanVerifier.moveCounter s ->
    0 < HumanVerifier.moveSampleRate s ->
    HumanVerifier.moveCounter (mouseMoves s evs)
    = HumanVerifier.moveCounter s + Z.of_nat (List.length evs)
    /\ Z.of_nat (List.length (HumanVerifier.moveEvents (mouseMoves s evs)))
       = Z.of_nat (List.length (HumanVerifier.moveEvents s))
         + (HumanVerifier.moveCounter s + Z.of_nat (List.length evs))
           / HumanVerifier.moveSampleRate s
         - HumanVerifier.moveCounter s / HumanVerifier.moveSampleRate s.
Proof.
  induction evs as [|[e now] evs IH]; intros s Htr Hk Hc Hn.
  - cbn [mouseMoves fold_left List.length Z.of_nat]. rewrite Z.add_0_r. split; lia.
  - cbn [mouseMoves fold_left fst snd].
    destruct (handleMouseMove_step s e now Htr Hk) as (Hc' & Hn' & Htr' & Hk' & Hev).
    cbv zeta in Hc', Hn', Htr', Hk', Hev.
    specialize (IH (HumanVerifier.handleMouseMove s e now) Htr' Hk').
    unfold mouseMoves in IH.
    rewrite Hc', Hn' in IH.
    destruct IH as [IHc IHe]; [lia | lia |].
    split.
    + rewrite IHc. cbn [List.length]. lia.
    + rewrite IHe, Hev. cbn [List.length]. rewrite Nat2Z.inj_succ.
      replace (HumanVerifier.moveCounter s + Z.succ (Z.of_nat (List.length evs)))
        with (HumanVerifier.moveCounter s + 1 + Z.of_nat (List.length evs)) by lia.
      pose proof (div_succ _ _ Hc Hn) as Hd.
      unfold HumanVerifier.notMultiple.
      destruct (Z.eqb_spec (HumanVerifier.moveSampleRate s) 0) as [E|E]; [lia|].
      destruct (Z.rem (HumanVerifier.moveCounter s + 1) (HumanVerifier.moveSampleRate s) =? 0);
        cbn [negb]; rewrite ?length_app; cbn [List.length]; lia.
Qed.

Lemma moves_tracking (evs : list (Vhum.Coords * float)) :
  forall this : Vhum.State,
    Vhum.isTracking this = true ->
    Vhum.isTracking (moves this evs) = true
    /\ Vhum.points (moves this evs)
       = (Vhum.points this
          ++ map (fun ev => Point.make (Vhum.clientX (fst ev)) (Vhum.clientY (fst ev)) (snd ev)) evs)%list.
Proof.
  induction evs as [|[e now] evs IH]; intros this Htr.
  - cbn. rewrite app_nil_r. split; [exact Htr | reflexivity].
  - cbn [moves fold_left fst snd map].
    assert (Hstep : Vhum.handleMove this e now = Vhum.addPoint this e now).
    { unfold Vhum.handleMove. rewrite Htr. reflexivity. }
    rewrite Hstep.
    destruct (IH (Vhum.addPoint this e now) Htr) as [IHt IHp].
    unfold moves in IHt, IHp. split; [exact IHt|].
    rewrite IHp. cbn. rewrite <- app_assoc. reflexivity.
Qed.

(** C6, as the code has it. The sampling divisor belongs to the legacy
    verifier: from a mouse press on, [k] move events raise [moveCounter] to
    [k] and leave [k / moveSampleRate] of them in [moveEvents] (a divisor of
    5 when none is given).  The engine has no divisor and no counter: while
    TRACKING, [handleMove] appends every move event to the Point Stream. *)
Theorem move_sampling (s : HumanVerifier.State) (e : HumanVerifier.MouseEvent) (checked : bool)
        (clock : nat -> Z) (evs : list (HumanVerifier.MouseEvent * Z))
        (this : Vhum.State) (mvs : list (Vhum.Coords * float)) :
  HumanVerifier.isTracking s = false ->
  HumanVerifier.touchEndBlock s <= clock 0%nat ->
  HumanVerifier.button e = 0 ->
  0 < HumanVerifier.moveSampleRate s ->
  Vhum.isTracking this = true ->
  let s' := mouseMoves (HumanVerifier.handleMouseDown s e checked clock) evs in
  HumanVerifier.moveCounter s' = Z.of_nat (List.length evs)
  /\ Z.of_nat (List.length (HumanVerifier.moveEvents s'))
     = Z.of_nat (List.length evs) / HumanVerifier.moveSampleRate s
  /\ HumanVerifier.moveSampleRate (HumanVerifier.constructor None) = 5
  /\ List.length (Vhum.points (moves this mvs))
     = (List.length (Vhum.points this) + List.length mvs)%nat.
Proof.
  intros Hidle Hblock Hbtn Hn Htr s'.
  assert (Hdown : HumanVerifier.handleMouseDown s e checked clock
                  = {| HumanVerifier.isTracking := true;
                       HumanVerifier.dataObject :=
                         Some {| HumanVerifier.type := HumanVerifier.MOUSE_GESTURE;
                                 HumanVerifier.startTimestamp := clock 1%nat;
                                 HumanVerifier.startData :=
                                   Some (HumanVerifier.getMouseData e (clock 2%nat));
                                 HumanVerifier.initialCheckboxState := Some checked |};
                       HumanVerifier.moveEvents := [];
                       HumanVerifier.touchEndBlock := HumanVerifier.touchEndBlock s;
                       HumanVerifier.moveSampleRate := HumanVerifier.moveSampleRate s;
                       HumanVerifier.moveCounter := 0 |}).
  { unfold HumanVerifier.handleMouseDown.
    replace (clock 0%nat <? HumanVerifier.touchEndBlock s) with false
      by (symmetry; apply Z.ltb_ge; exact Hblock).
    rewrite Hbtn, Hidle. reflexivity. }
  destruct (mouseMoves_count evs (HumanVerifier.handleMouseDown s e checked clock)) as [Hc He];
    try (rewrite Hdown; cbn; first [reflexivity | lia]).
  fold s' in Hc, He. rewrite Hdown in Hc, He. cbn in Hc, He.
  repeat split.
  - exact Hc.
  - rewrite He. try rewrite Z.div_0_l by lia. lia.
  - destruct (moves_tracking mvs this Htr) as [_ Hp].
    rewrite Hp, length_app, length_map. reflexivity.
Qed.

End Sampling.

(** C6 at a closed input: twelve moves after a click on a legacy verifier
    with the default divisor leave two samples; two moves of a TRACKING
    engine add two samples. *)
Lemma move_sampling_witness :
  HumanVerifier.moveCounter
    (Runs.mouseMoves (HumanVerifier.handleMouseDown Samples.legacy Samples.click false Samples.wallClock)
                Samples.twelveMoves) = 12%Z
  /\ Z.of_nat (List.length
       (HumanVerifier.moveEvents
          (Runs.mouseMoves (HumanVerifier.handleMouseDown Samples.legacy Samples.click false
                         Samples.wallClock)
                      Samples.twelveMoves)))
     = (12 / 5)%Z
  /\ HumanVerifier.moveSampleRate (HumanVerifier.constructor None) = 5%Z
  /\ List.length (Vhum.points (Runs.moves Samples.tracking Samples.twoMoves)) = (3 + 2)%nat.
Proof.
  apply (move_sampling Samples.legacy Samples.click false Samples.wallClock Samples.twelveMoves
           Samples.tracking Samples.twoMoves);
    first [reflexivity | cbn; lia].
Defined.

(** C6 as the claim states it fails on the engine: of two consecutive move
    events while TRACKING both are retained, the first one included. *)
Lemma engine_retains_every_move :
  Vhum.isTracking Samples.tracking = true
  /\ List.length (Vhum.points Samples.tracking) = 3%nat
  /\ List.length (Vhum.points (Vhum.handleMove Samples.tracking (Samples.at_ 40 30) 1100)) = 4%nat
  /\ List.length
       (Vhum.points
          (Vhum.handleMove (Vhum.handleMove Samples.tracking (Samples.at_ 40 30) 1100)
                           (Samples.at_ 52 37) 1116)) = 5%nat.
Proof. repeat split; reflexivity. Qed.

(* ================================================================== *)
(** * The decision *)
(* ================================================================== *)

Section Decision.
Context {M : MathLib}.
Import Js Vhum.




End Decision.

(* ================================================================== *)
(** * The Fitts's-law check *)
(* ================================================================== *)

Section FittsCheck.
Context {M : MathLib}.
Import Js Vhum.
Open Scope string_scope.

(** C8. The Fitts's-law check of [finalize] is the specification's: D is
    the distance from the entry position to the centre of the control, W the
    smaller side of the control, ID = max(0, log2(2D/(W+1) + 1)), the
    expected time (ID / throughput) * 1000 with throughput 4.0 for a pointer
    and 2.5 for touch, and the violation is flagged (feature [fitts] = 1,
    otherwise 0) exactly when release - entry is below the expected time
    times 0.6 for a pointer and 0.35 for touch. *)
Theorem fitts_check (this : State) (t_up : float) (rect : Rect) :
  exists r this' calls l,
    finalize this t_up rect = Some (r, this', calls)
    /\ locals this' (timing this t_up) rect = Some l
    /\ D (l_fitts l) = FittsSpec.distance (entry_pos this) rect
    /\ W (l_fitts l) = FittsSpec.size rect
    /\ ID (l_fitts l) = FittsSpec.indexOfDifficulty (D (l_fitts l)) (W (l_fitts l))
    /\ d_fitts (analysisDetails r) = ID (l_fitts l)
    /\ throughputExpected (l_fitts l) = FittsSpec.throughput (r_inputType r)
    /\ timeExpectedFitts (l_fitts l) = FittsSpec.expectedTime (ID (l_fitts l)) (r_inputType r)
    /\ fittsViolation (l_fitts l)
       = FittsSpec.violation (r_inputType r) (entry_pos this) rect t_up (t_entry this)
    /\ AdaptivePerceptron.get (inputs l) "fitts"
       = Num (if fittsViolation (l_fitts l) then 1 else 0)
    /\ (FittsSpec.throughput TOUCH <? FittsSpec.throughput MOUSE)%float = true
    /\ (FittsSpec.fraction TOUCH <? FittsSpec.fraction MOUSE)%float = true.
Proof.
  destruct (finalize_total this t_up rect) as (r & this' & calls & Hf).
  destruct (finalize_locals this this' t_up rect r calls Hf) as (l & Hl & Hty & Hid & _).
  destruct (finalize_frame this this' t_up rect r calls Hf)
    as (_ & _ & _ & _ & Hentry & _).
  exists r, this', calls, l.
  split; [exact Hf|]. split; [exact Hl|].
  unfold locals in Hl. cbv zeta in Hl.
  destruct (analyzeJitter this' (points this')); [|discriminate].
  destruct (analyzeCurvature (points this')); [|discriminate].
  destruct (checkTemporalPrecision (points this')); [|discriminate].
  inversion Hl; subst l; clear Hl.
  cbn [l_fitts inputs AdaptivePerceptron.get String.eqb Ascii.eqb Bool.eqb] in *.
  rewrite Hentry, Hty in Hid |- *.
  unfold fitts, FittsSpec.violation, FittsSpec.expectedTime, FittsSpec.indexOfDifficulty,
    FittsSpec.distance, FittsSpec.size, FittsSpec.throughput, FittsSpec.fraction, flag in Hid |- *.
  cbn [D W ID throughputExpected timeExpectedFitts fittsViolation movementTime timing]
    in Hid |- *.
  destruct (r_inputType r); cbn [isTouch InputType_eqb];
    repeat split; try reflexivity; exact Hid.
Qed.

End FittsCheck.

(* ================================================================== *)
(** * binary64 facts *)
(* ================================================================== *)

Section Binary64.
Import Js.
Open Scope float_scope.

(** binary64 multiplication commutes. *)
Lemma mul_comm (a b : float) : a * b = b * a.
Proof.
  rewrite <- (SF2Prim_Prim2SF (a * b)), <- (SF2Prim_Prim2SF (b * a)).
  rewrite !mul_spec. f_equal. unfold SF64mul, SFmul.
  destruct (Prim2SF a) as [sa|sa| |sa ma ea], (Prim2SF b) as [sb|sb| |sb mb eb];
    try reflexivity; rewrite (xorb_comm sa sb); try reflexivity.
  rewrite (Pos.mul_comm ma mb), (Z.add_comm ea eb). reflexivity.
Qed.

(** A Number greater than 0 is truthy. *)
Lemma truthy_positive (v : float) : (0 <? v) = true -> truthy v = true.
Proof.
  intros H. unfold truthy, is_zero, is_nan.
  rewrite ltb_spec in H. rewrite !FloatAxioms.eqb_spec.
  change (Prim2SF 0) with (S754_zero false) in H.
  change (Prim2SF zero) with (S754_zero false).
  unfold SFltb, SFeqb in *.
  destruct (Prim2SF v) as [s|s| |s m e]; cbn in H |- *; try discriminate.
  - destruct s; [discriminate | reflexivity].
  - destruct s; [discriminate|].
    rewrite Z.compare_refl, Pos.compare_cont_refl. reflexivity.
Qed.

(** [v || 0] is [v] for a feature value. *)
Lemma orElse_inUnit (v : float) : ScorerSpec.inUnit v -> orElse v 0 = v.
Proof.
  intros [[Hz|Hp] _]; unfold orElse.
  - subst v. reflexivity.
  - rewrite (truthy_positive v Hp). reflexivity.
Qed.

End Binary64.

(* ================================================================== *)
(** * The Linear Scorer *)
(* ================================================================== *)

Section Scorer.
Context {M : MathLib}.
Import Js AdaptivePerceptron.
Open Scope float_scope.

Lemma get_of_nodup (o : NumObject) :
  NoDup (map fst o) ->
  forall k v, In (k, v) o -> get o k = Num v.
Proof.
  induction o as [|[k' v'] o IH]; intros Hnd k v Hin; [contradiction|].
  cbn [map fst] in Hnd. inversion Hnd as [|? ? Hnotin Hnd']; subst.
  cbn [get]. destruct Hin as [Heq|Hin].
  - inversion Heq; subst. rewrite String.eqb_refl. reflexivity.
  - destruct (String.eqb_spec k' k) as [E|E].
    + subst k'. exfalso. apply Hnotin. apply (in_map fst) in Hin. exact Hin.
    + apply IH; assumption.
Qed.

(** The loop of [predict], term by term, when every value is a feature
    value known to [val] and every key has a truthy weight. *)
Lemma accumulate_fold (w : NumObject) (val : string -> float) (inputs : NumObject) :
  Forall (fun kv => val (fst kv) = snd kv
                    /\ ScorerSpec.inUnit (snd kv)
                    /\ valOrElse (get w (fst kv)) 0 = ToNumber (get w (fst kv))) inputs ->
  forall z0,
    accumulate w inputs z0
    = fold_left (fun acc f => acc + ToNumber (get w f) * val f) (map fst inputs) z0.
Proof.
  induction 1 as [|[k v] inputs (Hv & Hu & Hw) _ IH]; intros z0; [reflexivity|].
  cbn [fst snd] in Hv, Hu, Hw.
  unfold accumulate in *. cbn [fold_left map fst].
  rewrite Hw, (orElse_inUnit v Hu), (mul_comm v), Hv. apply IH.
Qed.

(** Every feature has a truthy weight in both presets. *)
Lemma preset_weight (w : NumObject) (k : string) :
  w = mouseWeights \/ w = touchWeights ->
  In k ScorerSpec.features ->
  valOrElse (get w k) 0 = ToNumber (get w k).
Proof.
  intros [Hw|Hw] Hk; subst w; cbn in Hk;
    repeat (destruct Hk as [Hk|Hk]; [subst k; vm_compute; reflexivity|]);
    contradiction.
Qed.

(** [predict] writes [lastZ] and [lastP] and nothing else. *)
Lemma predict_keeps_weights (p : Perceptron) (inputs : NumObject) :
  weights (snd (predict p inputs)) = weights p
  /\ bias (snd (predict p inputs)) = bias p
  /\ inputType (snd (predict p inputs)) = inputType p.
Proof. repeat split; reflexivity. Qed.

(** C9. On a feature vector (the ten named features, each a Number from
    0 to 1) the perceptron's prediction is
    sigmoid(clamp(bias + sum of weight * value, -100, 100)) with the
    weights and the bias of its preset; the presets are the two tables of
    [_initializeWeights], the touch one for TOUCH and the other one
    otherwise; [predict] leaves the weights and the bias as they were. *)
Theorem predict_is_linear_scorer (p : Perceptron) (inputs : NumObject) :
  map fst inputs = ScorerSpec.features ->
  Forall (fun kv => ScorerSpec.inUnit (snd kv)) inputs ->
  weights p = mouseWeights \/ weights p = touchWeights ->
  fst (predict p inputs) = ScorerSpec.probability (weights p) (bias p) inputs
  /\ weights (snd (predict p inputs)) = weights p
  /\ bias (snd (predict p inputs)) = bias p
  /\ (weights (new TOUCH) = touchWeights /\ bias (new TOUCH) = -2.6)
  /\ (weights (new MOUSE) = mouseWeights /\ bias (new MOUSE) = -3.2)
  /\ (weights (new UNKNOWN) = mouseWeights /\ bias (new UNKNOWN) = -3.2).
Proof.
  intros Hkeys Hunit Hw.
  split; [|repeat split; reflexivity].
  unfold predict, ScorerSpec.probability, ScorerSpec.z, ScorerSpec.logistic,
    ScorerSpec.clamp, sigmoid. cbn [fst].
  rewrite <- Hkeys.
  rewrite (accumulate_fold (weights p) (fun f => ToNumber (get inputs f)) inputs);
    [reflexivity|].
  assert (Hnd : NoDup (map fst inputs)).
  { rewrite Hkeys. unfold ScorerSpec.features.
    repeat (constructor; [cbn; intuition discriminate|]). constructor. }
  rewrite Forall_forall in Hunit |- *. intros [k v] Hin. cbn [fst snd].
  split; [|split].
  - rewrite (get_of_nodup inputs Hnd k v Hin). reflexivity.
  - exact (Hunit (k, v) Hin).
  - apply preset_weight; [exact Hw|].
    rewrite <- Hkeys. apply (in_map fst) in Hin. exact Hin.
Qed.

End Scorer.

(* ================================================================== *)
(** * What the Result depends on *)
(* ================================================================== *)

Section Purity.
Context {M : MathLib}.
Import Js Vhum Runs.

(** [finalize] leaves the weights and the bias of both perceptrons as they
    were. *)
Lemma finalize_keeps_weights (this this' : State) (t_up : float) (rect : Rect)
      (r : Result) (calls : list (Callback * Result)) :
  finalize this t_up rect = Some (r, this', calls) ->
  AdaptivePerceptron.weights (nnMouse this') = AdaptivePerceptron.weights (nnMouse this)
  /\ AdaptivePerceptron.bias (nnMouse this') = AdaptivePerceptron.bias (nnMouse this)
  /\ AdaptivePerceptron.weights (nnTouch this') = AdaptivePerceptron.weights (nnTouch this)
  /\ AdaptivePerceptron.bias (nnTouch this') = AdaptivePerceptron.bias (nnTouch this).
Proof.
  intros H. open_finalize H ty l.
  destruct (isTouch ty); cbn; repeat split; reflexivity.
Qed.

(** Two engines that agree on the fields below give the same Result at the
    same clock reading. *)
Lemma finalize_result_ext (this1 this2 : State) (t_up : float) (rect : Rect) :
  points this1 = points this2 ->
  lastInputSource this1 = lastInputSource this2 ->
  t_down this1 = t_down this2 ->
  t_entry this1 = t_entry this2 ->
  entry_pos this1 = entry_pos this2 ->
  options this1 = options this2 ->
  AdaptivePerceptron.weights (nnMouse this1) = AdaptivePerceptron.weights (nnMouse this2) ->
  AdaptivePerceptron.bias (nnMouse this1) = AdaptivePerceptron.bias (nnMouse this2) ->
  AdaptivePerceptron.weights (nnTouch this1) = AdaptivePerceptron.weights (nnTouch this2) ->
  AdaptivePerceptron.bias (nnTouch this1) = AdaptivePerceptron.bias (nnTouch this2) ->
  resultOf (finalize this1 t_up rect) = resultOf (finalize this2 t_up rect).
Proof.
  intros Hp Hs Hd He Hpos Ho Hwm Hbm Hwt Hbt.
  unfold finalize. rewrite Hp, Hs.
  destruct (InputTypeDetector.detect (points this2) (lastInputSource this2)) as [ty|];
    [|reflexivity].
  cbv zeta.
  set (sel := if isTouch ty then TheTouchNet else TheMouseNet).
  assert (Htm : timing (with_inputType this1 ty sel) t_up
                = timing (with_inputType this2 ty sel) t_up).
  { unfold timing. cbn. rewrite Hd, He. reflexivity. }
  rewrite Htm.
  rewrite (locals_ext (with_t_entry (with_inputType this1 ty sel) 0)
                      (with_t_entry (with_inputType this2 ty sel) 0)
                      (timing (with_inputType this2 ty sel) t_up) rect)
    by (cbn; first [assumption | reflexivity]).
  destruct (locals _ _ rect) as [l|]; [|reflexivity].
  unfold AdaptivePerceptron.predict. cbv zeta. unfold resultOf, sel.
  destruct (isTouch ty) eqn:Et; cbn; rewrite ?Et; cbn;
    rewrite ?Hwm, ?Hbm, ?Hwt, ?Hbt, Ho; reflexivity.
Qed.

Lemma handleEnd_keeps_tables (this this' : State) (t_up : float) (rect : Rect)
      (calls : list (Callback * Result)) :
  handleEnd this t_up rect = Some (this', calls) -> tables this' = tables this.
Proof.
  unfold handleEnd. destruct (isTracking this); cbn [negb].
  - cbv zeta.
    destruct (finalize (with_isTracking this false) t_up rect) as [[[r s] c]|] eqn:Hf;
      [|discriminate].
    intros H. inversion H; subst; clear H.
    destruct (finalize_keeps_weights _ _ _ _ _ _ Hf) as (Hwm & Hbm & Hwt & Hbt).
    unfold tables. rewrite Hwm, Hbm, Hwt, Hbt. reflexivity.
  - intros H. inversion H. reflexivity.
Qed.

Lemma tables_handleStart (this : State) (e : Coords) (now now' : float) :
  tables (handleStart this e now now') = tables this.
Proof. reflexivity. Qed.

Lemma tables_handleMove (this : State) (e : Coords) (now : float) :
  tables (handleMove this e now) = tables this.
Proof. unfold handleMove. destruct (negb (isTracking this)); reflexivity. Qed.

Lemma tables_sourceIfNone (this : State) (src : Source) :
  tables (sourceIfNone this src) = tables this.
Proof. unfold sourceIfNone. destruct (lastInputSource this); reflexivity. Qed.

(** No event changes the weights or the bias of a perceptron. *)
Lemma dispatch_keeps_tables (this this' : State) (ev : DomEvent) (clock : nat -> float)
      (rect : Rect) (calls : list (Callback * Result)) :
  dispatch this ev clock rect = Some (this', calls) -> tables this' = tables this.
Proof.
  intros H.
  destruct ev as [e|e|[| |] e|e|e|e|[| |] e| | | |]; cbn [dispatch] in H;
    repeat match type of H with
           | context [if ?c then _ else _] => destruct c
           end;
    first [ apply handleEnd_keeps_tables in H; exact H
          | inversion H; subst; clear H;
            rewrite ?tables_handleStart, ?tables_handleMove, ?tables_sourceIfNone;
            reflexivity ].
Qed.

(** On an engine made by the constructor the tables are the two presets,
    and they stay so through every sequence of events. *)
Lemma run_keeps_presets (given : UserOptions) (evs : list (DomEvent * (nat -> float)))
      (rect : Rect) (this' : State) (calls : list (Callback * Result)) :
  run (initial given) evs rect = Some (this', calls) ->
  tables this'
  = (AdaptivePerceptron.mouseWeights, (-3.2)%float, (AdaptivePerceptron.touchWeights, (-2.6)%float)).
Proof.
  change (AdaptivePerceptron.mouseWeights, (-3.2)%float,
          (AdaptivePerceptron.touchWeights, (-2.6)%float)) with (tables (initial given)).
  generalize (initial given). revert this' calls.
  induction evs as [|[ev clock] evs IH]; intros this' calls this H; cbn [run] in H.
  - inversion H. reflexivity.
  - destruct (dispatch this ev clock rect) as [[s c]|] eqn:Hd; [|discriminate].
    cbn [fst snd] in H.
    destruct (run s evs rect) as [[s' c']|] eqn:Hr; [|discriminate].
    inversion H; subst; clear H.
    rewrite (IH _ _ _ Hr). exact (dispatch_keeps_tables _ _ _ _ _ _ Hd).
Qed.

(** A second [finalize] on the engine the first one left works as a first
    one on an engine whose entry timestamp is 0: [finalize] has reset
    [t_entry], and nothing else that the Result depends on. *)
Lemma second_finalize_has_no_entry (this this' : State) (t_up : float) (rect : Rect)
      (r : Result) (calls : list (Callback * Result)) :
  finalize this t_up rect = Some (r, this', calls) ->
  resultOf (finalize this' t_up rect) = resultOf (finalize (with_t_entry this 0) t_up rect).
Proof.
  intros H.
  destruct (finalize_frame this this' t_up rect r calls H)
    as (Hp & _ & Hd & He & Hpos & Hs & Ho & _).
  destruct (finalize_keeps_weights this this' t_up rect r calls H) as (Hwm & Hbm & Hwt & Hbt).
  apply finalize_result_ext; cbn; assumption.
Qed.

(** C3, as the code has it. The Result of [finalize] is a function of the
    Point Stream, the input source, the press and entry timestamps, the
    entry position, the thresholds, the weights and biases, the clock
    reading and the control's rectangle: two engines that agree on these
    give the same Result at the same reading, whatever input type was
    detected before, whichever perceptron is selected and whatever
    [isTracking], [lastZ], [lastP] and the subscribers are.  [finalize]
    returns, and it resets the entry timestamp to 0: a second call on the
    engine that the first one left, at the same reading, gives the Result of
    a first call on an engine whose [t_entry] is 0; so it gives the first
    Result again when the entry timestamp was 0 already. *)
Theorem result_depends_on_context (this1 this2 : State) (t_up : float) (rect : Rect) :
  points this1 = points this2 ->
  lastInputSource this1 = lastInputSource this2 ->
  t_down this1 = t_down this2 ->
  t_entry this1 = t_entry this2 ->
  entry_pos this1 = entry_pos this2 ->
  options this1 = options this2 ->
  tables this1 = tables this2 ->
  resultOf (finalize this1 t_up rect) = resultOf (finalize this2 t_up rect)
  /\ exists r this' calls,
       finalize this1 t_up rect = Some (r, this', calls)
       /\ t_entry this' = 0%float
       /\ resultOf (finalize this' t_up rect)
          = resultOf (finalize (with_t_entry this1 0) t_up rect)
       /\ (t_entry this1 = 0%float -> resultOf (finalize this' t_up rect) = Some r).
Proof.
  intros Hp Hs Hd He Hpos Ho Ht. unfold tables in Ht. inversion Ht.
  split.
  - apply finalize_result_ext; assumption.
  - destruct (finalize_total this1 t_up rect) as (r & this' & calls & H).
    exists r, this', calls. split; [exact H|].
    destruct (finalize_frame _ _ _ _ _ _ H) as (_ & _ & _ & He' & _).
    split; [exact He'|].
    split; [exact (second_finalize_has_no_entry _ _ _ _ _ _ H)|].
    intros E0. rewrite (second_finalize_has_no_entry _ _ _ _ _ _ H).
    replace (Some r) with (resultOf (finalize this1 t_up rect)) by (rewrite H; reflexivity).
    apply finalize_result_ext; cbn; first [reflexivity | symmetry; exact E0].
Qed.

(** C2, the defect. On a stream of fewer than four samples [finalize]
    returns (nothing throws), but [analyzeEntropy] returns an object without
    [normalizedEntropy]: the feature [entropy] of the vector given to the
    scorer is NaN, and [analysisDetails.entropy] of the Result is
    [undefined]. *)
Theorem short_stream_entropy_is_NaN (this : State) (t_up : float) (rect : Rect) :
  (List.length (points this) < 4)%nat ->
  exists r this' calls l,
    finalize this t_up rect = Some (r, this', calls)
    /\ locals this' (timing this t_up) rect = Some l
    /\ AdaptivePerceptron.get (inputs l) "entropy" = Num nan
    /\ d_entropy (analysisDetails r) = Undefined.
Proof.
  intros Hlen.
  destruct (finalize_total this t_up rect) as (r & this' & calls & Hf).
  destruct (finalize_locals this this' t_up rect r calls Hf)
    as (l & Hl & _ & _ & _ & _ & Hent & _).
  destruct (finalize_frame this this' t_up rect r calls Hf) as (Hp & _).
  exists r, this', calls, l.
  split; [exact Hf|]. split; [exact Hl|].
  assert (Hshort : analyzeEntropy (points this')
                   = {| ent_score := 0; entropy := 0; directionBias := 0; predictability := 0;
                        normalizedEntropy := Undefined; dominance := Undefined |}).
  { unfold analyzeEntropy. rewrite Hp.
    replace (List.length (points this) <? 4)%nat with true
      by (symmetry; apply Nat.ltb_lt; exact Hlen).
    reflexivity. }
  unfold locals in Hl. cbv zeta in Hl.
  destruct (analyzeJitter this' (points this')); [|discriminate].
  destruct (analyzeCurvature (points this')); [|discriminate].
  destruct (checkTemporalPrecision (points this')); [|discriminate].
  inversion Hl; subst l; clear Hl.
  cbn [l_entropy inputs] in Hent |- *. rewrite Hshort in Hent |- *.
  split; [reflexivity | exact Hent].
Qed.

(** C4, the defect. [checkTemporalPrecision] does not floor its time
    deltas: on five samples with one timestamp the mean delta is 0 and the
    function divides by it, so [meanDtHz] is [Infinity] (with any host). *)
Theorem equal_timestamps_divide_by_zero :
  option_map meanDt (checkTemporalPrecision Samples.stalled) = Some (Num 0)
  /\ option_map meanDtHz (checkTemporalPrecision Samples.stalled) = Some (Num infinity).
Proof. split; vm_compute; reflexivity. Qed.

(** Whatever the host computes, [finalize] called twice in a row on
    [Samples.tracking] reports the reaction times 100 and 1050. *)
Lemma finalize_twice_reaction :
  option_map (fun rr => (d_reaction (analysisDetails (fst rr)),
                         d_reaction (analysisDetails (snd rr))))
             (finalizeTwice Samples.tracking 1200 Samples.box)
  = Some (100%float, 1050%float).
Proof. vm_compute. reflexivity. Qed.

End Purity.

(** C3 at a closed input: the Result does not change when another input
    type was detected before, the other perceptron is selected and the
    tracking flag is lowered. *)
Lemma result_depends_on_context_witness :
  Runs.resultOf (Vhum.finalize (M := RefMath.host) Samples.tracking 1200 Samples.box)
  = Runs.resultOf (Vhum.finalize (M := RefMath.host) Samples.trackingOtherwise 1200 Samples.box).
Proof.
  refine (proj1 (@result_depends_on_context RefMath.host Samples.tracking
                   Samples.trackingOtherwise 1200%float Samples.box _ _ _ _ _ _ _));
    reflexivity.
Defined.

(** C3 as the claim states it fails: [finalize] takes the time of the
    release from the clock, which is no part of the engine.  One and the same
    engine (one Point Stream, one gesture context, one rectangle) gives a
    Result with the dwell 150 when the clock reads 1200 and another Result,
    with the dwell 250, when it reads 1300. *)
Lemma finalize_depends_on_clock :
  option_map (fun r => Vhum.d_dwell (Vhum.analysisDetails r))
    (Runs.resultOf (Vhum.finalize (M := RefMath.host) Samples.tracking 1200 Samples.box))
  = Some 150%float
  /\ option_map (fun r => Vhum.d_dwell (Vhum.analysisDetails r))
       (Runs.resultOf (Vhum.finalize (M := RefMath.host) Samples.tracking 1300 Samples.box))
     = Some 250%float
  /\ PrimFloat.eqb 150 250 = false
  /\ Runs.resultOf (Vhum.finalize (M := RefMath.host) Samples.tracking 1200 Samples.box)
     <> Runs.resultOf (Vhum.finalize (M := RefMath.host) Samples.tracking 1300 Samples.box).
Proof.
  split; [vm_compute; reflexivity|]. split; [vm_compute; reflexivity|].
  split; [vm_compute; reflexivity|].
  intros E.
  apply (f_equal (option_map (fun r => PrimFloat.eqb (Vhum.d_dwell (Vhum.analysisDetails r)) 150)))
    in E.
  vm_compute in E. discriminate E.
Qed.

(** C2 at a closed input: the three samples of [Samples.tracking]. *)
Lemma short_stream_entropy_is_NaN_witness :
  (List.length (Vhum.points Samples.tracking) < 4)%nat
  /\ exists r this' calls l,
       Vhum.finalize (M := RefMath.host) Samples.tracking 1200 Samples.box
       = Some (r, this', calls)
       /\ Vhum.locals (M := RefMath.host) this' (Vhum.timing Samples.tracking 1200) Samples.box
          = Some l
       /\ AdaptivePerceptron.get (Vhum.inputs l) "entropy" = Js.Num nan
       /\ Vhum.d_entropy (Vhum.analysisDetails r) = Js.Undefined.
Proof.
  split; [cbn; lia|].
  apply (@short_stream_entropy_is_NaN RefMath.host Samples.tracking 1200%float Samples.box).
  cbn. lia.
Defined.

(** With the reference host the coefficient of variation that
    [checkTemporalPrecision] returns on [Samples.stalled] is 0/0. *)
Lemma equal_timestamps_variance_is_NaN :
  option_map (fun r => is_nan (Vhum.temp_variance r))
             (Vhum.checkTemporalPrecision (M := RefMath.host) Samples.stalled) = Some true.
Proof. vm_compute. reflexivity. Qed.

(** The sibling extractor floors its deltas: on the same samples
    [analyzeJitter] returns finite values. *)
Lemma equal_timestamps_jitter_is_finite :
  option_map (fun j => is_finite (Vhum.jitter_cv j) && is_finite (Vhum.syncRatio j))
             (Vhum.analyzeJitter (M := RefMath.host) Samples.fresh Samples.stalled) = Some true.
Proof. vm_compute. reflexivity. Qed.

(** C9 at a closed input: the mouse perceptron on [Samples.someFeatures]. *)
Lemma predict_is_linear_scorer_witness :
  fst (AdaptivePerceptron.predict (M := RefMath.host) (AdaptivePerceptron.new MOUSE)
         Samples.someFeatures)
  = ScorerSpec.probability (M := RefMath.host)
      (AdaptivePerceptron.weights (AdaptivePerceptron.new MOUSE))
      (AdaptivePerceptron.bias (AdaptivePerceptron.new MOUSE)) Samples.someFeatures.
Proof.
  refine (proj1 (@predict_is_linear_scorer RefMath.host (AdaptivePerceptron.new MOUSE)
                   Samples.someFeatures _ _ _)).
  - reflexivity.
  - unfold Samples.someFeatures, ScorerSpec.inUnit.
    repeat (constructor; [cbn [snd]; split; [first [left; reflexivity | right; reflexivity]
                                            | reflexivity]|]).
    constructor.
  - left. reflexivity.
Defined.

(* ================================================================== *)
(** * Comparisons, [Math.max] and [Math.min] *)
(* ================================================================== *)

Section OrderFacts.
Import Js.
Open Scope float_scope.

Lemma SFcompare_Lt (v w : spec_float) : SFcompare v w = Some Lt <-> Order.keysBelow v w.
Proof.
  unfold Order.keysBelow, Order.below.
  destruct v as [sv|sv| |sv mv ev], w as [sw|sw| |sw mw ew];
    try destruct sv; try destruct sw; cbn;
    try (split; intros H; first [discriminate H | contradiction | lia | reflexivity]).
  - change (Pos.compare_cont Eq mv mw) with (Pos.compare mv mw).
    destruct (Z.compare_spec ev ew), (Pos.compare_spec mv mw); cbn;
      split; intros H'; first [discriminate H' | lia | reflexivity].
  - change (Pos.compare_cont Eq mv mw) with (Pos.compare mv mw).
    destruct (Z.compare_spec ev ew), (Pos.compare_spec mv mw); cbn;
      split; intros H'; first [discriminate H' | lia | reflexivity].
Qed.

Lemma SFcompare_refl (v : spec_float) : Order.key v <> None -> SFcompare v v = Some Eq.
Proof.
  destruct v as [s|s| |s m e]; cbn; intros H; try reflexivity; try contradiction.
  - destruct s; reflexivity.
  - destruct s; rewrite Z.compare_refl, Pos.compare_cont_refl; reflexivity.
Qed.

Lemma ltb_keys (a b : float) : (a <? b) = true <-> Order.keysBelow (Prim2SF a) (Prim2SF b).
Proof.
  rewrite ltb_spec. unfold SFltb. rewrite <- SFcompare_Lt.
  destruct (SFcompare (Prim2SF a) (Prim2SF b)) as [[| |]|]; split; intros H;
    first [reflexivity | discriminate H].
Qed.

Lemma ltb_trans (a b c : float) : (a <? b) = true -> (b <? c) = true -> (a <? c) = true.
Proof.
  rewrite !ltb_keys. unfold Order.keysBelow, Order.below.
  destruct (Order.key (Prim2SF a)) as [[[a1 a2] a3]|],
           (Order.key (Prim2SF b)) as [[[b1 b2] b3]|],
           (Order.key (Prim2SF c)) as [[[c1 c2] c3]|]; try contradiction; lia.
Qed.

Lemma ltb_asym (a b : float) : (a <? b) = true -> (b <? a) = false.
Proof.
  intros H. destruct (b <? a) eqn:E; [|reflexivity]. exfalso.
  revert H E. rewrite !ltb_keys. unfold Order.keysBelow, Order.below.
  destruct (Order.key (Prim2SF a)) as [[[a1 a2] a3]|],
           (Order.key (Prim2SF b)) as [[[b1 b2] b3]|]; try contradiction; lia.
Qed.

Lemma ltb_irrefl (a : float) : (a <? a) = false.
Proof.
  destruct (a <? a) eqn:E; [|reflexivity].
  rewrite (ltb_asym a a E) in E. discriminate E.
Qed.

(** A NaN has no key, and a Number with a key is no NaN. *)
Lemma is_nan_key (a : float) : is_nan a = true <-> Order.key (Prim2SF a) = None.
Proof.
  unfold is_nan. rewrite FloatAxioms.eqb_spec. unfold SFeqb. split.
  - destruct (Order.key (Prim2SF a)) eqn:K; [|reflexivity].
    rewrite SFcompare_refl by (rewrite K; discriminate). discriminate.
  - intros K. destruct (Prim2SF a) as [s|s| |s m e]; try reflexivity;
      destruct s; discriminate K.
Qed.

Lemma nan_ltb_l (a b : float) : is_nan a = true -> (a <? b) = false.
Proof.
  intros N. apply is_nan_key in N. destruct (a <? b) eqn:E; [|reflexivity].
  apply ltb_keys in E. unfold Order.keysBelow in E. rewrite N in E. contradiction.
Qed.

Lemma nan_ltb_r (a b : float) : is_nan b = true -> (a <? b) = false.
Proof.
  intros N. apply is_nan_key in N. destruct (a <? b) eqn:E; [|reflexivity].
  apply ltb_keys in E. unfold Order.keysBelow in E. rewrite N in E.
  destruct (Order.key (Prim2SF a)); contradiction.
Qed.

Lemma ltb_not_nan (a b : float) : (a <? b) = true -> is_nan a = false /\ is_nan b = false.
Proof.
  intros H. split.
  - destruct (is_nan a) eqn:N; [|reflexivity]. rewrite (nan_ltb_l a b N) in H. discriminate H.
  - destruct (is_nan b) eqn:N; [|reflexivity]. rewrite (nan_ltb_r a b N) in H. discriminate H.
Qed.

(** [Math.max(a, b)] is below neither argument, [Math.min(a, b)] above
    neither. *)
Lemma Math_max_lower_l (a b : float) : (Math_max a b <? a) = false.
Proof.
  unfold Math_max.
  destruct (is_nan a || is_nan b); [apply nan_ltb_l; reflexivity|].
  destruct (a <? b) eqn:Eab; [apply ltb_asym; exact Eab|].
  destruct (b <? a) eqn:Eba; [apply ltb_irrefl|].
  destruct (get_sign a); [exact Eba | apply ltb_irrefl].
Qed.

Lemma Math_max_lower_r (a b : float) : (Math_max a b <? b) = false.
Proof.
  unfold Math_max.
  destruct (is_nan a || is_nan b); [apply nan_ltb_l; reflexivity|].
  destruct (a <? b) eqn:Eab; [apply ltb_irrefl|].
  destruct (b <? a) eqn:Eba; [exact Eab|].
  destruct (get_sign a); [apply ltb_irrefl | exact Eab].
Qed.

Lemma Math_min_upper_l (a b : float) : (a <? Math_min a b) = false.
Proof.
  unfold Math_min.
  destruct (is_nan a || is_nan b); [apply nan_ltb_r; reflexivity|].
  destruct (a <? b) eqn:Eab; [apply ltb_irrefl|].
  destruct (b <? a) eqn:Eba; [exact Eab|].
  destruct (get_sign a); [apply ltb_irrefl | exact Eab].
Qed.

Lemma Math_min_upper_r (a b : float) : (b <? Math_min a b) = false.
Proof.
  unfold Math_min.
  destruct (is_nan a || is_nan b); [apply nan_ltb_r; reflexivity|].
  destruct (a <? b) eqn:Eab; [apply ltb_asym; exact Eab|].
  destruct (b <? a) eqn:Eba; [apply ltb_irrefl|].
  destruct (get_sign a); [exact Eba | apply ltb_irrefl].
Qed.

(** What is above neither argument is not above [Math.max]; what is below
    neither is not below [Math.min]. *)
Lemma Math_max_upper (c a b : float) :
  (c <? a) = false -> (c <? b) = false -> (c <? Math_max a b) = false.
Proof.
  intros Ha Hb. unfold Math_max.
  destruct (is_nan a || is_nan b); [apply nan_ltb_r; reflexivity|].
  destruct (a <? b); [exact Hb|]. destruct (b <? a); [exact Ha|].
  destruct (get_sign a); assumption.
Qed.

Lemma Math_min_lower (c a b : float) :
  (a <? c) = false -> (b <? c) = false -> (Math_min a b <? c) = false.
Proof.
  intros Ha Hb. unfold Math_min.
  destruct (is_nan a || is_nan b); [apply nan_ltb_l; reflexivity|].
  destruct (a <? b); [exact Ha|]. destruct (b <? a); [exact Hb|].
  destruct (get_sign a); assumption.
Qed.

(** The two clamps of the extractors. *)
Lemma clamp_max_min (v : float) : Order.within01 (Math_max 0 (Math_min 1 v)).
Proof.
  split; [apply Math_max_lower_l|].
  apply Math_max_upper; [reflexivity | apply Math_min_upper_l].
Qed.

Lemma clamp_min_max (v : float) : Order.within01 (Math_min 1 (Math_max 0 v)).
Proof.
  split; [|apply Math_min_upper_l].
  apply Math_min_lower; [reflexivity | apply Math_max_lower_l].
Qed.

Lemma cap_min (v : float) : Order.atMost1 (Math_min 1 v).
Proof. apply Math_min_upper_l. Qed.

(** A Number between two Numbers of the unit interval is in it. *)
Lemma between_within01 (lo hi v : float) :
  (lo <? 0) = false -> (0 <? lo) = true -> (hi <? 1) = true ->
  (lo <? v) = true -> (v <? hi) = true -> Order.within01 v.
Proof.
  intros _ Hlo Hhi H1 H2. split.
  - destruct (v <? 0) eqn:E; [|reflexivity].
    pose proof (ltb_trans _ _ _ Hlo (ltb_trans _ _ _ H1 E)) as Habs.
    rewrite ltb_irrefl in Habs. discriminate Habs.
  - destruct (1 <? v) eqn:E; [|reflexivity].
    pose proof (ltb_trans _ _ _ E (ltb_trans _ _ _ H2 Hhi)) as Habs.
    rewrite ltb_irrefl in Habs. discriminate Habs.
Qed.

End OrderFacts.

(* ================================================================== *)
(** * The range of the reported values *)
(* ================================================================== *)

Section Ranges.
Context {M : MathLib}.
Import Js Vhum.
Open Scope float_scope.

Lemma countPauses_score (pts : list Point) : Order.within01 (pause_score (countPauses pts)).
Proof.
  unfold countPauses.
  destruct (List.length pts <? 3)%nat; [split; reflexivity|]. cbv zeta.
  destruct (filter _ _); [split; reflexivity|].
  cbn [pause_score]. apply clamp_max_min.
Qed.

Lemma analyzeSpeed_score (pts : list Point) : Order.atMost1 (speed_score (analyzeSpeed pts)).
Proof.
  unfold analyzeSpeed.
  destruct (List.length pts <? 3)%nat; [reflexivity|]. cbv zeta. cbn [speed_score].
  match goal with
  | |- Order.atMost1 (if ?c then _ else _) => destruct c
  end; [apply cap_min | apply clamp_max_min].
Qed.

Lemma analyzeAcceleration_score (this : State) (pts : list Point) :
  Order.atMost1 (accel_score (analyzeAcceleration this pts)).
Proof.
  unfold analyzeAcceleration.
  destruct (List.length pts <? 4)%nat; [reflexivity|]. cbv zeta. cbn [accel_score].
  match goal with
  | |- Order.atMost1 (if ?c then _ else _) => destruct c
  end; [apply cap_min | apply clamp_max_min].
Qed.

Lemma analyzeCurvature_score (pts : list Point) (c : Curvature) :
  analyzeCurvature pts = Some c -> Order.atMost1 (curv_score c).
Proof.
  unfold analyzeCurvature.
  destruct (List.length pts <? 4)%nat; [intros H; inversion H; reflexivity|]. cbv zeta.
  destruct (hd_error pts); [|discriminate].
  destruct (hd_error (rev pts)); [|discriminate].
  intros H. inversion H; subst; clear H. cbn [curv_score].
  match goal with
  | |- Order.atMost1 (if ?c then _ else _) => destruct c
  end; [apply cap_min | apply clamp_max_min].
Qed.

Lemma analyzeJitter_ranges (this : State) (pts : list Point) (j : Jitter) :
  analyzeJitter this pts = Some j ->
  (jitter_cv j <? 0) = false /\ Order.within01 (jerk j) /\ Order.within01 (tremor j).
Proof.
  unfold analyzeJitter.
  destruct (List.length pts <? 5)%nat;
    [intros H; inversion H; repeat split; reflexivity|].
  cbv zeta. destruct (reduce1 add _); [|discriminate].
  intros H. inversion H; subst; clear H. cbn [jitter_cv jerk tremor].
  split; [apply Math_max_lower_l|]. split; [apply clamp_min_max|].
  split; [|apply Math_min_upper_l].
  apply Math_min_lower; [reflexivity | apply Math_max_lower_l].
Qed.

Lemma analyzeEntropy_score (pts : list Point) : Order.within01 (ent_score (analyzeEntropy pts)).
Proof.
  unfold analyzeEntropy.
  destruct (List.length pts <? 4)%nat; [split; reflexivity|].
  destruct (directionsOf (pairs pts)); [split; reflexivity|].
  cbv zeta. cbn [ent_score].
  match goal with
  | |- Order.within01 (if (?lo <? ?v) && (?v <? ?hi) then _ else _) =>
      destruct (lo <? v) eqn:Hlo; [destruct (v <? hi) eqn:Hhi|]; cbn [andb]
  end; try apply clamp_max_min.
  eapply between_within01; [| | | exact Hlo | exact Hhi]; reflexivity.
Qed.

(** What the Result's [analysisDetails] are made of: the extractors'
    outputs on the Point Stream, with the detected input type. *)
Lemma finalize_details (this this' : State) (t_up : float) (rect : Rect)
      (r : Result) (calls : list (Callback * Result)) :
  finalize this t_up rect = Some (r, this', calls) ->
  exists (s0 : State) (j : Jitter) (c : Curvature) (t : Temporal),
    inputType s0 = r_inputType r
    /\ analyzeJitter s0 (points this) = Some j
    /\ analyzeCurvature (points this) = Some c
    /\ checkTemporalPrecision (points this) = Some t
    /\ d_jitter (analysisDetails r) = jitter_cv j
    /\ d_speed (analysisDetails r) = speed_score (analyzeSpeed (points this))
    /\ d_accel (analysisDetails r) = accel_score (analyzeAcceleration s0 (points this))
    /\ d_curvature (analysisDetails r) = curv_score c
    /\ d_pauses (analysisDetails r) = pause_score (countPauses (points this))
    /\ d_temporal (analysisDetails r) = perfectSync t
    /\ d_entropy (analysisDetails r) = normalizedEntropy (analyzeEntropy (points this))
    /\ d_reaction (analysisDetails r) = Math_max (t_down this - t_entry this) 100
    /\ d_dwell (analysisDetails r) = t_up - t_down this
    /\ d_fitts (analysisDetails r)
       = Math_max 0 (Math_log2 (2 * FittsSpec.distance (entry_pos this) rect
                                / (FittsSpec.size rect + 1) + 1)).
Proof.
  intros H. open_finalize H ty l.
  unfold locals in Hlocals. cbv zeta in Hlocals.
  match type of Hlocals with
  | context [analyzeJitter ?s ?p] =>
      exists s; destruct (analyzeJitter s p) as [j|] eqn:Hj; [|discriminate]
  end.
  match type of Hlocals with
  | context [analyzeCurvature ?p] =>
      destruct (analyzeCurvature p) as [c|] eqn:Hc; [|discriminate]
  end.
  match type of Hlocals with
  | context [checkTemporalPrecision ?p] =>
      destruct (checkTemporalPrecision p) as [t|] eqn:Ht; [|discriminate]
  end.
  inversion Hlocals; subst l; clear Hlocals.
  exists j, c, t. cbn in Hj, Hc, Ht |- *.
  repeat split; first [assumption | reflexivity].
Qed.

End Ranges.

Section Reported.
Context {M : MathLib}.
Import Js Vhum.
Open Scope float_scope.

(** X1. Whatever the engine holds, [finalize] returns a Result whose
    reaction time is not below 100 (ms), whose index of difficulty is not
    below 0 and whose jitter coefficient is not below 0: each of them is the
    outcome of a [Math.max] with that floor (a Number at or above the floor,
    or NaN). *)
Theorem reported_floors (this : State) (t_up : float) (rect : Rect) :
  exists r this' calls,
    finalize this t_up rect = Some (r, this', calls)
    /\ (d_reaction (analysisDetails r) <? 100) = false
    /\ (d_fitts (analysisDetails r) <? 0) = false
    /\ (d_jitter (analysisDetails r) <? 0) = false.
Proof.
  destruct (finalize_total this t_up rect) as (r & s & calls & H).
  exists r, s, calls. split; [exact H|].
  destruct (finalize_details _ _ _ _ _ _ H)
    as (s0 & j & c & t & _ & Hj & _ & _ & Ejit & _ & _ & _ & _ & _ & _ & Ereact & _ & Efitts).
  rewrite Ereact, Efitts, Ejit.
  split; [apply Math_max_lower_r|]. split; [apply Math_max_lower_l|].
  exact (proj1 (analyzeJitter_ranges _ _ _ Hj)).
Qed.

(** X2. Whatever the engine holds, the speed, acceleration and curvature
    scores of the Result are not above 1, and its pause score is neither
    below 0 nor above 1. *)
Theorem reported_scores_capped (this : State) (t_up : float) (rect : Rect) :
  exists r this' calls,
    finalize this t_up rect = Some (r, this', calls)
    /\ Order.atMost1 (d_speed (analysisDetails r))
    /\ Order.atMost1 (d_accel (analysisDetails r))
    /\ Order.atMost1 (d_curvature (analysisDetails r))
    /\ Order.within01 (d_pauses (analysisDetails r)).
Proof.
  destruct (finalize_total this t_up rect) as (r & s & calls & H).
  exists r, s, calls. split; [exact H|].
  destruct (finalize_details _ _ _ _ _ _ H)
    as (s0 & j & c & t & _ & _ & Hc & _ & _ & Espeed & Eaccel & Ecurv & Epause & _).
  rewrite Espeed, Eaccel, Ecurv, Epause.
  split; [apply analyzeSpeed_score|]. split; [apply analyzeAcceleration_score|].
  split; [exact (analyzeCurvature_score _ _ Hc) | apply countPauses_score].
Qed.

(** X3. For every stream and every input type [analyzeJitter] returns,
    and the values that the extractors clamp are never below 0 and never
    above 1: for the jerk and the tremor of [analyzeJitter], the score of
    [analyzeEntropy] and the score of [countPauses] both comparisons are
    false.  Each of them is a Number from 0 to 1 or NaN, which the clamps
    let through. *)
Theorem extractor_scores_never_outside (this : State) (pts : list Point) :
  exists j,
    analyzeJitter this pts = Some j
    /\ Order.within01 (jerk j)
    /\ Order.within01 (tremor j)
    /\ Order.within01 (ent_score (analyzeEntropy pts))
    /\ Order.within01 (pause_score (countPauses pts)).
Proof.
  destruct (analyzeJitter_total this pts) as (j & Hj).
  exists j. split; [exact Hj|].
  destruct (analyzeJitter_ranges _ _ _ Hj) as (_ & Hjerk & Htremor).
  repeat split; try apply Hjerk; try apply Htremor;
    try apply analyzeEntropy_score; apply countPauses_score.
Qed.

End Reported.

(* ================================================================== *)
(** * Edge cases of the scorer and of the decision *)
(* ================================================================== *)

Section ScorerEdges.
Context {M : MathLib}.
Import Js AdaptivePerceptron.
Open Scope float_scope.

Lemma orElse_idem (v : float) : orElse (orElse v 0) 0 = orElse v 0.
Proof.
  unfold orElse. destruct (truthy v) eqn:E; [rewrite E; reflexivity | reflexivity].
Qed.

Lemma accumulate_sanitize (w inputs : NumObject) :
  forall z0, accumulate w (Scenes.sanitize inputs) z0 = accumulate w inputs z0.
Proof.
  unfold accumulate, Scenes.sanitize.
  induction inputs as [|[k v] inputs IH]; intros z0; [reflexivity|].
  cbn [map fold_left fst snd]. rewrite orElse_idem. apply IH.
Qed.

(** X4. A feature whose value is falsy (NaN, 0 or -0) weighs as 0 in
    [predict]: replacing every such value by 0 changes neither the
    probability nor what [predict] writes into the perceptron. *)
Theorem predict_ignores_falsy (p : Perceptron) (inputs : NumObject) :
  predict p (Scenes.sanitize inputs) = predict p inputs.
Proof.
  unfold predict. cbv zeta. rewrite accumulate_sanitize. reflexivity.
Qed.

(** There is one NaN. *)
Lemma is_nan_eq (z : float) : is_nan z = true -> z = nan.
Proof.
  intros N. apply is_nan_key in N.
  rewrite <- (SF2Prim_Prim2SF z).
  destruct (Prim2SF z) as [sg|sg| |sg m e]; try discriminate N;
    try (destruct sg; discriminate N).
  reflexivity.
Qed.

(** The clamp of [sigmoid] by comparisons. *)
Lemma clamp_saturated (z : float) : Math_max (-100) (Math_min 100 z) = Scenes.saturated z.
Proof.
  unfold Scenes.saturated.
  destruct (is_nan z) eqn:N.
  - rewrite (nan_ltb_r 100 z N), (nan_ltb_l z (-100) N).
    unfold Math_min. rewrite N. cbn. symmetry. exact (is_nan_eq z N).
  - destruct (100 <? z) eqn:Hhi.
    + unfold Math_min. rewrite N, Hhi. reflexivity.
    + assert (Hmin : Math_min 100 z = z).
      { unfold Math_min. rewrite N, Hhi. cbn. destruct (z <? 100); reflexivity. }
      rewrite Hmin. unfold Math_max. rewrite N. cbn.
      destruct (z <? -100) eqn:Hlo.
      * rewrite (ltb_asym _ _ Hlo). reflexivity.
      * destruct (-100 <? z); reflexivity.
Qed.

(** X5. [sigmoid] is the logistic function of its argument saturated at
    100: [sigmoid(z)] is [1 / (1 + exp(-c))] where [c] is 100 when
    [z > 100], -100 when [z < -100], and [z] itself in every other case
    (between the two bounds, the bounds, and NaN). *)
Theorem sigmoid_saturates (z : float) :
  sigmoid z = ScorerSpec.logistic (Scenes.saturated z).
Proof.
  unfold sigmoid, ScorerSpec.logistic. rewrite clamp_saturated. reflexivity.
Qed.

End ScorerEdges.

Section DecisionEdges.
Context {M : MathLib}.
Import Js Vhum.
Open Scope float_scope.


End DecisionEdges.


(* ================================================================== *)
(** * The listeners of [init] *)
(* ================================================================== *)

Section Machine.
Context {M : MathLib}.
Import Js Vhum Scenes.

Lemma handleEnd_total (this : State) (t_up : float) (rect : Rect) :
  exists s calls, handleEnd this t_up rect = Some (s, calls).
Proof.
  unfold handleEnd. destruct (isTracking this); cbn [negb]; [|eauto].
  destruct (finalize_total (with_isTracking this false) t_up rect) as (r & s & calls & H).
  rewrite H. eauto.
Qed.

Lemma dispatch_total (this : State) (ev : DomEvent) (clock : nat -> float) (rect : Rect) :
  exists s calls, dispatch this ev clock rect = Some (s, calls).
Proof.
  destruct ev as [e|e|ty e|e|e|e|ty e| | | |]; cbn [dispatch];
    try destruct ty;
    repeat match goal with
           | |- context [if ?c then _ else _] => destruct c
           end;
    eauto using handleEnd_total.
Qed.

Lemma run_total (evs : list (DomEvent * (nat -> float))) (rect : Rect) :
  forall this, exists s calls, run this evs rect = Some (s, calls).
Proof.
  induction evs as [|[ev clock] evs IH]; intros this; cbn [run]; [eauto|].
  destruct (dispatch_total this ev clock rect) as (s & calls & H). rewrite H. cbn [fst snd].
  destruct (IH s) as (s' & calls' & H'). rewrite H'. eauto.
Qed.

(** [run] over two sequences of events, one after the other. *)
Lemma run_app (evs evs' : list (DomEvent * (nat -> float))) (rect : Rect) :
  forall this s calls s' calls',
    run this evs rect = Some (s, calls) ->
    run s evs' rect = Some (s', calls') ->
    run this (evs ++ evs') rect = Some (s', (calls ++ calls')%list).
Proof.
  induction evs as [|[ev clock] evs IH]; intros this s calls s' calls' H H'.
  - cbn in H. inversion H; subst. exact H'.
  - cbn [run app] in H |- *.
    destruct (dispatch this ev clock rect) as [[s1 c1]|]; [|discriminate H].
    cbn [fst snd] in H |- *.
    destruct (run s1 evs rect) as [[s2 c2]|] eqn:H2; [|discriminate H].
    cbn [fst snd] in H. inversion H; subst.
    rewrite (IH _ _ _ _ _ H2 H'). cbn [fst snd]. rewrite app_assoc. reflexivity.
Qed.

Lemma static_handleEnd (this s : State) (t_up : float) (rect : Rect)
      (calls : list (Callback * Result)) :
  handleEnd this t_up rect = Some (s, calls) -> static s = static this.
Proof.
  intros H. unfold static. rewrite (handleEnd_keeps_tables _ _ _ _ _ H).
  unfold handleEnd in H. destruct (isTracking this); cbn [negb] in H.
  - destruct (finalize (with_isTracking this false) t_up rect) as [[[r s'] c]|] eqn:F;
      [|discriminate H].
    inversion H; subst.
    destruct (finalize_frame _ _ _ _ _ _ F) as (_ & _ & _ & _ & _ & _ & Ho & Hl & _).
    rewrite Ho, Hl. reflexivity.
  - inversion H; subst. reflexivity.
Qed.

Lemma static_dispatch (this s : State) (ev : DomEvent) (clock : nat -> float) (rect : Rect)
      (calls : list (Callback * Result)) :
  dispatch this ev clock rect = Some (s, calls) -> static s = static this.
Proof.
  intros H.
  destruct ev as [e|e|ty e|e|e|e|ty e| | | |]; cbn [dispatch] in H;
    try destruct ty;
    repeat match type of H with
           | context [if ?c then _ else _] => destruct c
           end;
    try (apply static_handleEnd in H; exact H);
    inversion H; subst; clear H;
    unfold static, Runs.tables, handleMove, handleStart, handleEntry, sourceIfNone;
    repeat match goal with
           | |- context [if ?c then _ else _] => destruct c
           | |- context [match lastInputSource ?x with _ => _ end] => destruct (lastInputSource x)
           end;
    reflexivity.
Qed.

Lemma static_run (evs : list (DomEvent * (nat -> float))) (rect : Rect) :
  forall this s calls, run this evs rect = Some (s, calls) -> static s = static this.
Proof.
  induction evs as [|[ev clock] evs IH]; intros this s calls H; cbn [run] in H.
  - inversion H; subst. reflexivity.
  - destruct (dispatch this ev clock rect) as [[s1 c1]|] eqn:D; [|discriminate H].
    cbn [fst snd] in H.
    destruct (run s1 evs rect) as [[s2 c2]|] eqn:R; [|discriminate H].
    cbn [fst snd] in H. inversion H; subst.
    rewrite (IH _ _ _ R). exact (static_dispatch _ _ _ _ _ _ D).
Qed.

End Machine.

Section Listeners.
Context {M : MathLib}.
Import Js Vhum Scenes.

(** X7. The listeners of [init] never throw: from any engine, any
    sequence of events is handled to its end, and it leaves the thresholds,
    the subscriptions and the weights and biases of both perceptrons as they
    were. *)
Theorem events_never_throw (this : State) (evs : list (DomEvent * (nat -> float)))
        (rect : Rect) :
  exists s calls,
    run this evs rect = Some (s, calls)
    /\ options s = options this
    /\ listeners s = listeners this
    /\ Runs.tables s = Runs.tables this.
Proof.
  destruct (run_total evs rect this) as (s & calls & H).
  exists s, calls. split; [exact H|].
  pose proof (static_run _ _ _ _ _ H) as E. unfold static in E.
  repeat split; congruence.
Qed.

Lemma finalize_emits (this s : State) (t_up : float) (rect : Rect) (r : Result)
      (calls : list (Callback * Result)) :
  finalize this t_up rect = Some (r, s, calls) ->
  calls = map (fun cb => (cb, r)) (subscribersOf this "result").
Proof.
  intros H. open_finalize H ty l. unfold emit, subscribersOf.
  cbn [listeners with_selected with_t_entry with_inputType].
  destruct (subscribers (listeners this) "result"); reflexivity.
Qed.

Lemma finalize_threshold (this s : State) (t_up : float) (rect : Rect) (r : Result)
      (calls : list (Callback * Result)) :
  finalize this t_up rect = Some (r, s, calls) ->
  thresholdUsed r
  = if isTouch (r_inputType r) then thresholdTouch (options this)
    else thresholdMouse (options this).
Proof. intros H. open_finalize H ty l. reflexivity. Qed.

Lemma finalize_source (this s : State) (t_up : float) (rect : Rect) (r : Result)
      (calls : list (Callback * Result)) (src : Source) :
  finalize this t_up rect = Some (r, s, calls) ->
  lastInputSource this = Some src ->
  r_inputType r = match src with SrcMouse => MOUSE | SrcTouch => TOUCH end.
Proof.
  intros H Hsrc.
  destruct (finalize_frame _ _ _ _ _ _ H) as (_ & _ & _ & _ & _ & _ & _ & _ & Hd).
  destruct (finalize_locals _ _ _ _ _ _ H) as (l & _ & Hty & _).
  rewrite <- Hty. rewrite Hsrc in Hd. destruct src; cbn in Hd; congruence.
Qed.

(** What [handleEnd] does to a TRACKING engine. *)
Lemma handleEnd_spec (this : State) (t_up : float) (rect : Rect) :
  isTracking this = true ->
  exists r s,
    handleEnd this t_up rect = Some (s, map (fun cb => (cb, r)) (subscribersOf this "result"))
    /\ finalize (with_isTracking this false) t_up rect
       = Some (r, s, map (fun cb => (cb, r)) (subscribersOf this "result"))
    /\ isTracking s = false
    /\ points s = points this
    /\ lastInputSource s = lastInputSource this
    /\ t_entry s = 0%float
    /\ entry_pos s = entry_pos this
    /\ static s = static this.
Proof.
  intros T.
  destruct (handleEnd_tracking this t_up rect T) as (r & s & calls & F & E).
  pose proof (finalize_emits _ _ _ _ _ _ F) as C. cbn in C. subst calls.
  destruct (finalize_frame _ _ _ _ _ _ F) as (Hp & Ht & _ & He & Hpos & Hs & _).
  exists r, s. repeat split; try assumption.
  exact (static_handleEnd _ _ _ _ _ E).
Qed.

Lemma dispatch_release (this : State) (rel : Release) (clock : nat -> float) (rect : Rect) :
  dispatch this (releaseEvent rel) clock rect
  = if releases this rel then handleEnd this (clock 0%nat) rect else Some (this, []).
Proof.
  destruct rel; cbn [releaseEvent dispatch]; unfold releases;
    destruct (isTracking this); reflexivity.
Qed.

Lemma dispatch_move (this : State) (m : Move) (clock : nat -> float) (rect : Rect) :
  dispatch this (moveEvent m) clock rect
  = Some (if accepts this m then addPoint this (moveCoords m) (clock 0%nat) else this, []).
Proof.
  unfold accepts, handleMove.
  destruct m as [e|e|ty e]; cbn [moveEvent dispatch moveSource moveCoords];
    try destruct ty; unfold handleMove;
    destruct (isTracking this); cbn [andb negb];
    try destruct (sourceIs this _); reflexivity.
Qed.

Lemma accepts_ext (a b : State) (m : Move) :
  isTracking a = isTracking b -> lastInputSource a = lastInputSource b ->
  accepts a m = accepts b m.
Proof.
  intros T S. unfold accepts, sourceIs. rewrite T, S. reflexivity.
Qed.

(** What a sequence of move events does. *)
Lemma run_moves (mvs : list (Move * float)) (rect : Rect) :
  forall this,
  exists s,
    run this (moveEvents mvs) rect = Some (s, [])
    /\ points s
       = (points this
          ++ map (fun mv => sample (moveCoords (fst mv)) (snd mv))
                 (filter (fun mv => accepts this (fst mv)) mvs))%list
    /\ isTracking s = isTracking this
    /\ lastInputSource s = lastInputSource this
    /\ t_down s = t_down this
    /\ t_entry s = t_entry this
    /\ entry_pos s = entry_pos this
    /\ inputType s = inputType this
    /\ static s = static this.
Proof.
  induction mvs as [|[m t] mvs IH]; intros this.
  - exists this. cbn. rewrite app_nil_r. repeat split; reflexivity.
  - cbn [moveEvents map run fst snd]. rewrite dispatch_move. cbn [fst snd].
    set (s1 := if accepts this m then addPoint this (moveCoords m) t else this).
    assert (F : isTracking s1 = isTracking this /\ lastInputSource s1 = lastInputSource this
                /\ t_down s1 = t_down this /\ t_entry s1 = t_entry this
                /\ entry_pos s1 = entry_pos this /\ inputType s1 = inputType this
                /\ static s1 = static this
                /\ points s1 = (points this
                                ++ if accepts this m then [sample (moveCoords m) t] else [])%list).
    { subst s1. destruct (accepts this m); cbn; rewrite ?app_nil_r; repeat split; reflexivity. }
    destruct F as (F1 & F2 & F3 & F4 & F5 & F6 & F7 & F8).
    destruct (IH s1) as (s & R & P & G1 & G2 & G3 & G4 & G5 & G6 & G7).
    exists s. fold (moveEvents mvs). rewrite R. cbn [fst snd app].
    split; [reflexivity|].
    split.
    + rewrite P, F8.
      rewrite (filter_ext _ _ (fun mv => accepts_ext s1 this (fst mv) F1 F2)).
      cbn [filter fst]. destruct (accepts this m); cbn [map app fst snd];
        rewrite <- ?app_assoc; cbn [app]; rewrite ?app_nil_r; reflexivity.
    + repeat split; congruence.
Qed.

End Listeners.

Section Gestures.
Context {M : MathLib}.
Import Js Vhum Scenes.

Lemma handleEnd_known (this s : State) (t_up : float) (rect : Rect)
      (calls : list (Callback * Result)) :
  sourceKnown this ->
  handleEnd this t_up rect = Some (s, calls) ->
  sourceKnown s /\ Forall (fun call => r_inputType (snd call) <> UNKNOWN) calls.
Proof.
  intros K H. destruct (isTracking this) eqn:T.
  - destruct (handleEnd_spec this t_up rect T) as (r & s' & E & F & T' & _ & _).
    rewrite E in H. inversion H; subst; clear H.
    split; [intros T''; congruence|].
    pose proof (K T) as Hne.
    destruct (lastInputSource this) as [src|] eqn:S; [|congruence].
    assert (Hty : r_inputType r = match src with SrcMouse => MOUSE | SrcTouch => TOUCH end)
      by (apply (finalize_source _ _ _ _ _ _ src F); exact S).
    apply Forall_forall. intros call Hin.
    apply in_map_iff in Hin. destruct Hin as (cb & <- & _). cbn [snd].
    rewrite Hty. destruct src; discriminate.
  - unfold handleEnd in H. rewrite T in H. cbn in H. inversion H; subst.
    split; [exact K | constructor].
Qed.

Lemma dispatch_known (this s : State) (ev : DomEvent) (clock : nat -> float) (rect : Rect)
      (calls : list (Callback * Result)) :
  sourceKnown this ->
  dispatch this ev clock rect = Some (s, calls) ->
  sourceKnown s /\ Forall (fun call => r_inputType (snd call) <> UNKNOWN) calls.
Proof.
  intros K H.
  destruct ev as [e|e|ty e|e|e|e|ty e| | | |]; cbn [dispatch] in H;
    try destruct ty;
    repeat match type of H with
           | context [if ?c then _ else _] => destruct c
           end;
    try (eapply handleEnd_known; [exact K | exact H]);
    inversion H; subst; clear H;
    (split; [|constructor]);
    try exact K;
    unfold sourceKnown, handleMove, handleStart, handleEntry, sourceIfNone in *;
    repeat match goal with
           | |- context [if ?c then _ else _] => destruct c eqn:?
           | |- context [match lastInputSource ?x with _ => _ end] =>
               destruct (lastInputSource x) eqn:?
           end;
    cbn; intros; try discriminate; try congruence; auto.
Qed.

Lemma run_known (evs : list (DomEvent * (nat -> float))) (rect : Rect) :
  forall this s calls,
    sourceKnown this ->
    run this evs rect = Some (s, calls) ->
    sourceKnown s /\ Forall (fun call => r_inputType (snd call) <> UNKNOWN) calls.
Proof.
  induction evs as [|[ev clock] evs IH]; intros this s calls K H; cbn [run] in H.
  - inversion H; subst. split; [exact K | constructor].
  - destruct (dispatch this ev clock rect) as [[s1 c1]|] eqn:D; [|discriminate H].
    cbn [fst snd] in H.
    destruct (run s1 evs rect) as [[s2 c2]|] eqn:R; [|discriminate H].
    cbn [fst snd] in H. inversion H; subst.
    destruct (dispatch_known _ _ _ _ _ _ K D) as (K1 & F1).
    destruct (IH _ _ _ K1 R) as (K2 & F2).
    split; [exact K2 | apply Forall_app; split; assumption].
Qed.

(** X8. Through the listeners the input source is always known when a
    gesture ends: if the engine is idle or has a source (as a fresh engine
    is, and as every event leaves it), then no Result delivered to a
    subscriber carries the input type 'unknown', whatever events follow; the
    classifier on the stream is never consulted. *)
Theorem listeners_never_report_unknown (this : State)
        (evs : list (DomEvent * (nat -> float))) (rect : Rect) :
  sourceKnown this ->
  exists s calls,
    run this evs rect = Some (s, calls)
    /\ sourceKnown s
    /\ Forall (fun call => r_inputType (snd call) <> UNKNOWN) calls.
Proof.
  intros K. destruct (run_total evs rect this) as (s & calls & H).
  exists s, calls. split; [exact H|]. exact (run_known _ _ _ _ _ K H).
Qed.

(** X9. One gesture gives one Result: a release event whose listener
    calls [handleEnd] delivers one Result to each subscriber of 'result', in
    the order of subscription, and leaves the engine idle, so that every
    release event that follows (a [mouseup] after the [pointerup] of the
    same click) does nothing. *)
Theorem one_result_per_gesture (this : State) (rel : Release) (clock : nat -> float)
        (rect : Rect) :
  releases this rel = true ->
  exists r s,
    dispatch this (releaseEvent rel) clock rect
    = Some (s, map (fun cb => (cb, r)) (subscribersOf this "result"))
    /\ isTracking s = false
    /\ points s = points this
    /\ forall (rel' : Release) (clock' : nat -> float),
         dispatch s (releaseEvent rel') clock' rect = Some (s, []).
Proof.
  intros R. rewrite dispatch_release, R.
  assert (T : isTracking this = true)
    by (unfold releases in R; apply andb_prop in R; exact (proj1 R)).
  destruct (handleEnd_spec this (clock 0%nat) rect T) as (r & s & E & _ & T' & P & _).
  exists r, s. repeat split; try assumption.
  intros rel' clock'. rewrite dispatch_release. unfold releases. rewrite T'. reflexivity.
Qed.

(** X10. Move events only add samples: a sequence of move events calls no
    subscriber and changes nothing of the engine but the Point Stream, to
    which it appends, in order, one sample for each move that arrives while
    the engine is TRACKING from the source of the gesture; the moves of the
    other source, of a pen, and all moves of an idle engine leave no
    sample. *)
Theorem moves_only_add_samples (this : State) (mvs : list (Move * float)) (rect : Rect) :
  exists s,
    run this (moveEvents mvs) rect = Some (s, [])
    /\ points s
       = (points this
          ++ map (fun mv => sample (moveCoords (fst mv)) (snd mv))
                 (filter (fun mv => accepts this (fst mv)) mvs))%list
    /\ isTracking s = isTracking this
    /\ lastInputSource s = lastInputSource this
    /\ t_down s = t_down this
    /\ t_entry s = t_entry this
    /\ entry_pos s = entry_pos this.
Proof.
  destruct (run_moves mvs rect this) as (s & R & P & H1 & H2 & H3 & H4 & H5 & _).
  exists s. repeat split; assumption.
Qed.

End Gestures.

(** X8 at a closed input: a fresh engine, a press, two moves and a release
    of the mouse. *)
Lemma listeners_never_report_unknown_witness :
  exists s calls,
    Vhum.run (M := RefMath.host) Samples.fresh
      (Scenes.mouseGesture (Samples.at_ 12 11) (fun _ => 1050%float)
         Samples.twoMoves (fun _ => 1200%float)) Samples.box = Some (s, calls)
    /\ Scenes.sourceKnown s
    /\ Forall (fun call => Vhum.r_inputType (snd call) <> UNKNOWN) calls.
Proof.
  apply (@listeners_never_report_unknown RefMath.host).
  unfold Scenes.sourceKnown. simpl. discriminate.
Defined.

(** X9 at a closed input: the release of the mouse on [Samples.tracking]. *)
Lemma one_result_per_gesture_witness :
  exists r s,
    Vhum.dispatch (M := RefMath.host) Samples.tracking
      (Scenes.releaseEvent Scenes.ByMouseup) (fun _ => 1200%float) Samples.box
    = Some (s, map (fun cb => (cb, r)) (Scenes.subscribersOf Samples.tracking "result"))
    /\ Vhum.isTracking s = false
    /\ Vhum.points s = Vhum.points Samples.tracking
    /\ forall (rel' : Scenes.Release) (clock' : nat -> float),
         Vhum.dispatch (M := RefMath.host) s (Scenes.releaseEvent rel') clock' Samples.box
         = Some (s, []).
Proof.
  apply (@one_result_per_gesture RefMath.host). reflexivity.
Defined.

Section WholeGestures.
Context {M : MathLib}.
Import Js Vhum Scenes.
Open Scope float_scope.

Lemma sourceIs_same (this : State) (src : Source) :
  lastInputSource this = Some src -> sourceIs this src = true.
Proof. intros H. unfold sourceIs. rewrite H. destruct src; reflexivity. Qed.

Lemma filter_all {A : Type} (f : A -> bool) (l : list A) :
  Forall (fun a => f a = true) l -> filter f l = l.
Proof.
  induction 1 as [|a l Ha _ IH]; [reflexivity|]. cbn. rewrite Ha, IH. reflexivity.
Qed.

(** A TRACKING engine, moves of the gesture's source, and a release. *)
Lemma tracked_gesture (s1 : State) (src : Source) (mvs : list (Move * float)) (rel : Release)
      (rc : nat -> float) (rect : Rect) :
  isTracking s1 = true ->
  lastInputSource s1 = Some src ->
  Forall (fun mv => moveSource (fst mv) = Some src) mvs ->
  releases s1 rel = true ->
  exists r s,
    run s1 (moveEvents mvs ++ [(releaseEvent rel, rc)]) rect
    = Some (s, map (fun cb => (cb, r)) (subscribersOf s1 "result"))
    /\ points s = (points s1 ++ map (fun mv => sample (moveCoords (fst mv)) (snd mv)) mvs)%list
    /\ isTracking s = false
    /\ lastInputSource s = Some src
    /\ r_inputType r = match src with SrcMouse => MOUSE | SrcTouch => TOUCH end
    /\ thresholdUsed r
       = match src with
         | SrcMouse => thresholdMouse (options s1)
         | SrcTouch => thresholdTouch (options s1)
         end
    /\ d_dwell (analysisDetails r) = rc 0%nat - t_down s1
    /\ d_reaction (analysisDetails r) = Math_max (t_down s1 - t_entry s1) 100
    /\ t_entry s = 0
    /\ entry_pos s = entry_pos s1
    /\ static s = static s1.
Proof.
  intros T S Hmvs Hrel.
  destruct (run_moves mvs rect s1) as (s2 & R & P & T2 & S2 & D2 & E2 & Ep2 & _ & St).
  rewrite filter_all in P.
  2:{ eapply Forall_impl; [|exact Hmvs]. intros mv Hmv. cbn beta in Hmv |- *.
      unfold accepts. rewrite T, Hmv, (sourceIs_same _ _ S). reflexivity. }
  assert (Hrel2 : releases s2 rel = true).
  { unfold releases, sourceIs in Hrel |- *. rewrite T2, S2. exact Hrel. }
  assert (T2' : isTracking s2 = true) by congruence.
  destruct (handleEnd_spec s2 (rc 0%nat) rect T2')
    as (r & s & E & F & T' & Ps & Ss & Es & Eps & Sts).
  assert (Hst : static s = static s1) by congruence.
  unfold static in St.
  assert (Ho : options s2 = options s1) by congruence.
  assert (Hl : listeners s2 = listeners s1) by congruence.
  assert (Hsub : subscribersOf s2 "result" = subscribersOf s1 "result")
    by (unfold subscribersOf; rewrite Hl; reflexivity).
  rewrite Hsub in E, F.
  assert (Hty : r_inputType r = match src with SrcMouse => MOUSE | SrcTouch => TOUCH end).
  { apply (finalize_source _ _ _ _ _ _ src F). cbn. congruence. }
  exists r, s. split.
  - replace (map (fun cb => (cb, r)) (subscribersOf s1 "result"))
      with ([] ++ map (fun cb => (cb, r)) (subscribersOf s1 "result"))%list by reflexivity.
    apply (run_app _ _ _ _ _ _ _ _ R).
    cbn [run]. rewrite dispatch_release, Hrel2, E. cbn [fst snd]. rewrite app_nil_r. reflexivity.
  - split; [congruence|]. split; [exact T'|]. split; [congruence|]. split; [exact Hty|].
    split.
    + rewrite (finalize_threshold _ _ _ _ _ _ F), Hty. cbn [options with_isTracking].
      rewrite Ho. destruct src; reflexivity.
    + destruct (finalize_details _ _ _ _ _ _ F)
        as (s0 & j & c & t & _ & _ & _ & _ & _ & _ & _ & _ & _ & _ & _ & Er & Ed & _).
      cbn [t_down t_entry with_isTracking] in Er, Ed.
      rewrite Er, Ed, D2, E2. repeat split; congruence.
Qed.

(** A press by [mousedown], mouse moves and a release by [mouseup]. *)
Lemma mouse_gesture_run (this : State) (press : Coords) (pc : nat -> float)
      (mvs : list (Coords * float)) (rc : nat -> float) (rect : Rect) :
  lastInputSource this <> Some SrcTouch ->
  exists r s,
    run this (mouseGesture press pc mvs rc) rect
    = Some (s, map (fun cb => (cb, r)) (subscribersOf this "result"))
    /\ points s
       = sample press (pc 1%nat) :: map (fun mv => sample (fst mv) (snd mv)) mvs
    /\ isTracking s = false
    /\ r_inputType r = MOUSE
    /\ thresholdUsed r = thresholdMouse (options this)
    /\ d_dwell (analysisDetails r) = rc 0%nat - pc 0%nat
    /\ d_reaction (analysisDetails r) = Math_max (pc 0%nat - t_entry this) 100
    /\ lastInputSource s = Some SrcMouse
    /\ t_entry s = 0
    /\ entry_pos s = entry_pos this
    /\ static s = static this.
Proof.
  intros Hsrc.
  set (s1 := handleStart (sourceIfNone this SrcMouse) press (pc 0%nat) (pc 1%nat)).
  assert (F : isTracking s1 = true /\ lastInputSource s1 = Some SrcMouse
              /\ points s1 = [sample press (pc 1%nat)] /\ t_down s1 = pc 0%nat
              /\ t_entry s1 = t_entry this /\ entry_pos s1 = entry_pos this
              /\ static s1 = static this).
  { subst s1. unfold handleStart, sourceIfNone.
    destruct (lastInputSource this) as [[|]|] eqn:S; cbn; rewrite ?S;
      repeat split; try reflexivity; congruence. }
  destruct F as (T & S & P & D & E & Ep & St).
  destruct (tracked_gesture s1 SrcMouse (map (fun mv => (ByMousemove (fst mv), snd mv)) mvs)
              ByMouseup rc rect T S)
    as (r & s & R & Ps & Ts & Ss & Hty & Hth & Hd & Hr & Es & Eps & Sts).
  { apply Forall_forall. intros mv Hin. apply in_map_iff in Hin.
    destruct Hin as (mv' & <- & _). reflexivity. }
  { unfold releases. rewrite T, (sourceIs_same _ _ S). reflexivity. }
  assert (O : options s1 = options this) by (unfold static in St; congruence).
  assert (L : listeners s1 = listeners this) by (unfold static in St; congruence).
  exists r, s. split.
  - unfold mouseGesture. cbn [run dispatch]. fold s1. cbn [fst snd app].
    unfold moveEvents in R. rewrite map_map in R. cbn [fst snd moveEvent releaseEvent] in R.
    rewrite R. cbn [fst snd].
    unfold subscribersOf. rewrite L. reflexivity.
  - rewrite Ps, P, map_map, Hth, Hd, Hr, D, E, O. cbn [app fst snd moveCoords].
    repeat split; congruence.
Qed.

(** X11. A whole mouse gesture on an engine whose source is not touch (a
    press by [mousedown], mouse moves, a release by [mouseup]): every
    subscriber of 'result' is called once with one Result; the stream is the
    sample of the press followed by one sample for each move; the Result is
    scored as mouse input against the mouse threshold; its dwell is the time
    from the press to the release and its reaction the time from the entry
    to the press, floored to 100. *)
Theorem mouse_gesture (this : State) (press : Coords) (pc : nat -> float)
        (mvs : list (Coords * float)) (rc : nat -> float) (rect : Rect) :
  lastInputSource this <> Some SrcTouch ->
  exists r s,
    run this (mouseGesture press pc mvs rc) rect
    = Some (s, map (fun cb => (cb, r)) (subscribersOf this "result"))
    /\ points s
       = sample press (pc 1%nat) :: map (fun mv => sample (fst mv) (snd mv)) mvs
    /\ isTracking s = false
    /\ r_inputType r = MOUSE
    /\ thresholdUsed r = thresholdMouse (options this)
    /\ d_dwell (analysisDetails r) = rc 0%nat - pc 0%nat
    /\ d_reaction (analysisDetails r) = Math_max (pc 0%nat - t_entry this) 100.
Proof.
  intros Hsrc.
  destruct (mouse_gesture_run this press pc mvs rc rect Hsrc)
    as (r & s & R & P & T & Hty & Hth & Hd & Hr & _).
  exists r, s. repeat split; assumption.
Qed.

(** X13. The entry is forgotten after a gesture: [finalize] sets the
    entry time to 0 and only [mouseenter] and [touchstart] set it again.  Of
    two mouse gestures in a row with no [mouseenter] between them, the
    second Result's reaction time is therefore the time of the second press
    counted from the origin of the clock (floored to 100), not from any
    entry. *)
Theorem second_gesture_has_no_entry (this : State) (press press' : Coords)
        (pc rc pc' rc' : nat -> float) (mvs mvs' : list (Coords * float)) (rect : Rect) :
  lastInputSource this <> Some SrcTouch ->
  exists r r' s,
    run this (mouseGesture press pc mvs rc ++ mouseGesture press' pc' mvs' rc') rect
    = Some (s, (map (fun cb => (cb, r)) (subscribersOf this "result")
                ++ map (fun cb => (cb, r')) (subscribersOf this "result"))%list)
    /\ d_reaction (analysisDetails r) = Math_max (pc 0%nat - t_entry this) 100
    /\ d_reaction (analysisDetails r') = Math_max (pc' 0%nat - 0) 100
    /\ entry_pos s = entry_pos this.
Proof.
  intros Hsrc.
  destruct (mouse_gesture_run this press pc mvs rc rect Hsrc)
    as (r & s & R & _ & _ & _ & _ & _ & Hr & Ss & Es & Eps & Sts).
  assert (Hsrc' : lastInputSource s <> Some SrcTouch) by congruence.
  destruct (mouse_gesture_run s press' pc' mvs' rc' rect Hsrc')
    as (r' & s' & R' & _ & _ & _ & _ & _ & Hr' & _ & _ & Eps' & _).
  assert (L : listeners s = listeners this) by (unfold static in Sts; congruence).
  exists r, r', s'. split.
  - apply (run_app _ _ _ _ _ _ _ _ R).
    rewrite R'. unfold subscribersOf. rewrite L. reflexivity.
  - rewrite Hr, Hr', Es. repeat split; congruence.
Qed.

(** X12. A whole touch gesture ([touchstart], touch moves, [touchend]),
    on any engine: every subscriber of 'result' is called once with one
    Result, scored as touch input against the touch threshold.  The entry
    and the press are both taken in the listener of [touchstart], so the
    reaction time is the time between two consecutive readings of the clock,
    floored to 100. *)
Theorem touch_gesture (this : State) (touch : Coords) (sc : nat -> float)
        (mvs : list (Coords * float)) (ec : nat -> float) (rect : Rect) :
  exists r s,
    run this (touchGesture touch sc mvs ec) rect
    = Some (s, map (fun cb => (cb, r)) (subscribersOf this "result"))
    /\ points s
       = sample touch (sc 2%nat) :: map (fun mv => sample (fst mv) (snd mv)) mvs
    /\ isTracking s = false
    /\ lastInputSource s = Some SrcTouch
    /\ r_inputType r = TOUCH
    /\ thresholdUsed r = thresholdTouch (options this)
    /\ d_dwell (analysisDetails r) = ec 0%nat - sc 1%nat
    /\ d_reaction (analysisDetails r) = Math_max (sc 1%nat - sc 0%nat) 100.
Proof.
  set (s1 := handleStart (handleEntry (with_lastInputSource this (Some SrcTouch)) touch
                                      (sc 0%nat)) touch (sc 1%nat) (sc 2%nat)).
  destruct (tracked_gesture s1 SrcTouch (map (fun mv => (ByTouchmove (fst mv), snd mv)) mvs)
              ByTouchend ec rect) as (r & s & R & Ps & Ts & Ss & Hty & Hth & Hd & Hr & _);
    try reflexivity.
  { apply Forall_forall. intros mv Hin. apply in_map_iff in Hin.
    destruct Hin as (mv' & <- & _). reflexivity. }
  exists r, s. split.
  - unfold touchGesture. cbn [run dispatch]. fold s1. cbn [fst snd app].
    unfold moveEvents in R. rewrite map_map in R. cbn [fst snd moveEvent releaseEvent] in R.
    rewrite R. reflexivity.
  - rewrite Ps, map_map, Hth, Hd, Hr. cbn [app fst snd moveCoords].
    repeat split; assumption.
Qed.

End WholeGestures.

(** X11 at a closed input: a fresh engine, pressed, moved twice, released. *)
Lemma mouse_gesture_witness :
  exists r s,
    Vhum.run (M := RefMath.host) Samples.fresh
      (Scenes.mouseGesture (Samples.at_ 12 11) (fun _ => 1050%float)
         Samples.twoMoves (fun _ => 1200%float)) Samples.box
    = Some (s, map (fun cb => (cb, r)) (Scenes.subscribersOf Samples.fresh "result"))
    /\ Vhum.points s
       = Scenes.sample (Samples.at_ 12 11) 1050
           :: map (fun mv => Scenes.sample (fst mv) (snd mv)) Samples.twoMoves
    /\ Vhum.isTracking s = false
    /\ Vhum.r_inputType r = MOUSE
    /\ Vhum.thresholdUsed r = Vhum.thresholdMouse (Vhum.options Samples.fresh)
    /\ Vhum.d_dwell (Vhum.analysisDetails r) = (1200 - 1050)%float
    /\ Vhum.d_reaction (Vhum.analysisDetails r)
       = Js.Math_max (1050 - Vhum.t_entry Samples.fresh) 100.
Proof.
  apply (@mouse_gesture RefMath.host Samples.fresh (Samples.at_ 12 11) (fun _ => 1050%float)
           Samples.twoMoves (fun _ => 1200%float) Samples.box).
  simpl. discriminate.
Defined.

(** X13 at a closed input: two clicks on a fresh engine, the second without
    any [mouseenter] since the first. *)
Lemma second_gesture_has_no_entry_witness :
  exists r r' s,
    Vhum.run (M := RefMath.host) Samples.fresh
      (Scenes.mouseGesture (Samples.at_ 12 11) (fun _ => 1050%float)
         Samples.twoMoves (fun _ => 1200%float)
       ++ Scenes.mouseGesture (Samples.at_ 12 11) (fun _ => 3050%float)
            Samples.twoMoves (fun _ => 3200%float)) Samples.box
    = Some (s, (map (fun cb => (cb, r)) (Scenes.subscribersOf Samples.fresh "result")
                ++ map (fun cb => (cb, r')) (Scenes.subscribersOf Samples.fresh "result"))%list)
    /\ Vhum.d_reaction (Vhum.analysisDetails r)
       = Js.Math_max (1050 - Vhum.t_entry Samples.fresh) 100
    /\ Vhum.d_reaction (Vhum.analysisDetails r') = Js.Math_max (3050 - 0) 100
    /\ Vhum.entry_pos s = Vhum.entry_pos Samples.fresh.
Proof.
  apply (@second_gesture_has_no_entry RefMath.host Samples.fresh (Samples.at_ 12 11)
           (Samples.at_ 12 11) (fun _ => 1050%float) (fun _ => 1200%float)
           (fun _ => 3050%float) (fun _ => 3200%float) Samples.twoMoves Samples.twoMoves
           Samples.box).
  simpl. discriminate.
Defined.

(* ================================================================== *)
(** * The input type detector *)
(* ================================================================== *)

Section Detector.
Context {M : MathLib}.
Import Js InputTypeDetector.

(** X14. [detect] never throws, and decides in this order: the source
    named by the caller is the input type, whatever the stream; with no
    source, the answer is 'unknown' exactly when the stream has fewer than
    10 samples, and otherwise it is 'touch' or 'mouse'. *)
Theorem detect_by_source_then_length (points : list Point) :
  detect points (Some SrcTouch) = Some TOUCH
  /\ detect points (Some SrcMouse) = Some MOUSE
  /\ (exists ty, detect points None = Some ty)
  /\ (detect points None = Some UNKNOWN <-> (List.length points < 10)%nat).
Proof.
  split; [reflexivity|]. split; [reflexivity|]. split; [apply detect_total|].
  unfold detect. destruct (List.length points <? 10)%nat eqn:E.
  - apply Nat.ltb_lt in E. split; [intros _; exact E | reflexivity].
  - apply Nat.ltb_ge in E. split; [|lia].
    destruct (_analyzeJitterPattern points); [|discriminate].
    destruct (_analyzeDwellCharacteristics points); [|discriminate].
    cbv zeta. match goal with |- context [if ?c then _ else _] => destruct c end;
      discriminate.
Qed.

(** X15. [_analyzeJitterPattern] throws (a [reduce] of an empty array
    with no initial value) exactly on the streams of fewer than two samples;
    [detect] calls it on streams of 10 samples or more only. *)
Theorem jitter_pattern_throws_below_two (points : list Point) :
  _analyzeJitterPattern points = None <-> (List.length points < 2)%nat.
Proof.
  split.
  - intros H. destruct (Nat.lt_ge_cases (List.length points) 2) as [L|L]; [exact L|].
    destruct (_analyzeJitterPattern_total points L) as (r & Hr). congruence.
  - intros L. destruct points as [|p [|q points]]; [reflexivity | reflexivity|].
    cbn in L. lia.
Qed.

End Detector.

(* ================================================================== *)
(** * Subscriptions *)
(* ================================================================== *)

Section Subscriptions.
Import Vhum Scenes.

Lemma subscribers_store_same (ls : list (string * list Callback)) (event : string)
      (cbs : list Callback) :
  subscribers (store ls event cbs) event = Some cbs.
Proof.
  induction ls as [|[ev old] ls IH]; cbn.
  - rewrite String.eqb_refl. reflexivity.
  - destruct (String.eqb ev event) eqn:E; cbn; rewrite E; [reflexivity | exact IH].
Qed.

Lemma subscribers_store_other (ls : list (string * list Callback)) (event other : string)
      (cbs : list Callback) :
  other <> event ->
  subscribers (store ls event cbs) other = subscribers ls other.
Proof.
  intros N. induction ls as [|[ev old] ls IH]; cbn.
  - destruct (String.eqb event other) eqn:E; [|reflexivity].
    apply String.eqb_eq in E. congruence.
  - destruct (String.eqb ev event) eqn:E; cbn.
    + apply String.eqb_eq in E. subst ev.
      destruct (String.eqb event other) eqn:E'; [|reflexivity].
      apply String.eqb_eq in E'. congruence.
    + rewrite IH. reflexivity.
Qed.

Lemma map_filter_fst {D : Type} (p : Callback -> bool) (data : D) (cbs : list Callback) :
  map (fun cb => (cb, data)) (filter p cbs)
  = filter (fun call => p (fst call)) (map (fun cb => (cb, data)) cbs).
Proof.
  induction cbs as [|cb cbs IH]; [reflexivity|].
  cbn. destruct (p cb); cbn; rewrite IH; reflexivity.
Qed.

(** X16. [on] appends: after [on(event, callback)] an [emit] of that
    event makes the calls it made before, in the same order, and then calls
    the new callback (once more if it was subscribed already); the [emit] of
    any other event is unchanged.  (For the events that are no name
    inherited from [Object.prototype].) *)
Theorem on_appends_a_call {D : Type} (this : State) (event : string) (callback : Callback)
        (data : D) :
  plain event = true ->
  emit (on this event callback) event data = (emit this event data ++ [(callback, data)])%list
  /\ forall other : string,
       plain other = true -> other <> event ->
       emit (on this event callback) other data = emit this other data.
Proof.
  intros _. unfold emit, on. cbn [listeners with_listeners]. split.
  - rewrite subscribers_store_same.
    destruct (subscribers (listeners this) event); cbn [app]; [|reflexivity].
    rewrite map_app. reflexivity.
  - intros other _ N. rewrite (subscribers_store_other _ _ _ _ N). reflexivity.
Qed.

(** X17. [off] removes every subscription of the callback to the event
    and keeps the others in their order: after [off(event, callback)] an
    [emit] of that event makes the calls it made before except those to
    [callback]; the [emit] of any other event is unchanged; and [off] undoes
    [on] only up to the earlier subscriptions of the same callback, which it
    removes as well.  (For the events that are no name inherited from
    [Object.prototype].) *)
Theorem off_removes_every_call {D : Type} (this : State) (event : string)
        (callback : Callback) (data : D) :
  plain event = true ->
  emit (off this event callback) event data
  = filter (fun call => negb (Nat.eqb (fst call) callback)) (emit this event data)
  /\ (forall other : string,
        plain other = true -> other <> event ->
        emit (off this event callback) other data = emit this other data)
  /\ emit (off (on this event callback) event callback) event data
     = filter (fun call => negb (Nat.eqb (fst call) callback)) (emit this event data).
Proof.
  intros _.
  assert (Hoff : forall s : State,
             emit (off s event callback) event data
             = filter (fun call => negb (Nat.eqb (fst call) callback)) (emit s event data)).
  { intros s. unfold emit, off.
    destruct (subscribers (listeners s) event) as [cbs|] eqn:E.
    - cbn [listeners with_listeners]. rewrite subscribers_store_same.
      exact (map_filter_fst (fun cb => negb (Nat.eqb cb callback)) data cbs).
    - rewrite E. reflexivity. }
  split; [apply Hoff|]. split.
  - intros other _ N. unfold emit, off.
    destruct (subscribers (listeners this) event) as [cbs|] eqn:E; [|reflexivity].
    cbn [listeners with_listeners]. rewrite (subscribers_store_other _ _ _ _ N). reflexivity.
  - rewrite Hoff. unfold emit at 1, on. cbn [listeners with_listeners].
    rewrite subscribers_store_same.
    unfold emit. destruct (subscribers (listeners this) event) as [cbs|]; cbn [app].
    + rewrite map_app, filter_app. cbn [map filter fst].
      rewrite Nat.eqb_refl. cbn [negb]. apply app_nil_r.
    + cbn. rewrite Nat.eqb_refl. reflexivity.
Qed.

End Subscriptions.

(** X16 at a closed input: a second subscriber of 'result' on the engine
    that has the subscriber 7. *)
Lemma on_appends_a_call_witness :
  Vhum.emit (Vhum.on Samples.fresh "result" 8%nat) "result" tt
  = (Vhum.emit Samples.fresh "result" tt ++ [(8%nat, tt)])%list
  /\ forall other : string,
       Scenes.plain other = true -> other <> "result"%string ->
       Vhum.emit (Vhum.on Samples.fresh "result" 8%nat) other tt
       = Vhum.emit Samples.fresh other tt.
Proof.
  apply (@on_appends_a_call unit Samples.fresh "result" 8%nat tt). reflexivity.
Defined.

(** X17 at a closed input: the subscriber 7 of 'result' is removed. *)
Lemma off_removes_every_call_witness :
  Vhum.emit (Vhum.off Samples.fresh "result" 7%nat) "result" tt
  = filter (fun call => negb (Nat.eqb (fst call) 7%nat)) (Vhum.emit Samples.fresh "result" tt)
  /\ (forall other : string,
        Scenes.plain other = true -> other <> "result"%string ->
        Vhum.emit (Vhum.off Samples.fresh "result" 7%nat) other tt
        = Vhum.emit Samples.fresh other tt)
  /\ Vhum.emit (Vhum.off (Vhum.on Samples.fresh "result" 7%nat) "result" 7%nat) "result" tt
     = filter (fun call => negb (Nat.eqb (fst call) 7%nat)) (Vhum.emit Samples.fresh "result" tt).
Proof.
  apply (@off_removes_every_call unit Samples.fresh "result" 7%nat tt). reflexivity.
Defined.

(* ================================================================== *)
(** * The legacy verifier's recordings *)
(* ================================================================== *)

Section Legacy.
Import HumanVerifier Runs LegacyScenes.
Open Scope Z_scope.

Lemma numbered_cons {A : Type} (c : Z) (ev : A) (evs : list A) :
  numbered c (ev :: evs) = (c + 1, ev) :: numbered (c + 1) evs.
Proof.
  unfold numbered. cbn [List.length seq map combine]. f_equal.
  rewrite <- seq_shift, map_map. f_equal. apply map_ext. intros i. lia.
Qed.

(** What one mouse move leaves untouched. *)
Lemma handleMouseMove_frame (s : State) (e : MouseEvent) (now : Z) :
  isTracking (handleMouseMove s e now) = isTracking s
  /\ dataObject (handleMouseMove s e now) = dataObject s
  /\ touchEndBlock (handleMouseMove s e now) = touchEndBlock s
  /\ moveSampleRate (handleMouseMove s e now) = moveSampleRate s.
Proof.
  unfold handleMouseMove.
  destruct (negb (isTracking s) || negb (isKind s MOUSE_GESTURE)); [repeat split; reflexivity|].
  cbv zeta. destruct (notMultiple _ _); repeat split; reflexivity.
Qed.

(** The moves of a mouse recording: which are retained, and the counter. *)
Lemma mouseMoves_kept (evs : list (MouseEvent * Z)) :
  forall s : State,
    isTracking s = true ->
    isKind s MOUSE_GESTURE = true ->
    moveEvents (mouseMoves s evs)
    = (moveEvents s ++ keptOf (moveCounter s) (moveSampleRate s) evs)%list
    /\ moveCounter (mouseMoves s evs) = moveCounter s + Z.of_nat (List.length evs)
    /\ isTracking (mouseMoves s evs) = true
    /\ dataObject (mouseMoves s evs) = dataObject s
    /\ touchEndBlock (mouseMoves s evs) = touchEndBlock s
    /\ moveSampleRate (mouseMoves s evs) = moveSampleRate s.
Proof.
  induction evs as [|[e now] evs IH]; intros s T K.
  - cbn. rewrite app_nil_r, Z.add_0_r. repeat split; assumption.
  - unfold mouseMoves. cbn [fold_left fst snd]. fold (mouseMoves (handleMouseMove s e now) evs).
    destruct (handleMouseMove_step s e now T K) as (Hc & Hr & Ht & Hk & Hm).
    destruct (handleMouseMove_frame s e now) as (_ & Hd & Hb & _).
    destruct (IH _ Ht Hk) as (I1 & I2 & I3 & I4 & I5 & I6).
    rewrite I1, I2, I4, I5, I6, Hc, Hr, Hm, Hd, Hb.
    split; [|repeat split; try assumption; cbn [List.length]; lia].
    unfold keptOf. rewrite numbered_cons. cbn [filter map fst snd].
    destruct (notMultiple (moveCounter s + 1) (moveSampleRate s)); cbn [negb map fst snd];
      [reflexivity|]. rewrite <- app_assoc. reflexivity.
Qed.

(** X18. A whole mouse recording of the legacy verifier (a left press on
    an idle verifier outside the block that follows a touch, moves, a
    release): the report displayed has the press and the release data, the
    checkbox state at both, the duration between the two readings of the
    clock, the number of all moves as [totalMoveEvents], and as samples
    exactly the moves whose number (from 1) is a multiple of the sampling
    divisor, in order; the verifier is idle again with no sample, but keeps
    the move counter. *)
Theorem legacy_mouse_recording (s : State) (e e' : MouseEvent) (checked checked' : bool)
        (clock clock' : nat -> Z) (evs : list (MouseEvent * Z)) :
  isTracking s = false ->
  button e = 0 ->
  touchEndBlock s <= clock 0%nat ->
  touchEndBlock s <= clock' 0%nat ->
  handleMouseUp (mouseMoves (handleMouseDown s e checked clock) evs) e' checked' clock'
  = ({| isTracking := false; dataObject := None; moveEvents := [];
        touchEndBlock := touchEndBlock s; moveSampleRate := moveSampleRate s;
        moveCounter := Z.of_nat (List.length evs) |},
     Some {| r_gesture := {| type := MOUSE_GESTURE; startTimestamp := clock 1%nat;
                             startData := Some (getMouseData e (clock 2%nat));
                             initialCheckboxState := Some checked |};
             endTimestamp := clock' 1%nat;
             endData := Some (getMouseData e' (clock' 2%nat));
             finalCheckboxState := Some checked';
             r_moveEvents := keptOf 0 (moveSampleRate s) evs;
             duration := clock' 1%nat - clock 1%nat;
             totalMoveEvents := Z.of_nat (List.length evs);
             sampledMoveEvents := Z.of_nat (List.length (keptOf 0 (moveSampleRate s) evs)) |}).
Proof.
  intros T B C C'.
  assert (D : handleMouseDown s e checked clock
              = {| isTracking := true;
                   dataObject := Some {| type := MOUSE_GESTURE; startTimestamp := clock 1%nat;
                                         startData := Some (getMouseData e (clock 2%nat));
                                         initialCheckboxState := Some checked |};
                   moveEvents := []; touchEndBlock := touchEndBlock s;
                   moveSampleRate := moveSampleRate s; moveCounter := 0 |}).
  { unfold handleMouseDown. rewrite T, B.
    replace (clock 0%nat <? touchEndBlock s) with false by (symmetry; apply Z.ltb_ge; exact C).
    reflexivity. }
  rewrite D.
  match goal with |- handleMouseUp (mouseMoves ?d evs) _ _ _ = _ => set (s1 := d) end.
  destruct (mouseMoves_kept evs s1 eq_refl eq_refl) as (I1 & I2 & I3 & I4 & I5 & I6).
  cbn in I1, I2, I4, I5, I6.
  unfold handleMouseUp, isKind, resetState. rewrite I1, I2, I3, I4, I5, I6.
  replace (clock' 0%nat <? touchEndBlock s) with false by (symmetry; apply Z.ltb_ge; exact C').
  reflexivity.
Qed.

Lemma mouseMoves_zero_rate (evs : list (MouseEvent * Z)) :
  forall s : State,
    moveSampleRate s = 0 -> moveEvents (mouseMoves s evs) = moveEvents s.
Proof.
  induction evs as [|[e now] evs IH]; intros s Z0; [reflexivity|].
  unfold mouseMoves. cbn [fold_left fst snd]. fold (mouseMoves (handleMouseMove s e now) evs).
  destruct (handleMouseMove_frame s e now) as (_ & _ & _ & Hr).
  rewrite IH by congruence.
  unfold handleMouseMove.
  destruct (negb (isTracking s) || negb (isKind s MOUSE_GESTURE)); [reflexivity|].
  cbv zeta. unfold notMultiple. cbn [moveSampleRate counted]. rewrite Z0. reflexivity.
Qed.

(** X19. A verifier built with the sampling divisor 0 retains no move at
    all: the remainder by 0 is NaN, which is not 0, so every move is
    skipped; the report of a recording has no sample, however many moves
    were counted. *)
Theorem zero_divisor_retains_nothing (s : State) (evs : list (MouseEvent * Z)) :
  moveSampleRate s = 0 ->
  moveEvents (mouseMoves s evs) = moveEvents s
  /\ forall c : Z, keptOf c 0 evs = [].
Proof.
  intros Z0. split; [exact (mouseMoves_zero_rate evs s Z0)|].
  intros c. unfold keptOf.
  replace (filter _ (numbered c evs)) with (@nil (Z * (MouseEvent * Z))); [reflexivity|].
  symmetry. generalize (numbered c evs). intros l.
  induction l as [|a l IH]; [reflexivity|]. cbn. exact IH.
Qed.

(** X20. The click that a browser synthesises after a touch is not
    recorded: once a touch recording has been reported, a [mousedown] and a
    [mouseup] that read the clock less than 300 ms after the end of the
    touch leave the verifier as it is and report nothing; a left
    [mousedown] from 300 ms on starts a mouse recording. *)
Theorem ghost_click_is_suppressed (s s' : State) (te : option Touch) (clock clock' : nat -> Z)
        (report : Report) (me : MouseEvent) (checked : bool) :
  handleTouchEnd s te clock = (s', Some report) ->
  touchEndBlock s' = clock 0%nat + 300
  /\ (clock' 0%nat < clock 0%nat + 300 ->
      handleMouseDown s' me checked clock' = s'
      /\ handleMouseUp s' me checked clock' = (s', None))
  /\ (clock 0%nat + 300 <= clock' 0%nat -> button me = 0 ->
      isTracking (handleMouseDown s' me checked clock') = true
      /\ isKind (handleMouseDown s' me checked clock') MOUSE_GESTURE = true).
Proof.
  intros H. unfold handleTouchEnd in H.
  destruct (negb (isTracking s) || negb (isKind s TOUCH_GESTURE)); [discriminate H|].
  destruct (dataObject s) as [g|]; [|discriminate H].
  cbv zeta in H. inversion H; subst; clear H.
  unfold handleMouseDown, handleMouseUp, resetState, BLOCK_DURATION.
  cbn [touchEndBlock isTracking]. split; [reflexivity|]. split.
  - intros L. apply Z.ltb_lt in L. rewrite L. split; reflexivity.
  - intros L B. apply Z.ltb_ge in L. rewrite L, B. split; reflexivity.
Qed.

(** X21. The two kinds of recording do not mix: while a touch recording
    is open the mouse handlers change nothing and report nothing, and while
    a mouse recording is open the touch handlers change nothing and report
    nothing; on an idle verifier the move and release handlers of both kinds
    do nothing. *)
Theorem recordings_do_not_mix (s : State) (me : MouseEvent) (te : option Touch)
        (checked : bool) (clock : nat -> Z) (now : Z) :
  (isTracking s = true -> isKind s TOUCH_GESTURE = true ->
   handleMouseDown s me checked clock = s
   /\ handleMouseMove s me now = s
   /\ handleMouseUp s me checked clock = (s, None))
  /\ (isTracking s = true -> isKind s MOUSE_GESTURE = true ->
      handleTouchStart s te clock = s
      /\ handleTouchMove s te now = s
      /\ handleTouchEnd s te clock = (s, None))
  /\ (isTracking s = false ->
      handleMouseMove s me now = s
      /\ handleMouseUp s me checked clock = (s, None)
      /\ handleTouchMove s te now = s
      /\ handleTouchEnd s te clock = (s, None)).
Proof.
  assert (X : isKind s TOUCH_GESTURE = true -> isKind s MOUSE_GESTURE = false).
  { unfold isKind. destruct (dataObject s) as [g|]; [destruct (type g)|]; congruence. }
  assert (Y : isKind s MOUSE_GESTURE = true -> isKind s TOUCH_GESTURE = false).
  { unfold isKind. destruct (dataObject s) as [g|]; [destruct (type g)|]; congruence. }
  unfold handleMouseDown, handleMouseMove, handleMouseUp, handleTouchStart, handleTouchMove,
    handleTouchEnd.
  split; [|split].
  - intros T K. rewrite T, (X K). cbn [negb orb].
    destruct (clock 0%nat <? touchEndBlock s); rewrite ?Bool.orb_true_r;
      repeat split; reflexivity.
  - intros T K. rewrite T, (Y K). repeat split; reflexivity.
  - intros T. rewrite T. cbn [negb orb].
    destruct (clock 0%nat <? touchEndBlock s); repeat split; reflexivity.
Qed.

(** X22. Unchecking the checkbox discards the recording in progress:
    after the [change] listener has seen the box unchecked the verifier is
    idle with no sample, and the release that follows, of the mouse or of
    the touch, reports nothing; a [change] that finds the box checked
    changes nothing. *)
Theorem unchecking_discards_recording (s : State) (me : MouseEvent) (te : option Touch)
        (checked : bool) (clock : nat -> Z) :
  isTracking (handleChange s false) = false
  /\ moveEvents (handleChange s false) = []
  /\ handleMouseUp (handleChange s false) me checked clock = (handleChange s false, None)
  /\ handleTouchEnd (handleChange s false) te clock = (handleChange s false, None)
  /\ handleChange s true = s.
Proof.
  unfold handleChange, handleMouseUp, handleTouchEnd, resetState. cbn.
  destruct (clock 0%nat <? touchEndBlock s); repeat split; reflexivity.
Qed.

Lemma handleTouchMove_step (s : State) (e : option Touch) (now : Z) :
  isTracking s = true ->
  isKind s TOUCH_GESTURE = true ->
  moveCounter (handleTouchMove s e now) = moveCounter s + 1
  /\ moveSampleRate (handleTouchMove s e now) = moveSampleRate s
  /\ isTracking (handleTouchMove s e now) = true
  /\ isKind (handleTouchMove s e now) TOUCH_GESTURE = true
  /\ dataObject (handleTouchMove s e now) = dataObject s
  /\ touchEndBlock (handleTouchMove s e now) = touchEndBlock s
  /\ moveEvents (handleTouchMove s e now)
     = (moveEvents s
        ++ if notMultiple (moveCounter s + 1) (moveSampleRate s) then []
           else match getTouchData e now with
                | Some d => [d]
                | None => []
                end)%list.
Proof.
  intros T K. unfold handleTouchMove. rewrite T, K. cbn [negb orb]. cbv zeta.
  cbn [moveCounter moveSampleRate counted].
  destruct (notMultiple (moveCounter s + 1) (moveSampleRate s)).
  - cbn. rewrite app_nil_r. repeat split; assumption.
  - destruct (getTouchData e now); cbn; rewrite ?app_nil_r; repeat split; assumption.
Qed.

(** The moves of a touch recording: which are retained, and the counter. *)
Lemma touchMoves_kept (evs : list (option Touch * Z)) :
  forall s : State,
    isTracking s = true ->
    isKind s TOUCH_GESTURE = true ->
    moveEvents (touchMoves s evs)
    = (moveEvents s ++ touchKeptOf (moveCounter s) (moveSampleRate s) evs)%list
    /\ moveCounter (touchMoves s evs) = moveCounter s + Z.of_nat (List.length evs)
    /\ isTracking (touchMoves s evs) = true
    /\ dataObject (touchMoves s evs) = dataObject s
    /\ touchEndBlock (touchMoves s evs) = touchEndBlock s
    /\ moveSampleRate (touchMoves s evs) = moveSampleRate s.
Proof.
  induction evs as [|[e now] evs IH]; intros s T K.
  - cbn. rewrite app_nil_r, Z.add_0_r. repeat split; assumption.
  - unfold touchMoves. cbn [fold_left fst snd]. fold (touchMoves (handleTouchMove s e now) evs).
    destruct (handleTouchMove_step s e now T K) as (Hc & Hr & Ht & Hk & Hd & Hb & Hm).
    destruct (IH _ Ht Hk) as (I1 & I2 & I3 & I4 & I5 & I6).
    rewrite I1, I2, I4, I5, I6, Hc, Hr, Hm, Hd, Hb.
    split; [|repeat split; try assumption; cbn [List.length]; lia].
    unfold touchKeptOf. rewrite numbered_cons. cbn [flat_map fst snd].
    rewrite <- app_assoc. reflexivity.
Qed.

(** X23. A whole touch recording of the legacy verifier (a [touchstart]
    on an idle verifier, touch moves, a [touchend]): the report has the
    start data, the duration between the two readings of the clock, the
    number of all moves as [totalMoveEvents], and as samples exactly the
    moves whose number (from 1) is a multiple of the sampling divisor and
    that carry a changed touch, in order.  Its end data is that of the
    changed touch of the [touchend] or, when it has none, the data of the
    start stamped with the time of the end.  The verifier is idle again with
    no sample, keeps the move counter, and its block ends 300 ms after the
    first reading of the clock by [touchend]. *)
Theorem legacy_touch_recording (s : State) (e e' : option Touch) (clock clock' : nat -> Z)
        (evs : list (option Touch * Z)) :
  isTracking s = false ->
  handleTouchEnd (touchMoves (handleTouchStart s e clock) evs) e' clock'
  = ({| isTracking := false; dataObject := None; moveEvents := [];
        touchEndBlock := clock' 0%nat + 300; moveSampleRate := moveSampleRate s;
        moveCounter := Z.of_nat (List.length evs) |},
     Some {| r_gesture := {| type := TOUCH_GESTURE; startTimestamp := clock 0%nat;
                             startData := getTouchData e (clock 1%nat);
                             initialCheckboxState := None |};
             endTimestamp := clock' 1%nat;
             endData := match getTouchData e' (clock' 2%nat) with
                        | Some d => Some d
                        | None => option_map (fun d => restamped d (clock' 1%nat))
                                             (getTouchData e (clock 1%nat))
                        end;
             finalCheckboxState := None;
             r_moveEvents := touchKeptOf 0 (moveSampleRate s) evs;
             duration := clock' 1%nat - clock 0%nat;
             totalMoveEvents := Z.of_nat (List.length evs);
             sampledMoveEvents
             := Z.of_nat (List.length (touchKeptOf 0 (moveSampleRate s) evs)) |}).
Proof.
  intros T. unfold handleTouchStart. rewrite T.
  match goal with |- handleTouchEnd (touchMoves ?d evs) _ _ = _ => set (s1 := d) end.
  destruct (touchMoves_kept evs s1 eq_refl eq_refl) as (I1 & I2 & I3 & I4 & I5 & I6).
  cbn in I1, I2, I4, I5, I6.
  unfold handleTouchEnd, isKind, resetState, restamped, BLOCK_DURATION.
  rewrite I1, I2, I3, I4, I6. cbn.
  destruct (getTouchData e' (clock' 2%nat)); [reflexivity|].
  destruct (getTouchData e (clock 1%nat)); reflexivity.
Qed.

End Legacy.

(** X18 at a closed input: a click on a new verifier, twelve moves, the
    release. *)
Lemma legacy_mouse_recording_witness :
  option_map HumanVerifier.totalMoveEvents
    (snd (HumanVerifier.handleMouseUp
            (Runs.mouseMoves
               (HumanVerifier.handleMouseDown Samples.legacy Samples.click false Samples.wallClock)
               Samples.twelveMoves)
            Samples.click true Samples.wallClock)) = Some 12%Z
  /\ option_map HumanVerifier.sampledMoveEvents
       (snd (HumanVerifier.handleMouseUp
               (Runs.mouseMoves
                  (HumanVerifier.handleMouseDown Samples.legacy Samples.click false
                     Samples.wallClock)
                  Samples.twelveMoves)
               Samples.click true Samples.wallClock)) = Some 2%Z.
Proof.
  rewrite (legacy_mouse_recording Samples.legacy Samples.click Samples.click false true
             Samples.wallClock Samples.wallClock Samples.twelveMoves);
    [split; reflexivity | reflexivity | reflexivity | vm_compute; discriminate
     | vm_compute; discriminate].
Defined.

(** X19 at a closed input: twelve moves of a recording with the divisor 0. *)
Lemma zero_divisor_retains_nothing_witness :
  HumanVerifier.moveEvents (Runs.mouseMoves LegacyScenes.unsampled Samples.twelveMoves) = [].
Proof.
  exact (proj1 (zero_divisor_retains_nothing LegacyScenes.unsampled Samples.twelveMoves eq_refl)).
Defined.

(** X20 at a closed input: a touch that ends at 5040, a click at 5140 and
    a press at 5440. *)
Lemma ghost_click_is_suppressed_witness :
  HumanVerifier.handleMouseDown
    (fst (HumanVerifier.handleTouchEnd LegacyScenes.touching (Some LegacyScenes.finger)
            (fun k => 5040 + Z.of_nat k)%Z))
    Samples.click false LegacyScenes.soon
  = fst (HumanVerifier.handleTouchEnd LegacyScenes.touching (Some LegacyScenes.finger)
           (fun k => 5040 + Z.of_nat k)%Z)
  /\ HumanVerifier.isTracking
       (HumanVerifier.handleMouseDown
          (fst (HumanVerifier.handleTouchEnd LegacyScenes.touching (Some LegacyScenes.finger)
                  (fun k => 5040 + Z.of_nat k)%Z))
          Samples.click false LegacyScenes.later) = true.
Proof.
  destruct (ghost_click_is_suppressed LegacyScenes.touching _ (Some LegacyScenes.finger)
              (fun k => 5040 + Z.of_nat k)%Z LegacyScenes.soon _ Samples.click false eq_refl)
    as (_ & Soon & _).
  destruct (ghost_click_is_suppressed LegacyScenes.touching _ (Some LegacyScenes.finger)
              (fun k => 5040 + Z.of_nat k)%Z LegacyScenes.later _ Samples.click false eq_refl)
    as (_ & _ & Later).
  split; [apply Soon; reflexivity | apply Later; [vm_compute; discriminate | reflexivity]].
Defined.

(** X21 at a closed input: a mouse move, a press and a release during the
    touch recording of [LegacyScenes.touching]. *)
Lemma recordings_do_not_mix_witness :
  HumanVerifier.handleMouseDown LegacyScenes.touching Samples.click false LegacyScenes.soon
  = LegacyScenes.touching
  /\ HumanVerifier.handleMouseMove LegacyScenes.touching Samples.click 5100 = LegacyScenes.touching
  /\ HumanVerifier.handleMouseUp LegacyScenes.touching Samples.click false LegacyScenes.soon
     = (LegacyScenes.touching, None).
Proof.
  exact (proj1 (recordings_do_not_mix LegacyScenes.touching Samples.click None false
                  LegacyScenes.soon 5100%Z) eq_refl eq_refl).
Defined.

(** X23 at a closed input: the touch of [LegacyScenes.finger] on a new
    verifier, moved five times and ended with no changed touch. *)
Lemma legacy_touch_recording_witness :
  option_map HumanVerifier.endData
    (snd (HumanVerifier.handleTouchEnd
            (LegacyScenes.touchMoves
               (HumanVerifier.handleTouchStart Samples.legacy (Some LegacyScenes.finger)
                  Samples.wallClock)
               [(Some LegacyScenes.finger, 5010%Z); (Some LegacyScenes.finger, 5020%Z);
                (None, 5030%Z); (Some LegacyScenes.finger, 5040%Z);
                (Some LegacyScenes.finger, 5050%Z)])
            None LegacyScenes.soon))
  = Some (option_map (fun d => LegacyScenes.restamped d (LegacyScenes.soon 1%nat))
            (HumanVerifier.getTouchData (Some LegacyScenes.finger) (Samples.wallClock 1%nat)))
  /\ option_map (fun r => List.length (HumanVerifier.r_moveEvents r))
       (snd (HumanVerifier.handleTouchEnd
               (LegacyScenes.touchMoves
                  (HumanVerifier.handleTouchStart Samples.legacy (Some LegacyScenes.finger)
                     Samples.wallClock)
                  [(Some LegacyScenes.finger, 5010%Z); (Some LegacyScenes.finger, 5020%Z);
                   (None, 5030%Z); (Some LegacyScenes.finger, 5040%Z);
                   (Some LegacyScenes.finger, 5050%Z)])
               None LegacyScenes.soon)) = Some 1%nat.
Proof.
  rewrite (legacy_touch_recording Samples.legacy (Some LegacyScenes.finger) None
             Samples.wallClock LegacyScenes.soon
             [(Some LegacyScenes.finger, 5010%Z); (Some LegacyScenes.finger, 5020%Z);
              (None, 5030%Z); (Some LegacyScenes.finger, 5040%Z);
              (Some LegacyScenes.finger, 5050%Z)] eq_refl).
  split; reflexivity.
Defined.

(* ================================================================== *)
(** * Short streams and gestures that never start *)
(* ================================================================== *)

Section ShortStreams.
Context {M : MathLib}.
Import Js Vhum Scenes.
Open Scope float_scope.

(** X24. A gesture of one or two samples (a click with at most one move)
    is not measured: every extractor returns its constants, and the Result
    reports the speed, acceleration, curvature and pause scores 0, the
    temporal ratio 0 and the jitter coefficient 0.2, whatever the samples
    are. *)
Theorem short_stream_reports_constants (this : State) (t_up : float) (rect : Rect) :
  (List.length (points this) < 3)%nat ->
  exists r this' calls,
    finalize this t_up rect = Some (r, this', calls)
    /\ d_speed (analysisDetails r) = 0
    /\ d_accel (analysisDetails r) = 0
    /\ d_curvature (analysisDetails r) = 0
    /\ d_pauses (analysisDetails r) = 0
    /\ d_temporal (analysisDetails r) = 0
    /\ d_jitter (analysisDetails r) = 0.2.
Proof.
  intros L.
  assert (L3 : (List.length (points this) <? 3)%nat = true) by (apply Nat.ltb_lt; lia).
  assert (L4 : (List.length (points this) <? 4)%nat = true) by (apply Nat.ltb_lt; lia).
  assert (L5 : (List.length (points this) <? 5)%nat = true) by (apply Nat.ltb_lt; lia).
  destruct (finalize_total this t_up rect) as (r & s & calls & H).
  exists r, s, calls. split; [exact H|].
  destruct (finalize_details _ _ _ _ _ _ H)
    as (s0 & j & c & t & _ & Hj & Hc & Ht & Ejit & Espeed & Eaccel & Ecurv & Epause & Etemp & _).
  rewrite Ejit, Espeed, Eaccel, Ecurv, Epause, Etemp.
  unfold analyzeJitter in Hj. rewrite L5 in Hj. inversion Hj; subst j.
  unfold analyzeCurvature in Hc. rewrite L4 in Hc. inversion Hc; subst c.
  unfold checkTemporalPrecision in Ht. rewrite L5 in Ht. inversion Ht; subst t.
  unfold analyzeSpeed, analyzeAcceleration, countPauses. rewrite L3, L4.
  repeat split; reflexivity.
Qed.

Lemma run_moves_idle (mvs : list (Move * float)) (rect : Rect) (this : State) :
  isTracking this = false -> run this (moveEvents mvs) rect = Some (this, []).
Proof.
  intros T. induction mvs as [|[m t] mvs IH]; [reflexivity|].
  cbn [moveEvents map run fst snd]. rewrite dispatch_move.
  unfold accepts. rewrite T. cbn [andb fst snd].
  fold (moveEvents mvs). rewrite IH. reflexivity.
Qed.

(** X25. A touch or a pen that the browser reports by pointer events
    alone is never analysed: on an idle engine a [pointerdown] of type
    touch or pen starts no gesture, so the moves that follow leave no sample
    and the release that follows, of any kind, produces no Result; the touch
    only names the input source when there is none. *)
Theorem pointer_touch_alone_is_not_analysed (this : State) (e : Coords) (clock : nat -> float)
        (mvs : list (Move * float)) (rel : Release) (rc : nat -> float) (rect : Rect) :
  isTracking this = false ->
  run this ((pointerdown PointerTouch e, clock) :: moveEvents mvs ++ [(releaseEvent rel, rc)])
      rect
  = Some (sourceIfNone this SrcTouch, [])
  /\ run this ((pointerdown PointerPen e, clock) :: moveEvents mvs ++ [(releaseEvent rel, rc)])
         rect
     = Some (this, []).
Proof.
  intros T.
  assert (Idle : forall s : State,
             isTracking s = false ->
             run s (moveEvents mvs ++ [(releaseEvent rel, rc)]) rect = Some (s, [])).
  { intros s Ts.
    apply (run_app _ _ _ _ _ _ _ _ (run_moves_idle mvs rect s Ts)).
    cbn [run]. rewrite dispatch_release. unfold releases. rewrite Ts. reflexivity. }
  cbn [run dispatch fst snd]. split.
  - rewrite Idle; [reflexivity|].
    unfold sourceIfNone. destruct (lastInputSource this); exact T.
  - rewrite (Idle this T). reflexivity.
Qed.

End ShortStreams.

(** X24 at a closed input: the engine that was pressed and not moved. *)
Lemma short_stream_reports_constants_witness :
  exists r this' calls,
    Vhum.finalize (M := RefMath.host) Samples.pressed 1200 Samples.box = Some (r, this', calls)
    /\ Vhum.d_speed (Vhum.analysisDetails r) = 0%float
    /\ Vhum.d_accel (Vhum.analysisDetails r) = 0%float
    /\ Vhum.d_curvature (Vhum.analysisDetails r) = 0%float
    /\ Vhum.d_pauses (Vhum.analysisDetails r) = 0%float
    /\ Vhum.d_temporal (Vhum.analysisDetails r) = 0%float
    /\ Vhum.d_jitter (Vhum.analysisDetails r) = 0.2%float.
Proof.
  apply (@short_stream_reports_constants RefMath.host Samples.pressed 1200%float Samples.box).
  vm_compute. lia.
Defined.

(** X25 at a closed input: a finger reported by pointer events on a fresh
    engine. *)
Lemma pointer_touch_alone_is_not_analysed_witness :
  Vhum.run (M := RefMath.host) Samples.fresh
    ((Vhum.pointerdown Vhum.PointerTouch (Samples.at_ 12 11), fun _ => 1050%float)
       :: Scenes.moveEvents
            [(Scenes.ByPointermove Vhum.PointerTouch (Samples.at_ 20 15), 1066%float)]
       ++ [(Scenes.releaseEvent Scenes.ByPointerup, fun _ => 1200%float)])
    Samples.box
  = Some (Vhum.sourceIfNone Samples.fresh SrcTouch, []).
Proof.
  exact (proj1 (@pointer_touch_alone_is_not_analysed RefMath.host Samples.fresh
                  (Samples.at_ 12 11) (fun _ => 1050%float)
                  [(Scenes.ByPointermove Vhum.PointerTouch (Samples.at_ 20 15), 1066%float)]
                  Scenes.ByPointerup (fun _ => 1200%float) Samples.box eq_refl)).
Defined.

Section StaleSource.
Context {M : MathLib}.
Import Js Vhum Scenes.

Lemma filter_none {A : Type} (f : A -> bool) (l : list A) :
  Forall (fun a => f a = false) l -> filter f l = [].
Proof.
  induction 1 as [|a l Ha _ IH]; [reflexivity|]. cbn. rewrite Ha. exact IH.
Qed.

(** X26. The source of the last touch outlives the touch: only
    [mouseenter] sets the source back to mouse.  On an engine whose source
    is touch, a mouse gesture by [mousedown], mouse moves and [mouseup]
    starts tracking but is never finished: its moves leave no sample, the
    [mouseup] is dropped, no subscriber is called, and the engine stays
    TRACKING with the sample of the press alone. *)
Theorem mouse_after_touch_is_not_finished (this : State) (press : Coords) (pc : nat -> float)
        (mvs : list (Coords * float)) (rc : nat -> float) (rect : Rect) :
  lastInputSource this = Some SrcTouch ->
  exists s,
    run this (mouseGesture press pc mvs rc) rect = Some (s, [])
    /\ isTracking s = true
    /\ points s = [sample press (pc 1%nat)]
    /\ lastInputSource s = Some SrcTouch.
Proof.
  intros S.
  set (s1 := handleStart (sourceIfNone this SrcMouse) press (pc 0%nat) (pc 1%nat)).
  assert (F : isTracking s1 = true /\ lastInputSource s1 = Some SrcTouch
              /\ points s1 = [sample press (pc 1%nat)]).
  { subst s1. unfold handleStart, sourceIfNone. rewrite S. cbn. rewrite S.
    repeat split; reflexivity. }
  destruct F as (T1 & S1 & P1).
  destruct (run_moves (map (fun mv => (ByMousemove (fst mv), snd mv)) mvs) rect s1)
    as (s2 & R & P & T2 & S2 & _).
  rewrite filter_none in P.
  2:{ apply Forall_forall. intros mv Hin. apply in_map_iff in Hin.
      destruct Hin as (mv' & <- & _). unfold accepts, sourceIs. cbn [fst moveSource].
      rewrite S1. apply Bool.andb_false_r. }
  cbn [map] in P. rewrite app_nil_r in P.
  exists s2. split.
  - unfold mouseGesture. cbn [run dispatch]. fold s1. cbn [fst snd app].
    unfold moveEvents in R. rewrite map_map in R. cbn [fst snd moveEvent] in R.
    assert (U : run s2 [(mouseup, rc)] rect = Some (s2, []))
      by (cbn [run dispatch]; unfold sourceIs; rewrite S2, S1, Bool.andb_false_r; reflexivity).
    rewrite (run_app _ _ _ _ _ _ _ _ R U). reflexivity.
  - repeat split; congruence.
Qed.

End StaleSource.

(** X26 at a closed input: a click with two moves on a fresh engine that a
    finger has touched before. *)
Lemma mouse_after_touch_is_not_finished_witness :
  exists s,
    Vhum.run (M := RefMath.host) (Vhum.with_lastInputSource Samples.fresh (Some SrcTouch))
      (Scenes.mouseGesture (Samples.at_ 12 11) (fun _ => 1050%float)
         Samples.twoMoves (fun _ => 1200%float)) Samples.box = Some (s, [])
    /\ Vhum.isTracking s = true
    /\ Vhum.points s = [Scenes.sample (Samples.at_ 12 11) 1050]
    /\ Vhum.lastInputSource s = Some SrcTouch.
Proof.
  apply (@mouse_after_touch_is_not_finished RefMath.host
           (Vhum.with_lastInputSource Samples.fresh (Some SrcTouch)) (Samples.at_ 12 11)
           (fun _ => 1050%float) Samples.twoMoves (fun _ => 1200%float) Samples.box).
  reflexivity.
Defined.
